(** * A Rocq model of the [zillow] Go package (src/zillow.go)

    The package is a thin client: each public method builds a
    [url.Values] map from its request struct, issues one HTTP GET through
    the shared [get] routine and decodes the XML body into a result struct
    whose shape is given by [xml:"..."] struct tags.

    The model is layered the way the program is:
    - the pieces of the Go standard library the code calls
      ([strconv], [strings.TrimSpace], [net/url], the struct-tag driven
      part of [encoding/xml]) are embedded as executable functions in
      modules named after their packages;
    - what lies outside the process (the HTTP server that answers a URL,
      the XML tokenizer's reading of a byte stream, the decimal-to-binary
      conversion of [strconv.ParseFloat]) is an interface, [World];
    - the source file itself: structs as records, tags as field tables,
      and the five functions with explicit passing of the network log. *)

From stdpp Require Import gmap strings sorting.
From Stdlib Require Import Ascii ZArith Floats.

Set Warnings "-register-all".
Local Open Scope Z_scope.

(** ** Go values shared by the packages below *)

(** Go's [int] on the 64-bit targets: a signed 64-bit integer. *)
Definition int : Type := Z.

(** Go's [float64] is IEEE 754 binary64, which is Rocq's primitive [float]. *)
Definition float64 : Type := float.

Inductive NumErr : Type := ErrSyntax | ErrRange.

(** The [error] values that can reach a caller of this package. *)
Inductive error : Type :=
| url_Error (op url msg : string)            (* net/http transport failure *)
| xml_SyntaxError (msg : string)             (* tokenizer: malformed stream *)
| xml_UnmarshalError (msg : string)          (* encoding/xml UnmarshalError *)
| strconv_NumError (func num : string) (err : NumErr)
| errors_New (msg : string).

(** ** Package [strconv] *)

Module strconv.

Definition FormatBool (b : bool) : string :=
  if b then "true" else "false".

Definition digit (d : Z) : ascii := Ascii.ascii_of_N (Z.to_N (48 + d)).

(** The digit loop of [formatBits] for base 10: the digits of [u] are
    written in front of [a], least significant first.  [fuel] bounds the
    number of digits. *)
Fixpoint formatBits (fuel : nat) (u : Z) (a : string) : string :=
  match fuel with
  | O => a
  | S fuel' =>
      if u <? 10 then String (digit u) a
      else formatBits fuel' (u / 10) (String (digit (u mod 10)) a)
  end.

(** [Itoa(i)] is [FormatInt(int64(i), 10)]: the digits of the magnitude,
    with a minus sign in front of a negative number.  A number has no
    more decimal digits than binary ones, which gives the fuel. *)
Definition Itoa (i : int) : string :=
  let u := Z.abs i in
  let a := formatBits (S (Z.to_nat (Z.log2 u))) u "" in
  if i <? 0 then String "-" a else a.

Definition ParseBool (str : string) : bool + error :=
  if bool_decide (str ∈ ["1"; "t"; "T"; "TRUE"; "true"; "True"]) then inl true
  else if bool_decide (str ∈ ["0"; "f"; "F"; "FALSE"; "false"; "False"]) then inl false
  else inr (strconv_NumError "ParseBool" str ErrSyntax).

Definition digit_val (c : ascii) : option Z :=
  let n := Z.of_N (Ascii.N_of_ascii c) in
  if (48 <=? n) && (n <=? 57) then Some (n - 48) else None.

(** The digit loop of [ParseUint] for base 10 and 64 bits.  [cutoff] is
    the smallest number whose tenfold exceeds [maxVal]; a byte that is
    not a digit is a syntax error, a value beyond [maxVal] a range
    error, whichever the loop meets first. *)
Definition maxVal : Z := 2 ^ 64 - 1.
Definition cutoff : Z := maxVal / 10 + 1.

Fixpoint parseUint_loop (s : string) (n : Z) : Z + NumErr :=
  match s with
  | EmptyString => inl n
  | String c s' =>
      match digit_val c with
      | None => inr ErrSyntax
      | Some d =>
          if cutoff <=? n then inr ErrRange
          else
            let n1 := n * 10 + d in
            if maxVal <? n1 then inr ErrRange else parseUint_loop s' n1
      end
  end.

(** [ParseUint(s, 10, 64)], the error without its wrapping. *)
Definition ParseUint (s : string) : Z + NumErr :=
  match s with
  | EmptyString => inr ErrSyntax
  | String _ _ => parseUint_loop s 0
  end.

(** [ParseInt(s, 10, 64)]: the sign is picked off, the magnitude is read
    by [ParseUint] and checked against the range of [int64]. *)
Definition ParseInt (s0 : string) : int + error :=
  match s0 with
  | EmptyString => inr (strconv_NumError "ParseInt" s0 ErrSyntax)
  | String c rest =>
      let neg := bool_decide (c = "-"%char) in
      let s := if bool_decide (c = "+"%char) || neg then rest else s0 in
      match ParseUint s with
      | inr ErrSyntax => inr (strconv_NumError "ParseInt" s0 ErrSyntax)
      | r =>
          let un := match r with inl un => un | inr _ => maxVal end in
          let cutoff := 2 ^ 63 in
          if negb neg && (cutoff <=? un)
          then inr (strconv_NumError "ParseInt" s0 ErrRange)
          else if neg && (cutoff <? un)
          then inr (strconv_NumError "ParseInt" s0 ErrRange)
          else inl (if neg then - un else un)
      end
  end.

End strconv.

(** ** Package [strings]: [TrimSpace] *)

Module strings.

(** One white-space rune at the front of [s], as [unicode.IsSpace] sees
    it on UTF-8 bytes: the six ASCII spaces, U+0085, U+00A0, U+1680,
    U+2000..U+200A, U+2028, U+2029, U+202F, U+205F and U+3000.  Returns
    the rest of the string. *)
Definition byte_of (c : ascii) : Z := Z.of_N (Ascii.N_of_ascii c).

Definition strip_space_front (s : string) : option string :=
  match s with
  | String c r =>
      let b := byte_of c in
      if bool_decide (b ∈ [9; 10; 11; 12; 13; 32]) then Some r
      else match r with
      | String c1 r1 =>
          let b1 := byte_of c1 in
          if (b =? 194) && ((b1 =? 133) || (b1 =? 160)) then Some r1
          else match r1 with
          | String c2 r2 =>
              let b2 := byte_of c2 in
              if (b =? 225) && (b1 =? 154) && (b2 =? 128) then Some r2
              else if (b =? 226) && (b1 =? 128)
                      && (((128 <=? b2) && (b2 <=? 138))
                          || bool_decide (b2 ∈ [168; 169; 175])) then Some r2
              else if (b =? 226) && (b1 =? 129) && (b2 =? 159) then Some r2
              else if (b =? 227) && (b1 =? 128) && (b2 =? 128) then Some r2
              else None
          | EmptyString => None
          end
      | EmptyString => None
      end
  | EmptyString => None
  end.

(** The same rune set read backwards from the end: the argument is the
    reversed string, so the last byte comes first. *)
Definition strip_space_back (rs : string) : option string :=
  match rs with
  | String c r =>
      let b := byte_of c in
      if bool_decide (b ∈ [9; 10; 11; 12; 13; 32]) then Some r
      else match r with
      | String c1 r1 =>
          let b1 := byte_of c1 in
          if (b1 =? 194) && ((b =? 133) || (b =? 160)) then Some r1
          else match r1 with
          | String c2 r2 =>
              let b2 := byte_of c2 in
              if (b2 =? 225) && (b1 =? 154) && (b =? 128) then Some r2
              else if (b2 =? 226) && (b1 =? 128)
                      && (((128 <=? b) && (b <=? 138))
                          || bool_decide (b ∈ [168; 169; 175])) then Some r2
              else if (b2 =? 226) && (b1 =? 129) && (b =? 159) then Some r2
              else if (b2 =? 227) && (b1 =? 128) && (b =? 128) then Some r2
              else None
          | EmptyString => None
          end
      | EmptyString => None
      end
  | EmptyString => None
  end.

Fixpoint trim_with (strip : string → option string) (fuel : nat) (s : string) : string :=
  match fuel with
  | O => s
  | S fuel' =>
      match strip s with
      | Some r => trim_with strip fuel' r
      | None => s
      end
  end.

Definition TrimLeft (s : string) : string :=
  trim_with strip_space_front (String.length s) s.

Definition TrimRight (s : string) : string :=
  String.rev (trim_with strip_space_back (String.length s) (String.rev s)).

Definition TrimSpace (s : string) : string := TrimRight (TrimLeft s).

(** [strings.Split(s, sep)] for a one-byte separator. *)
Fixpoint Split (s : string) (sep : ascii) : list string :=
  match s with
  | EmptyString => [""]
  | String c s' =>
      if bool_decide (c = sep) then "" :: Split s' sep
      else match Split s' sep with
           | x :: xs => String c x :: xs
           | [] => [String c ""]
           end
  end.

(** [strings.Cut(s, sep)] for a one-byte separator, without the flag:
    the text before the first [sep] and the text after it. *)
Fixpoint Cut (s : string) (sep : ascii) : string * string :=
  match s with
  | EmptyString => ("", "")
  | String c s' =>
      if bool_decide (c = sep) then ("", s')
      else let '(before, after) := Cut s' sep in (String c before, after)
  end.

(** Whether the byte [c] occurs in [s]. *)
Fixpoint IndexByte_found (s : string) (c : ascii) : bool :=
  match s with
  | EmptyString => false
  | String c' s' => bool_decide (c' = c) || IndexByte_found s' c
  end.

End strings.

(** ** Package [net/url] *)

Module url.

Definition is_alnum (c : ascii) : bool :=
  let n := strings.byte_of c in
  ((97 <=? n) && (n <=? 122)) || ((65 <=? n) && (n <=? 90))
  || ((48 <=? n) && (n <=? 57)).

(** [shouldEscape(c, encodeQueryComponent)]: letters, digits and the four
    marks [-_.~] pass; the reserved characters and everything else are
    escaped. *)
Definition shouldEscape (c : ascii) : bool :=
  if is_alnum c then false
  else if bool_decide (c ∈ ["-"; "_"; "."; "~"]%char) then false
  else true.

Definition upperhex : string := "0123456789ABCDEF".

Definition hex_digit (n : Z) : ascii :=
  default "0"%char (String.get (Z.to_nat n) upperhex).

(** [QueryEscape(s)], which is [escape(s, encodeQueryComponent)]: a space
    becomes [+], a byte that must be escaped becomes [%XX]. *)
Fixpoint QueryEscape (s : string) : string :=
  match s with
  | EmptyString => EmptyString
  | String c s' =>
      if bool_decide (c = " "%char) then String "+" (QueryEscape s')
      else if shouldEscape c then
        let n := strings.byte_of c in
        String "%" (String (hex_digit (Z.shiftr n 4))
                     (String (hex_digit (Z.land n 15)) (QueryEscape s')))
      else String c (QueryEscape s')
  end.

(** [type Values map[string][]string]. *)
Abbreviation Values := (gmap string (list string)).

(** The inner loop of [Encode]: one [key=value] per value, with [&]
    written first unless the buffer is still empty. *)
Definition write_pair (keyEscaped : string) (buf : string) (val : string) : string :=
  match buf with
  | EmptyString => buf                       (* buf.Len() == 0 *)
  | String _ _ => buf +:+ "&"                (* buf.Len() > 0 *)
  end +:+ keyEscaped +:+ "=" +:+ QueryEscape val.

Definition write_key (v : Values) (buf : string) (k : string) : string :=
  let vs := default [] (v !! k) in
  foldl (write_pair (QueryEscape k)) buf vs.

(** [Encode] with the order in which [for k := range v] delivered the
    keys made explicit: Go leaves that order unspecified, the keys are
    sorted byte-wise before they are written. *)
Definition sortedKeys (ranged : list string) : list string :=
  merge_sort String.le ranged.

Definition Encode_ranged (v : Values) (ranged : list string) : string :=
  let keys := sortedKeys ranged in
  foldl (write_key v) "" keys.

Definition Encode (v : Values) : string :=
  Encode_ranged v ((map_to_list v).*1).

End url.

(** ** Package [encoding/xml]: unmarshalling driven by struct tags

    The tags of this package name no namespace, so elements and
    attributes are matched on their local names alone.  The decoder's
    limit on nesting depth is far beyond any tree the structs of this
    package read, and is left out. *)

Module xml.

(** [type Name struct { Space, Local string }]. *)
Record Name : Type := mkName { Space : string; Local : string }.

(** [type Attr struct { Name Name; Value string }]. *)
Record Attr : Type := mkAttr { attrName : Name; attrValue : string }.

(** The token stream between a [StartElement] and its [EndElement], as a
    tree: the start tag's name and attributes, then the content in
    document order, each item either a run of character data or a nested
    element.  Comments, processing instructions and directives are
    dropped: no struct of this package has a field that stores them. *)
Inductive Element : Type :=
| Elem (name : Name) (attrs : list Attr) (content : list (string + Element)).

Definition elName (e : Element) : Name := let 'Elem n _ _ := e in n.
Definition elAttr (e : Element) : list Attr := let 'Elem _ a _ := e in a.
Definition elContent (e : Element) : list (string + Element) :=
  let 'Elem _ _ c := e in c.

(** What the tokenizer had delivered of an element when it reported an
    error: the start tag, the content read in full, and, where the error
    came inside a nested element, what it had delivered of that one.
    The decoder reads token by token, so it has dealt with all of this
    before it meets the error. *)
Inductive Cut : Type :=
| CutElem (name : Name) (attrs : list Attr) (before : list (string + Element))
    (inside : option Cut).

(** The character data directly inside an element, concatenated; this is
    the [data] buffer that [unmarshal] fills on [CharData] tokens. *)
Fixpoint charData (content : list (string + Element)) : string :=
  match content with
  | [] => ""
  | inl t :: rest => t +:+ charData rest
  | inr _ :: rest => charData rest
  end.

(** A value under construction together with the error that stopped the
    decoder, if any.  Go writes into the destination as it goes, so the
    value is kept on failure too. *)
Definition partial (T : Type) : Type := T * option error.

Definition ok {T} (v : T) : partial T := (v, None).
Definition fail {T} (v : T) (e : error) : partial T := (v, Some e).

Definition andThen {T} (r : partial T) (k : T → partial T) : partial T :=
  match r with
  | (v, None) => k v
  | (v, Some e) => (v, Some e)
  end.

(** A step that may stop with an error, followed by one that always
    ends in one. *)
Definition orFail {T} (r : partial T) (k : T → T * error) : T * error :=
  match r with
  | (v, None) => k v
  | (v, Some e) => (v, e)
  end.

(** How [unmarshal] and [copyValue] treat a destination, by its
    [reflect.Kind]: Bool, Int, Float64 and String are filled from saved
    character data by [copyValue]; a Struct or a Slice of structs is
    filled from an element. *)
Inductive valueKind (T : Type) : Type :=
| TextKind (copy : string → T → partial T)
| NodeKind (unm : Element → T → partial T).
Arguments TextKind {T} copy.
Arguments NodeKind {T} unm.

(** [cut c err val] is [d.unmarshal(val, start)] on an element of which
    the tokenizer delivers [c] and then reports [err]: the value as far
    as it is written, and the error returned, which is [err] unless
    unmarshalling reports one of its own before the tokenizer does. *)
Class GoValue (T : Type) : Type := {
  zero : T;
  kind : valueKind T;
  cut : Cut → error → T → T * error
}.

(** [d.unmarshal(val, start)] for a value that is not behind a pointer. *)
Definition unmarshal `{GoValue T} (start : Element) (val : T) : partial T :=
  match kind with
  | TextKind copy => copy (charData (elContent start)) val
  | NodeKind unm => unm start val
  end.

(** [d.unmarshal(val, start)] on an element that is cut short. *)
Definition unmarshalCut `{GoValue T} (c : Cut) (err : error) (val : T) : T * error :=
  cut c err val.

(** [copyValue(dst, src)]. *)
Definition copyValue `{GoValue T} (src : string) (dst : T) : partial T :=
  match kind with
  | TextKind copy => copy src dst
  | NodeKind _ => fail dst (errors_New "cannot unmarshal into struct")
  end.

#[global] Instance string_value : GoValue string :=
  {| zero := ""; kind := TextKind (λ src _, ok src);
     cut := λ _ err dst, (dst, err) |}.

#[global] Instance int_value : GoValue int :=
  {| zero := 0;
     kind := TextKind (λ src dst,
       if bool_decide (src = "") then ok 0
       else match strconv.ParseInt (strings.TrimSpace src) with
            | inl itmp => ok itmp
            | inr err => fail dst err
            end);
     cut := λ _ err dst, (dst, err) |}.

#[global] Instance bool_value : GoValue bool :=
  {| zero := false;
     kind := TextKind (λ src dst,
       if bool_decide (src = "") then ok false
       else match strconv.ParseBool (strings.TrimSpace src) with
            | inl value => ok value
            | inr err => fail dst err
            end);
     cut := λ _ err dst, (dst, err) |}.

(** A slice of element values grows by one and the new last entry is
    read from the element; on failure the length is set back. *)
#[global] Instance slice_value `{GoValue T} : GoValue (list T) :=
  {| zero := [];
     kind := NodeKind (λ start v,
       match unmarshal start zero with
       | (x, None) => ok (v ++ [x])
       | (_, Some err) => fail v err
       end);
     cut := λ c err v, (v, (unmarshalCut c err zero).2) |}.

(** *** Struct tags *)

Inductive fieldFlags : Type := fElement | fAttr | fCharData.

#[global] Instance fieldFlags_eq_dec : EqDecision fieldFlags.
Proof. solve_decision. Defined.

(** What [structFieldInfo] reads off a tag of the forms used in this
    package: [a>b>name], [name,attr] and [,chardata]. *)
Definition parseTag (tag : string) : fieldFlags * list string * string :=
  match strings.Split tag "," with
  | [] => (fElement, [], "")
  | path :: opts =>
      let flags :=
        if bool_decide ("attr" ∈ opts) then fAttr
        else if bool_decide ("chardata" ∈ opts) then fCharData
        else fElement in
      let parts := strings.Split path ">" in
      (flags, take (length parts - 1) parts, default "" (last parts))
  end.

(** [fieldInfo] for a field of the struct type [S]: the parsed tag and the
    two ways of storing into the field of a struct value. *)
Record fieldInfo (S : Type) : Type := mkField {
  flags : fieldFlags;
  parents : list string;
  name : string;
  storeElement : Element → S → partial S;
  storeText : string → S → partial S;
  storeCut : Cut → error → S → S * error;
}.
Arguments mkField {S}.
Arguments flags {S}.
Arguments parents {S}.
Arguments name {S}.
Arguments storeElement {S}.
Arguments storeText {S}.
Arguments storeCut {S}.

Definition through {S F} (get : S → F) (set : F → S → S)
    (f : F → partial F) (sv : S) : partial S :=
  let '(fv, err) := f (get sv) in (set fv sv, err).

(** A struct field with its tag, read through [get] and written through
    [set]. *)
Definition field {S F} `{GoValue F} (tag : string)
    (get : S → F) (set : F → S → S) : fieldInfo S :=
  let '(fl, ps, nm) := parseTag tag in
  mkField fl ps nm
    (λ start, through get set (unmarshal start))
    (λ src, through get set (copyValue src))
    (λ c err sv, let '(fv, e) := unmarshalCut c err (get sv) in (set fv sv, e)).

(** *** Unmarshalling into a struct *)

Section Struct.
Context {S : Type}.
(** [tinfo.xmlname]: the name in the tag of the [XMLName] field and the
    assignment to that field, when the struct has one. *)
Variable xmlname : option (string * (Name → S → S)).
(** [tinfo.fields], in declaration order. *)
Variable fields : list (fieldInfo S).

Inductive pathMatch : Type :=
| Perfect (finfo : fieldInfo S)
| Prefix (parents' : list string)
| NoBusiness.

(** The loop over [tinfo.fields] at the head of [unmarshalPath]: the
    first element field whose path starts with [parents'] and either ends
    at this element (a perfect match) or continues through it. *)
Fixpoint matchPath (fs : list (fieldInfo S)) (parents' : list string)
    (local : string) : pathMatch :=
  match fs with
  | [] => NoBusiness
  | finfo :: rest =>
      if negb (bool_decide (flags finfo = fElement))
         || bool_decide (length (parents finfo) < length parents')%nat
      then matchPath rest parents' local
      else if negb (bool_decide (take (length parents') (parents finfo) = parents'))
      then matchPath rest parents' local
      else if bool_decide (length (parents finfo) = length parents')
              && bool_decide (name finfo = local)
      then Perfect finfo
      else if bool_decide (length parents' < length (parents finfo))%nat
              && bool_decide (parents finfo !! length parents' = Some local)
      then Prefix (take (length parents' + 1) (parents finfo))
      else matchPath rest parents' local
  end.

(** [d.unmarshalPath(tinfo, sv, parents, start)]: the flag says whether
    the element was consumed; an element that is nobody's business is
    skipped by the caller. *)
Fixpoint unmarshalPath (parents' : list string) (start : Element) (sv : S)
    {struct start} : bool * partial S :=
  match start with
  | Elem nm _ content =>
      match matchPath fields parents' (Local nm) with
      | Perfect finfo => (true, storeElement finfo start sv)
      | NoBusiness => (false, ok sv)
      | Prefix parents'' =>
          (true,
           (fix loop (toks : list (string + Element)) (sv : S) : partial S :=
              match toks with
              | [] => ok sv
              | inl _ :: toks' => loop toks' sv
              | inr t :: toks' =>
                  andThen (unmarshalPath parents'' t sv).2 (loop toks')
              end) content sv)
      end
  end.

(** The loop of [unmarshalPath] over the content of an element that lies
    on the path of some field, under a name of its own. *)
Definition unmarshalChildren (parents'' : list string)
    : list (string + Element) → S → partial S :=
  fix loop (toks : list (string + Element)) (sv : S) : partial S :=
    match toks with
    | [] => ok sv
    | inl _ :: toks' => loop toks' sv
    | inr t :: toks' => andThen (unmarshalPath parents'' t sv).2 (loop toks')
    end.

(** [unmarshalPath] on an element that is cut short.  An element that
    is nobody's business is skipped by the caller, and skipping runs into
    the error of the tokenizer; so does an element on the path of a
    field, once its content is dealt with. *)
Fixpoint unmarshalPathCut (parents' : list string) (c : Cut) (err : error) (sv : S)
    {struct c} : S * error :=
  match c with
  | CutElem nm _ before inside =>
      match matchPath fields parents' (Local nm) with
      | Perfect finfo => storeCut finfo c err sv
      | NoBusiness => (sv, err)
      | Prefix parents'' =>
          orFail (unmarshalChildren parents'' before sv) (λ sv,
            match inside with
            | Some c' => unmarshalPathCut parents'' c' err sv
            | None => (sv, err)
            end)
      end
  end.

(** "Assign attributes": every attribute is offered to every attribute
    field of that name. *)
Definition assignAttr (sv : S) (a : Attr) : partial S :=
  foldl (λ acc finfo,
           andThen acc (λ sv,
             if bool_decide (flags finfo = fAttr)
                && bool_decide (Local (attrName a) = name finfo)
             then storeText finfo (attrValue a) sv
             else ok sv))
        (ok sv) fields.

Definition assignAttrs (attrs : list Attr) (sv : S) : partial S :=
  foldl (λ acc a, andThen acc (λ sv, assignAttr sv a)) (ok sv) attrs.

(** The first [,chardata] field, Go's [saveData]. *)
Definition saveData : option (fieldInfo S) :=
  head (filter (λ finfo, flags finfo = fCharData) fields).

(** "Find end element. Process sub-elements along the way." *)
Definition unmarshalContent (content : list (string + Element)) (sv : S) : partial S :=
  foldl (λ acc tok,
           andThen acc (λ sv,
             match tok with
             | inr t => (unmarshalPath [] t sv).2
             | inl _ => ok sv
             end))
        (ok sv) content.

(** The [reflect.Struct] case of [d.unmarshal]. *)
Definition unmarshalStruct (start : Element) (sv : S) : partial S :=
  let checked :=
    match xmlname with
    | Some (nm, setName) =>
        if negb (bool_decide (nm = "")) && negb (bool_decide (nm = Local (elName start)))
        then fail sv (xml_UnmarshalError
               ("expected element type <" +:+ nm +:+ "> but have <"
                  +:+ Local (elName start) +:+ ">"))
        else ok (setName (elName start) sv)
    | None => ok sv
    end in
  andThen checked (λ sv,
  andThen (assignAttrs (elAttr start) sv) (λ sv,
  andThen (unmarshalContent (elContent start) sv) (λ sv,
    match saveData with
    | Some finfo => storeText finfo (charData (elContent start)) sv
    | None => ok sv
    end))).

(** The [reflect.Struct] case of [d.unmarshal] on an element that is
    cut short: the name is checked, the attributes are assigned and the
    content is processed as far as it was delivered; the saved character
    data is not copied, as the end of the element is never reached. *)
Definition unmarshalStructCut (c : Cut) (err : error) (sv : S) : S * error :=
  match c with
  | CutElem cname attrs before inside =>
      let checked :=
        match xmlname with
        | Some (nm, setName) =>
            if negb (bool_decide (nm = "")) && negb (bool_decide (nm = Local cname))
            then fail sv (xml_UnmarshalError
                   ("expected element type <" +:+ nm +:+ "> but have <"
                      +:+ Local cname +:+ ">"))
            else ok (setName cname sv)
        | None => ok sv
        end in
      orFail checked (λ sv,
      orFail (assignAttrs attrs sv) (λ sv,
      orFail (unmarshalContent before sv) (λ sv,
        match inside with
        | Some c' => unmarshalPathCut [] c' err sv
        | None => (sv, err)
        end)))
  end.

End Struct.

Definition structValue {S} (z : S) (xmlname : option (string * (Name → S → S)))
    (fields : list (fieldInfo S)) : GoValue S :=
  {| zero := z;
     kind := NodeKind (unmarshalStruct xmlname fields);
     cut := unmarshalStructCut xmlname fields |}.

End xml.

(** ** Package [net/http]: what the client sees of it *)

Module http.

(** [*http.Response]: the status code and the bytes of the body. *)
Record Response : Type := mkResponse { StatusCode : Z; Body : string }.

End http.

(** ** The world outside the process

    [roundTrip url] is what [http.Get(url)] returns: a response, whatever
    its status code, or a transport error.  [readElement body] is the
    reading of the body by the tokenizer of [xml.NewDecoder]: the first
    element of the stream as a tree, or the error the tokenizer reports
    before that element is closed, together with what it had delivered
    of the element until then: nothing, if the error came before the
    start tag.  [ParseFloat s] is [strconv.ParseFloat(s, 64)]. *)
Class World : Type := {
  roundTrip : string → http.Response + error;
  readElement : string → xml.Element + (option xml.Cut * error);
  ParseFloat : string → float64 + error;
}.

(** * The package [zillow] *)

(** ** The structs; each module holds one struct, its zero value and the
    assignments to its fields *)

Module Message.
Record t : Type := mk {
  Text : string;
  Code : int;
  LimitWarning : bool
}.
Definition zero : t := mk "" 0 false.
Definition set_Text (v : string) (r : t) : t :=
  mk v (Code r) (LimitWarning r).
Definition set_Code (v : int) (r : t) : t :=
  mk (Text r) v (LimitWarning r).
Definition set_LimitWarning (v : bool) (r : t) : t :=
  mk (Text r) (Code r) v.
End Message.

Module Address.
Record t : Type := mk {
  Street : string;
  Zipcode : string;
  City : string;
  State : string;
  Latitude : float64;
  Longitude : float64
}.
Definition zero : t := mk "" "" "" "" 0%float 0%float.
Definition set_Street (v : string) (r : t) : t :=
  mk v (Zipcode r) (City r) (State r) (Latitude r) (Longitude r).
Definition set_Zipcode (v : string) (r : t) : t :=
  mk (Street r) v (City r) (State r) (Latitude r) (Longitude r).
Definition set_City (v : string) (r : t) : t :=
  mk (Street r) (Zipcode r) v (State r) (Latitude r) (Longitude r).
Definition set_State (v : string) (r : t) : t :=
  mk (Street r) (Zipcode r) (City r) v (Latitude r) (Longitude r).
Definition set_Latitude (v : float64) (r : t) : t :=
  mk (Street r) (Zipcode r) (City r) (State r) v (Longitude r).
Definition set_Longitude (v : float64) (r : t) : t :=
  mk (Street r) (Zipcode r) (City r) (State r) (Latitude r) v.
End Address.

Module Value.
Record t : Type := mk {
  Currency : string;
  Value : int
}.
Definition zero : t := mk "" 0.
Definition set_Currency (v : string) (r : t) : t :=
  mk v (Value r).
Definition set_Value (v : int) (r : t) : t :=
  mk (Currency r) v.
End Value.

Module ValueChange.
Record t : Type := mk {
  Duration : int;
  Currency : string;
  Value : int
}.
Definition zero : t := mk 0 "" 0.
Definition set_Duration (v : int) (r : t) : t :=
  mk v (Currency r) (Value r).
Definition set_Currency (v : string) (r : t) : t :=
  mk (Duration r) v (Value r).
Definition set_Value (v : int) (r : t) : t :=
  mk (Duration r) (Currency r) v.
End ValueChange.

Module Zestimate.
Record t : Type := mk {
  Amount : Value.t;
  LastUpdated : string;
  ValueChange : ValueChange.t;
  Low : Value.t;
  High : Value.t;
  Percentile : string
}.
Definition zero : t := mk Value.zero "" ValueChange.zero Value.zero Value.zero "".
Definition set_Amount (v : Value.t) (r : t) : t :=
  mk v (LastUpdated r) (ValueChange r) (Low r) (High r) (Percentile r).
Definition set_LastUpdated (v : string) (r : t) : t :=
  mk (Amount r) v (ValueChange r) (Low r) (High r) (Percentile r).
Definition set_ValueChange (v : ValueChange.t) (r : t) : t :=
  mk (Amount r) (LastUpdated r) v (Low r) (High r) (Percentile r).
Definition set_Low (v : Value.t) (r : t) : t :=
  mk (Amount r) (LastUpdated r) (ValueChange r) v (High r) (Percentile r).
Definition set_High (v : Value.t) (r : t) : t :=
  mk (Amount r) (LastUpdated r) (ValueChange r) (Low r) v (Percentile r).
Definition set_Percentile (v : string) (r : t) : t :=
  mk (Amount r) (LastUpdated r) (ValueChange r) (Low r) (High r) v.
End Zestimate.

Module ZestimateRequest.
Record t : Type := mk {
  Zpid : string;
  Rentzestimate : bool
}.
Definition zero : t := mk "" false.
Definition set_Zpid (v : string) (r : t) : t :=
  mk v (Rentzestimate r).
Definition set_Rentzestimate (v : bool) (r : t) : t :=
  mk (Zpid r) v.
End ZestimateRequest.

Module Region.
Record t : Type := mk {
  XMLName : xml.Name;
  ID : string;
  Type_ : string;
  Name : string;
  ZIndex : string;
  ZIndexOneYearChange : float64;
  Overview : string;
  ForSaleByOwner : string;
  ForSale : string
}.
Definition zero : t := mk (xml.mkName "" "") "" "" "" "" 0%float "" "" "".
Definition set_XMLName (v : xml.Name) (r : t) : t :=
  mk v (ID r) (Type_ r) (Name r) (ZIndex r) (ZIndexOneYearChange r) (Overview r) (ForSaleByOwner r) (ForSale r).
Definition set_ID (v : string) (r : t) : t :=
  mk (XMLName r) v (Type_ r) (Name r) (ZIndex r) (ZIndexOneYearChange r) (Overview r) (ForSaleByOwner r) (ForSale r).
Definition set_Type_ (v : string) (r : t) : t :=
  mk (XMLName r) (ID r) v (Name r) (ZIndex r) (ZIndexOneYearChange r) (Overview r) (ForSaleByOwner r) (ForSale r).
Definition set_Name (v : string) (r : t) : t :=
  mk (XMLName r) (ID r) (Type_ r) v (ZIndex r) (ZIndexOneYearChange r) (Overview r) (ForSaleByOwner r) (ForSale r).
Definition set_ZIndex (v : string) (r : t) : t :=
  mk (XMLName r) (ID r) (Type_ r) (Name r) v (ZIndexOneYearChange r) (Overview r) (ForSaleByOwner r) (ForSale r).
Definition set_ZIndexOneYearChange (v : float64) (r : t) : t :=
  mk (XMLName r) (ID r) (Type_ r) (Name r) (ZIndex r) v (Overview r) (ForSaleByOwner r) (ForSale r).
Definition set_Overview (v : string) (r : t) : t :=
  mk (XMLName r) (ID r) (Type_ r) (Name r) (ZIndex r) (ZIndexOneYearChange r) v (ForSaleByOwner r) (ForSale r).
Definition set_ForSaleByOwner (v : string) (r : t) : t :=
  mk (XMLName r) (ID r) (Type_ r) (Name r) (ZIndex r) (ZIndexOneYearChange r) (Overview r) v (ForSale r).
Definition set_ForSale (v : string) (r : t) : t :=
  mk (XMLName r) (ID r) (Type_ r) (Name r) (ZIndex r) (ZIndexOneYearChange r) (Overview r) (ForSaleByOwner r) v.
End Region.

Module Links.
Record t : Type := mk {
  XMLName : xml.Name;
  HomeDetails : string;
  GraphsAndData : string;
  MapThisHome : string;
  MyZestimator : string;
  Comparables : string
}.
Definition zero : t := mk (xml.mkName "" "") "" "" "" "" "".
Definition set_XMLName (v : xml.Name) (r : t) : t :=
  mk v (HomeDetails r) (GraphsAndData r) (MapThisHome r) (MyZestimator r) (Comparables r).
Definition set_HomeDetails (v : string) (r : t) : t :=
  mk (XMLName r) v (GraphsAndData r) (MapThisHome r) (MyZestimator r) (Comparables r).
Definition set_GraphsAndData (v : string) (r : t) : t :=
  mk (XMLName r) (HomeDetails r) v (MapThisHome r) (MyZestimator r) (Comparables r).
Definition set_MapThisHome (v : string) (r : t) : t :=
  mk (XMLName r) (HomeDetails r) (GraphsAndData r) v (MyZestimator r) (Comparables r).
Definition set_MyZestimator (v : string) (r : t) : t :=
  mk (XMLName r) (HomeDetails r) (GraphsAndData r) (MapThisHome r) v (Comparables r).
Definition set_Comparables (v : string) (r : t) : t :=
  mk (XMLName r) (HomeDetails r) (GraphsAndData r) (MapThisHome r) (MyZestimator r) v.
End Links.

Module ZestimateResult.
Record t : Type := mk {
  XMLName : xml.Name;
  Request : ZestimateRequest.t;
  Message : Message.t;
  Links : Links.t;
  Address : Address.t;
  Zestimate : Zestimate.t;
  LocalRealEstate : list Region.t;
  ZipcodeID : string;
  CityID : string;
  CountyID : string;
  StateID : string
}.
Definition zero : t := mk (xml.mkName "" "") ZestimateRequest.zero Message.zero Links.zero Address.zero Zestimate.zero [] "" "" "" "".
Definition set_XMLName (v : xml.Name) (r : t) : t :=
  mk v (Request r) (Message r) (Links r) (Address r) (Zestimate r) (LocalRealEstate r) (ZipcodeID r) (CityID r) (CountyID r) (StateID r).
Definition set_Request (v : ZestimateRequest.t) (r : t) : t :=
  mk (XMLName r) v (Message r) (Links r) (Address r) (Zestimate r) (LocalRealEstate r) (ZipcodeID r) (CityID r) (CountyID r) (StateID r).
Definition set_Message (v : Message.t) (r : t) : t :=
  mk (XMLName r) (Request r) v (Links r) (Address r) (Zestimate r) (LocalRealEstate r) (ZipcodeID r) (CityID r) (CountyID r) (StateID r).
Definition set_Links (v : Links.t) (r : t) : t :=
  mk (XMLName r) (Request r) (Message r) v (Address r) (Zestimate r) (LocalRealEstate r) (ZipcodeID r) (CityID r) (CountyID r) (StateID r).
Definition set_Address (v : Address.t) (r : t) : t :=
  mk (XMLName r) (Request r) (Message r) (Links r) v (Zestimate r) (LocalRealEstate r) (ZipcodeID r) (CityID r) (CountyID r) (StateID r).
Definition set_Zestimate (v : Zestimate.t) (r : t) : t :=
  mk (XMLName r) (Request r) (Message r) (Links r) (Address r) v (LocalRealEstate r) (ZipcodeID r) (CityID r) (CountyID r) (StateID r).
Definition set_LocalRealEstate (v : list Region.t) (r : t) : t :=
  mk (XMLName r) (Request r) (Message r) (Links r) (Address r) (Zestimate r) v (ZipcodeID r) (CityID r) (CountyID r) (StateID r).
Definition set_ZipcodeID (v : string) (r : t) : t :=
  mk (XMLName r) (Request r) (Message r) (Links r) (Address r) (Zestimate r) (LocalRealEstate r) v (CityID r) (CountyID r) (StateID r).
Definition set_CityID (v : string) (r : t) : t :=
  mk (XMLName r) (Request r) (Message r) (Links r) (Address r) (Zestimate r) (LocalRealEstate r) (ZipcodeID r) v (CountyID r) (StateID r).
Definition set_CountyID (v : string) (r : t) : t :=
  mk (XMLName r) (Request r) (Message r) (Links r) (Address r) (Zestimate r) (LocalRealEstate r) (ZipcodeID r) (CityID r) v (StateID r).
Definition set_StateID (v : string) (r : t) : t :=
  mk (XMLName r) (Request r) (Message r) (Links r) (Address r) (Zestimate r) (LocalRealEstate r) (ZipcodeID r) (CityID r) (CountyID r) v.
End ZestimateResult.

Module SearchRequest.
Record t : Type := mk {
  Address : string;
  CityStateZip : string;
  Rentzestimate : bool
}.
Definition zero : t := mk "" "" false.
Definition set_Address (v : string) (r : t) : t :=
  mk v (CityStateZip r) (Rentzestimate r).
Definition set_CityStateZip (v : string) (r : t) : t :=
  mk (Address r) v (Rentzestimate r).
Definition set_Rentzestimate (v : bool) (r : t) : t :=
  mk (Address r) (CityStateZip r) v.
End SearchRequest.

Module SearchResult.
Record t : Type := mk {
  XMLName : xml.Name;
  Zpid : string;
  Links : Links.t;
  Address : Address.t;
  Zestimate : Zestimate.t;
  LocalRealEstate : list Region.t
}.
Definition zero : t := mk (xml.mkName "" "") "" Links.zero Address.zero Zestimate.zero [].
Definition set_XMLName (v : xml.Name) (r : t) : t :=
  mk v (Zpid r) (Links r) (Address r) (Zestimate r) (LocalRealEstate r).
Definition set_Zpid (v : string) (r : t) : t :=
  mk (XMLName r) v (Links r) (Address r) (Zestimate r) (LocalRealEstate r).
Definition set_Links (v : Links.t) (r : t) : t :=
  mk (XMLName r) (Zpid r) v (Address r) (Zestimate r) (LocalRealEstate r).
Definition set_Address (v : Address.t) (r : t) : t :=
  mk (XMLName r) (Zpid r) (Links r) v (Zestimate r) (LocalRealEstate r).
Definition set_Zestimate (v : Zestimate.t) (r : t) : t :=
  mk (XMLName r) (Zpid r) (Links r) (Address r) v (LocalRealEstate r).
Definition set_LocalRealEstate (v : list Region.t) (r : t) : t :=
  mk (XMLName r) (Zpid r) (Links r) (Address r) (Zestimate r) v.
End SearchResult.

Module SearchResults.
Record t : Type := mk {
  XMLName : xml.Name;
  Request : SearchRequest.t;
  Message : Message.t;
  Results : list SearchResult.t
}.
Definition zero : t := mk (xml.mkName "" "") SearchRequest.zero Message.zero [].
Definition set_XMLName (v : xml.Name) (r : t) : t :=
  mk v (Request r) (Message r) (Results r).
Definition set_Request (v : SearchRequest.t) (r : t) : t :=
  mk (XMLName r) v (Message r) (Results r).
Definition set_Message (v : Message.t) (r : t) : t :=
  mk (XMLName r) (Request r) v (Results r).
Definition set_Results (v : list SearchResult.t) (r : t) : t :=
  mk (XMLName r) (Request r) (Message r) v.
End SearchResults.

Module ChartRequest.
Record t : Type := mk {
  Zpid : string;
  UnitType : string;
  Width : int;
  Height : int;
  Duration : string
}.
Definition zero : t := mk "" "" 0 0 "".
Definition set_Zpid (v : string) (r : t) : t :=
  mk v (UnitType r) (Width r) (Height r) (Duration r).
Definition set_UnitType (v : string) (r : t) : t :=
  mk (Zpid r) v (Width r) (Height r) (Duration r).
Definition set_Width (v : int) (r : t) : t :=
  mk (Zpid r) (UnitType r) v (Height r) (Duration r).
Definition set_Height (v : int) (r : t) : t :=
  mk (Zpid r) (UnitType r) (Width r) v (Duration r).
Definition set_Duration (v : string) (r : t) : t :=
  mk (Zpid r) (UnitType r) (Width r) (Height r) v.
End ChartRequest.

Module ChartResult.
Record t : Type := mk {
  XMLName : xml.Name;
  Request : ChartRequest.t;
  Message : Message.t;
  Url : string
}.
Definition zero : t := mk (xml.mkName "" "") ChartRequest.zero Message.zero "".
Definition set_XMLName (v : xml.Name) (r : t) : t :=
  mk v (Request r) (Message r) (Url r).
Definition set_Request (v : ChartRequest.t) (r : t) : t :=
  mk (XMLName r) v (Message r) (Url r).
Definition set_Message (v : Message.t) (r : t) : t :=
  mk (XMLName r) (Request r) v (Url r).
Definition set_Url (v : string) (r : t) : t :=
  mk (XMLName r) (Request r) (Message r) v.
End ChartResult.

Module CompsRequest.
Record t : Type := mk {
  Zpid : string;
  Count : int;
  Rentzestimate : bool
}.
Definition zero : t := mk "" 0 false.
Definition set_Zpid (v : string) (r : t) : t :=
  mk v (Count r) (Rentzestimate r).
Definition set_Count (v : int) (r : t) : t :=
  mk (Zpid r) v (Rentzestimate r).
Definition set_Rentzestimate (v : bool) (r : t) : t :=
  mk (Zpid r) (Count r) v.
End CompsRequest.

Module Principal.
Record t : Type := mk {
  Zpid : string;
  Links : Links.t;
  Address : Address.t;
  Zestimate : Zestimate.t
}.
Definition zero : t := mk "" Links.zero Address.zero Zestimate.zero.
Definition set_Zpid (v : string) (r : t) : t :=
  mk v (Links r) (Address r) (Zestimate r).
Definition set_Links (v : Links.t) (r : t) : t :=
  mk (Zpid r) v (Address r) (Zestimate r).
Definition set_Address (v : Address.t) (r : t) : t :=
  mk (Zpid r) (Links r) v (Zestimate r).
Definition set_Zestimate (v : Zestimate.t) (r : t) : t :=
  mk (Zpid r) (Links r) (Address r) v.
End Principal.

Module Comp.
Record t : Type := mk {
  Score : float64;
  Zpid : string;
  Links : Links.t;
  Address : Address.t;
  Zestimate : Zestimate.t
}.
Definition zero : t := mk 0%float "" Links.zero Address.zero Zestimate.zero.
Definition set_Score (v : float64) (r : t) : t :=
  mk v (Zpid r) (Links r) (Address r) (Zestimate r).
Definition set_Zpid (v : string) (r : t) : t :=
  mk (Score r) v (Links r) (Address r) (Zestimate r).
Definition set_Links (v : Links.t) (r : t) : t :=
  mk (Score r) (Zpid r) v (Address r) (Zestimate r).
Definition set_Address (v : Address.t) (r : t) : t :=
  mk (Score r) (Zpid r) (Links r) v (Zestimate r).
Definition set_Zestimate (v : Zestimate.t) (r : t) : t :=
  mk (Score r) (Zpid r) (Links r) (Address r) v.
End Comp.

Module CompsResult.
Record t : Type := mk {
  XMLName : xml.Name;
  Request : CompsRequest.t;
  Message : Message.t;
  Principal : Principal.t;
  Comparables : list Comp.t
}.
Definition zero : t := mk (xml.mkName "" "") CompsRequest.zero Message.zero Principal.zero [].
Definition set_XMLName (v : xml.Name) (r : t) : t :=
  mk v (Request r) (Message r) (Principal r) (Comparables r).
Definition set_Request (v : CompsRequest.t) (r : t) : t :=
  mk (XMLName r) v (Message r) (Principal r) (Comparables r).
Definition set_Message (v : Message.t) (r : t) : t :=
  mk (XMLName r) (Request r) v (Principal r) (Comparables r).
Definition set_Principal (v : Principal.t) (r : t) : t :=
  mk (XMLName r) (Request r) (Message r) v (Comparables r).
Definition set_Comparables (v : list Comp.t) (r : t) : t :=
  mk (XMLName r) (Request r) (Message r) (Principal r) v.
End CompsResult.

Section Package.
Context `{W : World}.

#[global] Instance float64_value : xml.GoValue float64 :=
  {| xml.zero := 0%float;
     xml.kind := xml.TextKind (λ src dst,
       if bool_decide (src = "") then xml.ok 0%float
       else match ParseFloat (strings.TrimSpace src) with
            | inl ftmp => xml.ok ftmp
            | inr err => xml.fail dst err
            end);
     xml.cut := λ _ err dst, (dst, err) |}.

(** ** The struct tags, one table per struct in declaration order *)

Definition Message_fields : list (xml.fieldInfo Message.t) :=
  [ xml.field "text" Message.Text Message.set_Text;
    xml.field "code" Message.Code Message.set_Code;
    xml.field "limit-warning" Message.LimitWarning Message.set_LimitWarning ].
#[global] Instance Message_value : xml.GoValue Message.t :=
  xml.structValue Message.zero None Message_fields.

Definition Address_fields : list (xml.fieldInfo Address.t) :=
  [ xml.field "street" Address.Street Address.set_Street;
    xml.field "zipcode" Address.Zipcode Address.set_Zipcode;
    xml.field "city" Address.City Address.set_City;
    xml.field "state" Address.State Address.set_State;
    xml.field "latitude" Address.Latitude Address.set_Latitude;
    xml.field "longitude" Address.Longitude Address.set_Longitude ].
#[global] Instance Address_value : xml.GoValue Address.t :=
  xml.structValue Address.zero None Address_fields.

Definition Value_fields : list (xml.fieldInfo Value.t) :=
  [ xml.field "currency,attr" Value.Currency Value.set_Currency;
    xml.field ",chardata" Value.Value Value.set_Value ].
#[global] Instance Value_value : xml.GoValue Value.t :=
  xml.structValue Value.zero None Value_fields.

Definition ValueChange_fields : list (xml.fieldInfo ValueChange.t) :=
  [ xml.field "duration,attr" ValueChange.Duration ValueChange.set_Duration;
    xml.field "currency,attr" ValueChange.Currency ValueChange.set_Currency;
    xml.field ",chardata" ValueChange.Value ValueChange.set_Value ].
#[global] Instance ValueChange_value : xml.GoValue ValueChange.t :=
  xml.structValue ValueChange.zero None ValueChange_fields.

Definition Zestimate_fields : list (xml.fieldInfo Zestimate.t) :=
  [ xml.field "amount" Zestimate.Amount Zestimate.set_Amount;
    xml.field "last-updated" Zestimate.LastUpdated Zestimate.set_LastUpdated;
    xml.field "valueChange" Zestimate.ValueChange Zestimate.set_ValueChange;
    xml.field "valuationRange>low" Zestimate.Low Zestimate.set_Low;
    xml.field "valuationRange>high" Zestimate.High Zestimate.set_High;
    xml.field "percentile" Zestimate.Percentile Zestimate.set_Percentile ].
#[global] Instance Zestimate_value : xml.GoValue Zestimate.t :=
  xml.structValue Zestimate.zero None Zestimate_fields.

Definition ZestimateRequest_fields : list (xml.fieldInfo ZestimateRequest.t) :=
  [ xml.field "zpid" ZestimateRequest.Zpid ZestimateRequest.set_Zpid;
    xml.field "rentzestimate" ZestimateRequest.Rentzestimate ZestimateRequest.set_Rentzestimate ].
#[global] Instance ZestimateRequest_value : xml.GoValue ZestimateRequest.t :=
  xml.structValue ZestimateRequest.zero None ZestimateRequest_fields.

Definition Region_fields : list (xml.fieldInfo Region.t) :=
  [ xml.field "id,attr" Region.ID Region.set_ID;
    xml.field "type,attr" Region.Type_ Region.set_Type_;
    xml.field "name,attr" Region.Name Region.set_Name;
    xml.field "zindexValue" Region.ZIndex Region.set_ZIndex;
    xml.field "zindexOneYearChange" Region.ZIndexOneYearChange Region.set_ZIndexOneYearChange;
    xml.field "links>overview" Region.Overview Region.set_Overview;
    xml.field "links>forSaleByOwner" Region.ForSaleByOwner Region.set_ForSaleByOwner;
    xml.field "links>forSale" Region.ForSale Region.set_ForSale ].
#[global] Instance Region_value : xml.GoValue Region.t :=
  xml.structValue Region.zero (Some ("region", Region.set_XMLName)) Region_fields.

Definition Links_fields : list (xml.fieldInfo Links.t) :=
  [ xml.field "homedetails" Links.HomeDetails Links.set_HomeDetails;
    xml.field "graphsanddata" Links.GraphsAndData Links.set_GraphsAndData;
    xml.field "mapthishome" Links.MapThisHome Links.set_MapThisHome;
    xml.field "myzestimator" Links.MyZestimator Links.set_MyZestimator;
    xml.field "comparables" Links.Comparables Links.set_Comparables ].
#[global] Instance Links_value : xml.GoValue Links.t :=
  xml.structValue Links.zero (Some ("links", Links.set_XMLName)) Links_fields.

Definition ZestimateResult_fields : list (xml.fieldInfo ZestimateResult.t) :=
  [ xml.field "request" ZestimateResult.Request ZestimateResult.set_Request;
    xml.field "message" ZestimateResult.Message ZestimateResult.set_Message;
    xml.field "response>links" ZestimateResult.Links ZestimateResult.set_Links;
    xml.field "response>address" ZestimateResult.Address ZestimateResult.set_Address;
    xml.field "response>zestimate" ZestimateResult.Zestimate ZestimateResult.set_Zestimate;
    xml.field "response>localRealEstate>region" ZestimateResult.LocalRealEstate ZestimateResult.set_LocalRealEstate;
    xml.field "response>regions>zipcode-id" ZestimateResult.ZipcodeID ZestimateResult.set_ZipcodeID;
    xml.field "response>regions>city-id" ZestimateResult.CityID ZestimateResult.set_CityID;
    xml.field "response>regions>county-id" ZestimateResult.CountyID ZestimateResult.set_CountyID;
    xml.field "response>regions>state-id" ZestimateResult.StateID ZestimateResult.set_StateID ].
#[global] Instance ZestimateResult_value : xml.GoValue ZestimateResult.t :=
  xml.structValue ZestimateResult.zero (Some ("zestimate", ZestimateResult.set_XMLName)) ZestimateResult_fields.

Definition SearchRequest_fields : list (xml.fieldInfo SearchRequest.t) :=
  [ xml.field "address" SearchRequest.Address SearchRequest.set_Address;
    xml.field "citystatezip" SearchRequest.CityStateZip SearchRequest.set_CityStateZip;
    xml.field "rentzestimate" SearchRequest.Rentzestimate SearchRequest.set_Rentzestimate ].
#[global] Instance SearchRequest_value : xml.GoValue SearchRequest.t :=
  xml.structValue SearchRequest.zero None SearchRequest_fields.

Definition SearchResult_fields : list (xml.fieldInfo SearchResult.t) :=
  [ xml.field "zpid" SearchResult.Zpid SearchResult.set_Zpid;
    xml.field "links" SearchResult.Links SearchResult.set_Links;
    xml.field "address" SearchResult.Address SearchResult.set_Address;
    xml.field "zestimate" SearchResult.Zestimate SearchResult.set_Zestimate;
    xml.field "localRealEstate>region" SearchResult.LocalRealEstate SearchResult.set_LocalRealEstate ].
#[global] Instance SearchResult_value : xml.GoValue SearchResult.t :=
  xml.structValue SearchResult.zero (Some ("result", SearchResult.set_XMLName)) SearchResult_fields.

Definition SearchResults_fields : list (xml.fieldInfo SearchResults.t) :=
  [ xml.field "request" SearchResults.Request SearchResults.set_Request;
    xml.field "message" SearchResults.Message SearchResults.set_Message;
    xml.field "response>results>result" SearchResults.Results SearchResults.set_Results ].
#[global] Instance SearchResults_value : xml.GoValue SearchResults.t :=
  xml.structValue SearchResults.zero (Some ("searchresults", SearchResults.set_XMLName)) SearchResults_fields.

Definition ChartRequest_fields : list (xml.fieldInfo ChartRequest.t) :=
  [ xml.field "zpid" ChartRequest.Zpid ChartRequest.set_Zpid;
    xml.field "unit-type" ChartRequest.UnitType ChartRequest.set_UnitType;
    xml.field "width" ChartRequest.Width ChartRequest.set_Width;
    xml.field "height" ChartRequest.Height ChartRequest.set_Height;
    xml.field "chartDuration" ChartRequest.Duration ChartRequest.set_Duration ].
#[global] Instance ChartRequest_value : xml.GoValue ChartRequest.t :=
  xml.structValue ChartRequest.zero None ChartRequest_fields.

Definition ChartResult_fields : list (xml.fieldInfo ChartResult.t) :=
  [ xml.field "request" ChartResult.Request ChartResult.set_Request;
    xml.field "message" ChartResult.Message ChartResult.set_Message;
    xml.field "response>url" ChartResult.Url ChartResult.set_Url ].
#[global] Instance ChartResult_value : xml.GoValue ChartResult.t :=
  xml.structValue ChartResult.zero (Some ("chart", ChartResult.set_XMLName)) ChartResult_fields.

Definition CompsRequest_fields : list (xml.fieldInfo CompsRequest.t) :=
  [ xml.field "zpid" CompsRequest.Zpid CompsRequest.set_Zpid;
    xml.field "count" CompsRequest.Count CompsRequest.set_Count;
    xml.field "rentzestimate" CompsRequest.Rentzestimate CompsRequest.set_Rentzestimate ].
#[global] Instance CompsRequest_value : xml.GoValue CompsRequest.t :=
  xml.structValue CompsRequest.zero None CompsRequest_fields.

Definition Principal_fields : list (xml.fieldInfo Principal.t) :=
  [ xml.field "zpid" Principal.Zpid Principal.set_Zpid;
    xml.field "links" Principal.Links Principal.set_Links;
    xml.field "address" Principal.Address Principal.set_Address;
    xml.field "zestimate" Principal.Zestimate Principal.set_Zestimate ].
#[global] Instance Principal_value : xml.GoValue Principal.t :=
  xml.structValue Principal.zero None Principal_fields.

Definition Comp_fields : list (xml.fieldInfo Comp.t) :=
  [ xml.field "score,attr" Comp.Score Comp.set_Score;
    xml.field "zpid" Comp.Zpid Comp.set_Zpid;
    xml.field "links" Comp.Links Comp.set_Links;
    xml.field "address" Comp.Address Comp.set_Address;
    xml.field "zestimate" Comp.Zestimate Comp.set_Zestimate ].
#[global] Instance Comp_value : xml.GoValue Comp.t :=
  xml.structValue Comp.zero None Comp_fields.

Definition CompsResult_fields : list (xml.fieldInfo CompsResult.t) :=
  [ xml.field "request" CompsResult.Request CompsResult.set_Request;
    xml.field "message" CompsResult.Message CompsResult.set_Message;
    xml.field "response>properties>principal" CompsResult.Principal CompsResult.set_Principal;
    xml.field "response>properties>comparables>comp" CompsResult.Comparables CompsResult.set_Comparables ].
#[global] Instance CompsResult_value : xml.GoValue CompsResult.t :=
  xml.structValue CompsResult.zero (Some ("comps", CompsResult.set_XMLName)) CompsResult_fields.

(** ** Constants *)

Definition baseUrl : string := "http://www.zillow.com/webservice/".

Definition zwsIdParam : string := "zws-Id".
Definition zpidParam : string := "zpid".
Definition rentzestimateParam : string := "rentzestimate".
Definition addressParam : string := "address".
Definition cityStateZipParam : string := "citystatezip".
Definition unitTypeParam : string := "unit-type".
Definition widthParam : string := "width".
Definition heightParam : string := "height".
Definition chartDurationParam : string := "chartDuration".
Definition countParam : string := "count".

Definition getZestimatePath : string := "GetZestimate".
Definition getSearchResults : string := "GetSearchResults".
Definition getChart : string := "GetChart".
Definition getComps : string := "GetComps".

(** ** The client *)

Record zillow : Type := mkZillow { zwsId : string; url : string }.

(** [NewZillow] returns the interface [Zillow]; its dynamic value is always
    this struct. *)
Definition NewZillow (zwsId : string) : zillow := mkZillow zwsId baseUrl.

(** The URLs requested so far, oldest first: the only trace the package
    leaves outside the process. *)
Definition Net : Type := list string.

(** [http.Get(url)]. *)
Definition http_Get (u : string) (net : Net) : (http.Response + error) * Net :=
  (roundTrip u, net ++ [u]).

(** [xml.NewDecoder(body).Decode(result)].  The decoder unmarshals as
    the tokens come: on a body that the tokenizer gives up on, it has
    dealt with what was delivered before, so an error of unmarshalling
    met there is the one returned, and the destination holds what was
    written until then. *)
Definition Decode `{xml.GoValue T} (body : string) (result : T) : xml.partial T :=
  match readElement body with
  | inr (None, err) => xml.fail result err
  | inr (Some c, err) =>
      let '(written, e) := xml.unmarshalCut c err result in xml.fail written e
  | inl start => xml.unmarshal start result
  end.

Definition requestURL (z : zillow) (servicePath : string) (values : url.Values) : string :=
  url z +:+ "/" +:+ servicePath +:+ ".htm?" +:+ url.Encode values.

(** [get] writes into [result] and returns the error; here the written
    value is returned next to the error. *)
Definition get `{xml.GoValue T} (z : zillow) (servicePath : string)
    (values : url.Values) (result : T) (net : Net) : xml.partial T * Net :=
  let '(r, net') := http_Get (requestURL z servicePath values) net in
  match r with
  | inr err => (xml.fail result err, net')
  | inl resp => (Decode (http.Body resp) result, net')
  end.

(** The tail shared by the four methods:
    [if err := z.get(...); err != nil { return nil, err } else { return &result, nil }]. *)
Definition returning {T} (r : xml.partial T * Net) : (option T * option error) * Net :=
  match r with
  | ((_, Some err), net') => ((None, Some err), net')
  | ((result, None), net') => ((Some result, None), net')
  end.

Definition GetZestimate_values (z : zillow) (request : ZestimateRequest.t) : url.Values :=
  <[zwsIdParam := [zwsId z]]>
  (<[zpidParam := [ZestimateRequest.Zpid request]]>
  (<[rentzestimateParam := [strconv.FormatBool (ZestimateRequest.Rentzestimate request)]]> ∅)).

Definition GetZestimate (z : zillow) (request : ZestimateRequest.t) (net : Net)
    : (option ZestimateResult.t * option error) * Net :=
  let values := GetZestimate_values z request in
  returning (get z getZestimatePath values ZestimateResult.zero net).

Definition GetSearchResults_values (z : zillow) (request : SearchRequest.t) : url.Values :=
  <[zwsIdParam := [zwsId z]]>
  (<[addressParam := [SearchRequest.Address request]]>
  (<[cityStateZipParam := [SearchRequest.CityStateZip request]]>
  (<[rentzestimateParam := [strconv.FormatBool (SearchRequest.Rentzestimate request)]]> ∅))).

Definition GetSearchResults (z : zillow) (request : SearchRequest.t) (net : Net)
    : (option SearchResults.t * option error) * Net :=
  let values := GetSearchResults_values z request in
  returning (get z getSearchResults values SearchResults.zero net).

Definition GetChart_values (z : zillow) (request : ChartRequest.t) : url.Values :=
  <[zwsIdParam := [zwsId z]]>
  (<[zpidParam := [ChartRequest.Zpid request]]>
  (<[unitTypeParam := [ChartRequest.UnitType request]]>
  (<[widthParam := [strconv.Itoa (ChartRequest.Width request)]]>
  (<[heightParam := [strconv.Itoa (ChartRequest.Height request)]]>
  (<[chartDurationParam := [ChartRequest.Duration request]]> ∅))))).

Definition GetChart (z : zillow) (request : ChartRequest.t) (net : Net)
    : (option ChartResult.t * option error) * Net :=
  let values := GetChart_values z request in
  returning (get z getChart values ChartResult.zero net).

Definition GetComps_values (z : zillow) (request : CompsRequest.t) : url.Values :=
  <[zwsIdParam := [zwsId z]]>
  (<[zpidParam := [CompsRequest.Zpid request]]>
  (<[countParam := [strconv.Itoa (CompsRequest.Count request)]]>
  (<[rentzestimateParam := [strconv.FormatBool (CompsRequest.Rentzestimate request)]]> ∅))).

Definition GetComps (z : zillow) (request : CompsRequest.t) (net : Net)
    : (option CompsResult.t * option error) * Net :=
  let values := GetComps_values z request in
  returning (get z getComps values CompsResult.zero net).

End Package.

(** ** The four operations as one family

    The claims speak of "every operation"; the family below lets a
    statement range over the four methods.  Each component is the
    corresponding piece of the method as written above. *)

Inductive operation : Type := OpZestimate | OpSearchResults | OpChart | OpComps.

Definition Request (o : operation) : Type :=
  match o with
  | OpZestimate => ZestimateRequest.t
  | OpSearchResults => SearchRequest.t
  | OpChart => ChartRequest.t
  | OpComps => CompsRequest.t
  end.

Definition Result (o : operation) : Type :=
  match o with
  | OpZestimate => ZestimateResult.t
  | OpSearchResults => SearchResults.t
  | OpChart => ChartResult.t
  | OpComps => CompsResult.t
  end.

Definition servicePath (o : operation) : string :=
  match o with
  | OpZestimate => getZestimatePath
  | OpSearchResults => getSearchResults
  | OpChart => getChart
  | OpComps => getComps
  end.

Definition values (o : operation) : zillow → Request o → url.Values :=
  match o with
  | OpZestimate => GetZestimate_values
  | OpSearchResults => GetSearchResults_values
  | OpChart => GetChart_values
  | OpComps => GetComps_values
  end.

Definition Result_value `{W : World} (o : operation) : xml.GoValue (Result o) :=
  match o with
  | OpZestimate => ZestimateResult_value
  | OpSearchResults => SearchResults_value
  | OpChart => ChartResult_value
  | OpComps => CompsResult_value
  end.

(** [var result T]: the zero value the method declares before the call. *)
Definition result0 (o : operation) : Result o :=
  match o with
  | OpZestimate => ZestimateResult.zero
  | OpSearchResults => SearchResults.zero
  | OpChart => ChartResult.zero
  | OpComps => CompsResult.zero
  end.

Definition call `{W : World} (o : operation)
    : zillow → Request o → Net → (option (Result o) * option error) * Net :=
  match o with
  | OpZestimate => GetZestimate
  | OpSearchResults => GetSearchResults
  | OpChart => GetChart
  | OpComps => GetComps
  end.

(** The decoding step of operation [o] on a response body. *)
Definition decodeBody `{W : World} (o : operation) (body : string)
    : xml.partial (Result o) :=
  @Decode W (Result o) (Result_value o) body (result0 o).

(** The message block of a result, which every result type carries. *)
Definition messageOf (o : operation) : Result o → Message.t :=
  match o with
  | OpZestimate => ZestimateResult.Message
  | OpSearchResults => SearchResults.Message
  | OpChart => ChartResult.Message
  | OpComps => CompsResult.Message
  end.

(** ** What the specification says of a query string *)

(** The [key=value] pairs of a query string as they stand on the wire:
    the segments between [&], each cut at its first [=]. *)
Definition queryPairs (q : string) : list (string * string) :=
  (λ kv, strings.Cut kv "=") <$> filter (λ kv, kv ≠ "") (strings.Split q "&").

(** The number a string of decimal digits denotes, by Horner's rule from
    [acc]; [None] if some byte is not a digit. *)
Fixpoint digitsValue (s : string) (acc : Z) : option Z :=
  match s with
  | EmptyString => Some acc
  | String c s' =>
      match strconv.digit_val c with
      | Some d => digitsValue s' (acc * 10 + d)
      | None => None
      end
  end.

(** The integer a base-10 numeral denotes: an optional minus sign and at
    least one decimal digit. *)
Definition readDecimal (s : string) : option Z :=
  match s with
  | EmptyString => None
  | String c ds =>
      if bool_decide (c = "-"%char)
      then (if bool_decide (ds = "") then None
            else Z.opp <$> digitsValue ds 0)
      else digitsValue s 0
  end.

(** Where the value of a documented parameter comes from. *)
Inductive paramSource (R : Type) : Type :=
| ApiKey
| Text (f : R → string)
| Flag (f : R → bool)
| Number (f : R → int).
Arguments ApiKey {R}.
Arguments Text {R} f.
Arguments Flag {R} f.
Arguments Number {R} f.

(** The documented parameters of each operation: the API key under
    [zws-Id] and the fields of the request. *)
Definition documented (o : operation) : list (string * paramSource (Request o)) :=
  match o with
  | OpZestimate =>
      [ ("zws-Id", ApiKey);
        ("zpid", Text ZestimateRequest.Zpid);
        ("rentzestimate", Flag ZestimateRequest.Rentzestimate) ]
  | OpSearchResults =>
      [ ("zws-Id", ApiKey);
        ("address", Text SearchRequest.Address);
        ("citystatezip", Text SearchRequest.CityStateZip);
        ("rentzestimate", Flag SearchRequest.Rentzestimate) ]
  | OpChart =>
      [ ("zws-Id", ApiKey);
        ("zpid", Text ChartRequest.Zpid);
        ("unit-type", Text ChartRequest.UnitType);
        ("width", Number ChartRequest.Width);
        ("height", Number ChartRequest.Height);
        ("chartDuration", Text ChartRequest.Duration) ]
  | OpComps =>
      [ ("zws-Id", ApiKey);
        ("zpid", Text CompsRequest.Zpid);
        ("count", Number CompsRequest.Count);
        ("rentzestimate", Flag CompsRequest.Rentzestimate) ]
  end.

(** [rendered z req src v]: the string [v] is the documented rendering
    of the source [src]: text as it is, a flag as [true] or [false] and
    a number as a base-10 numeral, both sent as they stand. *)
Definition rendered {R} (z : zillow) (req : R) (src : paramSource R) (v : string) : Prop :=
  match src with
  | ApiKey => v = zwsId z
  | Text f => v = f req
  | Flag f => v = (if f req then "true" else "false") ∧ url.QueryEscape v = v
  | Number f => readDecimal v = Some (f req) ∧ url.QueryEscape v = v
  end.

(** Byte-wise strict order on strings. *)
Definition bytewise_lt (s t : string) : Prop := strict String.le s t.

(** Whether every byte of a string satisfies a test. *)
Fixpoint allBytes (P : ascii → bool) (s : string) : bool :=
  match s with
  | EmptyString => true
  | String c s' => P c && allBytes P s'
  end.

Definition isDigitOrMinus (c : ascii) : bool :=
  bool_decide (c = "-"%char) || bool_decide (is_Some (strconv.digit_val c)).

(** A query string put together from its pairs. *)
Definition showPair (p : string * string) : string := p.1 +:+ "=" +:+ p.2.

Fixpoint joinAmp (l : list string) : string :=
  match l with
  | [] => ""
  | x :: l' =>
      match l' with
      | [] => x
      | _ :: _ => x +:+ "&" +:+ joinAmp l'
      end
  end.

(** A pair that can be read back from a query: no [&] in it and no [=]
    in its key. *)
Definition safePair (p : string * string) : Prop :=
  strings.IndexByte_found p.1 "&" = false
  ∧ strings.IndexByte_found p.1 "=" = false
  ∧ strings.IndexByte_found p.2 "&" = false.

(** The escaped pairs that [Encode] writes for the keys [keys]. *)
Definition encodedPairs (v : url.Values) (keys : list string) : list (string * string) :=
  keys ≫= λ k, (λ x, (url.QueryEscape k, url.QueryEscape x)) <$> default [] (v !! k).

(** The keys of each operation in the order they stand on the wire. *)
Definition wireKeys (o : operation) : list string :=
  match o with
  | OpZestimate => ["rentzestimate"; "zpid"; "zws-Id"]
  | OpSearchResults => ["address"; "citystatezip"; "rentzestimate"; "zws-Id"]
  | OpChart => ["chartDuration"; "height"; "unit-type"; "width"; "zpid"; "zws-Id"]
  | OpComps => ["count"; "rentzestimate"; "zpid"; "zws-Id"]
  end.

(** ** Stub responses

    Documents in the shape the upstream service documents for property
    48749425, as element trees, and a world that serves them. *)

Definition el (local : string) (attrs : list xml.Attr)
    (content : list (string + xml.Element)) : xml.Element :=
  xml.Elem (xml.mkName "" local) attrs content.

Definition leaf (local text : string) : string + xml.Element :=
  inr (el local [] [inl text]).

Definition attr (local value : string) : xml.Attr :=
  xml.mkAttr (xml.mkName "" local) value.

(** The value of the first attribute of that local name. *)
Definition attribute (local : string) (e : xml.Element) : option string :=
  xml.attrValue <$> head (filter (λ a, xml.Local (xml.attrName a) = local) (xml.elAttr e)).

Definition stub_links (zpid : string) : string + xml.Element :=
  inr (el "links" []
    [ leaf "homedetails" ("http://www.zillow.com/homedetails/" +:+ zpid +:+ "_zpid/");
      leaf "graphsanddata" ("http://www.zillow.com/homedetails/" +:+ zpid +:+ "_zpid/#charts-and-data");
      leaf "mapthishome" ("http://www.zillow.com/homes/" +:+ zpid +:+ "_zpid/");
      leaf "comparables" ("http://www.zillow.com/homes/comps/" +:+ zpid +:+ "_zpid/") ]).

Definition stub_address (street lat long : string) : string + xml.Element :=
  inr (el "address" []
    [ leaf "street" street; leaf "zipcode" "98109"; leaf "city" "Seattle";
      leaf "state" "WA"; leaf "latitude" lat; leaf "longitude" long ]).

Definition stub_zestimate (amount change low high : string) : string + xml.Element :=
  inr (el "zestimate" []
    [ inr (el "amount" [attr "currency" "USD"] [inl amount]);
      leaf "last-updated" "11/03/2009";
      inr (el "oneWeekChange" [attr "deprecated" "true"] []);
      inr (el "valueChange" [attr "duration" "30"; attr "currency" "USD"] [inl change]);
      inr (el "valuationRange" []
        [ inr (el "low" [attr "currency" "USD"] [inl low]);
          inr (el "high" [attr "currency" "USD"] [inl high]) ]);
      leaf "percentile" "0" ]).

(** The valuation-estimate stub: amount 258000 USD, range 231000 to
    278000. *)
Definition stub_zestimate_doc : xml.Element :=
  xml.Elem (xml.mkName "http://www.zillow.com/static/xsd/Zestimate.xsd" "zestimate")
    [ xml.mkAttr (xml.mkName "xmlns" "Zestimate") "http://www.zillow.com/static/xsd/Zestimate.xsd" ]
    [ inr (el "request" [] [leaf "zpid" "48749425"]);
      inr (el "message" [] [leaf "text" "Request successfully processed"; leaf "code" "0"]);
      inr (el "response" []
        [ leaf "zpid" "48749425";
          stub_links "48749425";
          stub_address "2114 Bigelow Ave N" "47.625" "-122.375";
          stub_zestimate "258000" "-41500" "231000" "278000";
          inr (el "localRealEstate" []
            [ inr (el "region"
                [attr "id" "271856"; attr "type" "neighborhood"; attr "name" "East Queen Anne"]
                [ leaf "zindexValue" "525,397";
                  leaf "zindexOneYearChange" "-0.125";
                  inr (el "links" []
                    [ leaf "overview" "http://www.zillow.com/local-info/WA-Seattle/East-Queen-Anne/r_271856/";
                      leaf "forSaleByOwner" "http://www.zillow.com/homes/fsbo/East-Queen-Anne-Seattle-WA/";
                      leaf "forSale" "http://www.zillow.com/homes/for_sale/East-Queen-Anne-Seattle-WA/" ]) ]) ]);
          inr (el "regions" []
            [ leaf "zipcode-id" "99569"; leaf "city-id" "16037";
              leaf "county-id" "207"; leaf "state-id" "59" ]) ]) ].

(** One [comp] element of the comparables stub. *)
Definition stub_comp (score zpid street amount : string) : xml.Element :=
  el "comp" [attr "score" score]
    [ leaf "zpid" zpid;
      stub_links zpid;
      stub_address street "47.5" "-122.25";
      stub_zestimate amount "-1000" "200000" "300000" ].

(** The five comparables of the stub, in document order, as (score,
    property identifier, street, amount). *)
Definition stub_comp_rows : list (string * string * string * string) :=
  [ ("9.0", "48689204", "2111 Bigelow Ave N", "261000");
    ("8.5", "48749490", "2125 Bigelow Ave N", "249000");
    ("7.25", "48749446", "2159 Bigelow Ave N", "270500");
    ("6.0", "48749438", "2200 Bigelow Ave N", "255250");
    ("4.5", "48749427", "2210 Bigelow Ave N", "240000") ].

Definition stub_comps : list xml.Element :=
  (λ '(score, zpid, street, amount), stub_comp score zpid street amount)
    <$> stub_comp_rows.

(** The principal property of the comparables stub. *)
Definition stub_principal : xml.Element :=
  el "principal" []
    [ leaf "zpid" "48749425";
      stub_links "48749425";
      stub_address "2114 Bigelow Ave N" "47.625" "-122.375";
      stub_zestimate "258000" "-41500" "231000" "278000" ].

(** The comparables stub around a list of [comp] elements: the request
    echo, the message, one principal and the [comparables] element that
    holds the list. *)
Definition stub_comps_doc_with (comps : list xml.Element) : xml.Element :=
  xml.Elem (xml.mkName "http://www.zillow.com/static/xsd/Comps.xsd" "comps")
    [ xml.mkAttr (xml.mkName "xmlns" "Comps") "http://www.zillow.com/static/xsd/Comps.xsd" ]
    [ inr (el "request" [] [leaf "zpid" "48749425"; leaf "count" "5"]);
      inr (el "message" [] [leaf "text" "Request successfully processed"; leaf "code" "0"]);
      inr (el "response" []
        [ inr (el "properties" []
            [ inr stub_principal;
              inr (el "comparables" [] (inr <$> comps)) ]) ]) ].

(** The comparables stub: one principal and the five [comp] elements. *)
Definition stub_comps_doc : xml.Element := stub_comps_doc_with stub_comps.

(** What the stub decodes to before its [comparables] element is read. *)
Definition stub_links_result (zpid : string) : Links.t :=
  Links.mk (xml.mkName "" "links")
    ("http://www.zillow.com/homedetails/" +:+ zpid +:+ "_zpid/")
    ("http://www.zillow.com/homedetails/" +:+ zpid +:+ "_zpid/#charts-and-data")
    ("http://www.zillow.com/homes/" +:+ zpid +:+ "_zpid/")
    ""
    ("http://www.zillow.com/homes/comps/" +:+ zpid +:+ "_zpid/").

Definition stub_principal_result : Principal.t :=
  Principal.mk "48749425" (stub_links_result "48749425")
    (Address.mk "2114 Bigelow Ave N" "98109" "Seattle" "WA" 47.625%float (-122.375)%float)
    (Zestimate.mk (Value.mk "USD" 258000) "11/03/2009" (ValueChange.mk 30 "USD" (-41500))
       (Value.mk "USD" 231000) (Value.mk "USD" 278000) "0").

Definition stub_comps_before : CompsResult.t :=
  CompsResult.mk (xml.mkName "http://www.zillow.com/static/xsd/Comps.xsd" "comps")
    (CompsRequest.mk "48749425" 5 false)
    (Message.mk "Request successfully processed" 0 false)
    stub_principal_result [].

(** A reply that is well-formed and reports an application-level error
    in its message block. *)
Definition stub_error_doc : xml.Element :=
  el "zestimate" []
    [ inr (el "request" [] [leaf "zpid" "0"]);
      inr (el "message" []
        [ leaf "text" "Error: invalid or missing zpid parameter";
          leaf "code" "500"; leaf "limit-warning" "true" ]) ].

(** What that reply decodes to. *)
Definition stub_error_result : ZestimateResult.t :=
  ZestimateResult.set_Message
    (Message.mk "Error: invalid or missing zpid parameter" 500 true)
    (ZestimateResult.set_Request (ZestimateRequest.mk "0" false)
       (ZestimateResult.set_XMLName (xml.mkName "" "zestimate") ZestimateResult.zero)).

(** A reply that stops being readable half-way: the request echo is
    there, the code of the message is not a number. *)
Definition stub_garbled_doc : xml.Element :=
  el "zestimate" []
    [ inr (el "request" [] [leaf "zpid" "5"]);
      inr (el "message" [] [leaf "text" "Request successfully processed"; leaf "code" "zero"]) ].

(** What has been written into the result when the decoder gives up on
    that reply. *)
Definition stub_garbled_written : ZestimateResult.t :=
  ZestimateResult.set_Message (Message.mk "Request successfully processed" 0 false)
    (ZestimateResult.set_Request (ZestimateRequest.mk "5" false)
       (ZestimateResult.set_XMLName (xml.mkName "" "zestimate") ZestimateResult.zero)).

(** A reply that breaks off inside the text of its message, as the
    tokenizer delivers it: the request echo in full, the start tags of
    the root and of the message, and no more. *)
Definition stub_truncated_cut : xml.Cut :=
  xml.CutElem (xml.mkName "" "zestimate") []
    [ inr (el "request" [] [leaf "zpid" "2"]) ]
    (Some (xml.CutElem (xml.mkName "" "message") [] []
       (Some (xml.CutElem (xml.mkName "" "text") [] [] None)))).

(** What has been written into the result when the tokenizer gives up
    on that reply. *)
Definition stub_truncated_written : ZestimateResult.t :=
  ZestimateResult.set_Request (ZestimateRequest.mk "2" false)
    (ZestimateResult.set_XMLName (xml.mkName "" "zestimate") ZestimateResult.zero).

(** An HTML page that breaks off in its body. *)
Definition stub_html_cut : xml.Cut :=
  xml.CutElem (xml.mkName "" "html") []
    [ inr (el "head" [] [leaf "title" "503 Service Unavailable"]) ]
    (Some (xml.CutElem (xml.mkName "" "body") [] [] None)).

(** A reply of another shape: an HTML error page. *)
Definition stub_html_doc : xml.Element :=
  el "html" [] [inr (el "body" [] [inl "Service Unavailable"])].

Definition stub_key : string := "X1-ZWz1dyb53fdhjf_6jziz".

Definition stub_ok_request : ZestimateRequest.t := ZestimateRequest.mk "48749425" false.
Definition stub_bad_request : ZestimateRequest.t := ZestimateRequest.mk "0" false.
Definition stub_down_request : ZestimateRequest.t := ZestimateRequest.mk "1" true.
Definition stub_cut_request : ZestimateRequest.t := ZestimateRequest.mk "2" false.
Definition stub_html_request : ZestimateRequest.t := ZestimateRequest.mk "3" false.
Definition stub_gone_request : ZestimateRequest.t := ZestimateRequest.mk "4" false.
Definition stub_garbled_request : ZestimateRequest.t := ZestimateRequest.mk "5" false.
Definition stub_broken_request : ZestimateRequest.t := ZestimateRequest.mk "6" false.
Definition stub_chart_request : ChartRequest.t :=
  ChartRequest.mk "48749425" "percent" 300 (-150) "1year".
Definition stub_comps_request : CompsRequest.t := CompsRequest.mk "48749425" 5 false.

Definition stub_zestimate_url : string :=
  "http://www.zillow.com/webservice//GetZestimate.htm?rentzestimate=false&zpid=48749425&zws-Id=X1-ZWz1dyb53fdhjf_6jziz".
Definition stub_bad_url : string :=
  "http://www.zillow.com/webservice//GetZestimate.htm?rentzestimate=false&zpid=0&zws-Id=X1-ZWz1dyb53fdhjf_6jziz".
Definition stub_cut_url : string :=
  "http://www.zillow.com/webservice//GetZestimate.htm?rentzestimate=false&zpid=2&zws-Id=X1-ZWz1dyb53fdhjf_6jziz".
Definition stub_html_url : string :=
  "http://www.zillow.com/webservice//GetZestimate.htm?rentzestimate=false&zpid=3&zws-Id=X1-ZWz1dyb53fdhjf_6jziz".
Definition stub_gone_url : string :=
  "http://www.zillow.com/webservice//GetZestimate.htm?rentzestimate=false&zpid=4&zws-Id=X1-ZWz1dyb53fdhjf_6jziz".
Definition stub_garbled_url : string :=
  "http://www.zillow.com/webservice//GetZestimate.htm?rentzestimate=false&zpid=5&zws-Id=X1-ZWz1dyb53fdhjf_6jziz".
Definition stub_broken_url : string :=
  "http://www.zillow.com/webservice//GetZestimate.htm?rentzestimate=false&zpid=6&zws-Id=X1-ZWz1dyb53fdhjf_6jziz".
Definition stub_down_url : string :=
  "http://www.zillow.com/webservice//GetZestimate.htm?rentzestimate=true&zpid=1&zws-Id=X1-ZWz1dyb53fdhjf_6jziz".
Definition stub_comps_url : string :=
  "http://www.zillow.com/webservice//GetComps.htm?count=5&rentzestimate=false&zpid=48749425&zws-Id=X1-ZWz1dyb53fdhjf_6jziz".

(** The stub server.  The documents stand for their own bytes: a body
    is the name of the document it carries, and the tokenizer of the stub
    world reads that document from it. *)
Definition stub_roundTrip (u : string) : http.Response + error :=
  if bool_decide (u = stub_zestimate_url) then inl (http.mkResponse 200 "zestimate.xml")
  else if bool_decide (u = stub_comps_url) then inl (http.mkResponse 200 "comps.xml")
  else if bool_decide (u = stub_bad_url) then inl (http.mkResponse 200 "error.xml")
  else if bool_decide (u = stub_gone_url) then inl (http.mkResponse 404 "error.xml")
  else if bool_decide (u = stub_cut_url) then inl (http.mkResponse 200 "truncated.xml")
  else if bool_decide (u = stub_garbled_url) then inl (http.mkResponse 200 "garbled.xml")
  else if bool_decide (u = stub_html_url) then inl (http.mkResponse 503 "unavailable.html")
  else if bool_decide (u = stub_broken_url) then inl (http.mkResponse 503 "truncated.html")
  else inr (url_Error "Get" u "dial tcp: connect: connection refused").

Definition stub_readElement (body : string) : xml.Element + (option xml.Cut * error) :=
  if bool_decide (body = "zestimate.xml") then inl stub_zestimate_doc
  else if bool_decide (body = "comps.xml") then inl stub_comps_doc
  else if bool_decide (body = "error.xml") then inl stub_error_doc
  else if bool_decide (body = "garbled.xml") then inl stub_garbled_doc
  else if bool_decide (body = "unavailable.html") then inl stub_html_doc
  else if bool_decide (body = "truncated.xml")
  then inr (Some stub_truncated_cut,
            xml_SyntaxError "XML syntax error on line 4: unexpected EOF")
  else if bool_decide (body = "truncated.html")
  then inr (Some stub_html_cut,
            xml_SyntaxError "XML syntax error on line 6: unexpected EOF")
  else inr (None, xml_SyntaxError "XML syntax error on line 1: unexpected EOF").

(** The decimal numerals of the stubs, all binary fractions, with the
    [float64] each denotes. *)
Definition stub_floats : list (string * float64) :=
  [ ("47.625", 47.625%float); ("-122.375", (-122.375)%float);
    ("47.5", 47.5%float); ("-122.25", (-122.25)%float);
    ("-0.125", (-0.125)%float);
    ("9.0", 9%float); ("8.5", 8.5%float); ("7.25", 7.25%float);
    ("6.0", 6%float); ("4.5", 4.5%float) ].

Definition stub_ParseFloat (s : string) : float64 + error :=
  match list_find (λ p, p.1 = s) stub_floats with
  | Some (_, (_, f)) => inl f
  | None => inr (strconv_NumError "ParseFloat" s ErrSyntax)
  end.

Definition stub_world : World :=
  {| roundTrip := stub_roundTrip;
     readElement := stub_readElement;
     ParseFloat := stub_ParseFloat |}.

(** A world reads the numerals of the stubs as [strconv.ParseFloat]
    does when each of them is read as the [float64] it denotes. *)
Definition readsStubFloats `{W : World} : Prop :=
  ∀ s f, (s, f) ∈ stub_floats → ParseFloat s = inl f.

(** ** Replies written out from values

    To state what decoding gives back, replies are written out from the
    values they are to carry, field by field under the names of the
    struct tags: text as it is, integers by [Itoa], flags by
    [FormatBool]. *)

(** The range of Go's [int] on the 64-bit targets. *)
Definition in_int64 (n : Z) : Prop := - 2 ^ 63 <= n < 2 ^ 63.

Definition renderValue (nm : xml.Name) (v : Value.t) : xml.Element :=
  xml.Elem nm [attr "currency" (Value.Currency v)]
    [inl (strconv.Itoa (Value.Value v))].

Definition renderValueChange (nm : xml.Name) (v : ValueChange.t) : xml.Element :=
  xml.Elem nm
    [ attr "duration" (strconv.Itoa (ValueChange.Duration v));
      attr "currency" (ValueChange.Currency v) ]
    [inl (strconv.Itoa (ValueChange.Value v))].

Definition renderZestimate (nm : xml.Name) (z : Zestimate.t) : xml.Element :=
  xml.Elem nm []
    [ inr (renderValue (xml.mkName "" "amount") (Zestimate.Amount z));
      leaf "last-updated" (Zestimate.LastUpdated z);
      inr (renderValueChange (xml.mkName "" "valueChange") (Zestimate.ValueChange z));
      inr (el "valuationRange" []
        [ inr (renderValue (xml.mkName "" "low") (Zestimate.Low z));
          inr (renderValue (xml.mkName "" "high") (Zestimate.High z)) ]);
      leaf "percentile" (Zestimate.Percentile z) ].

Definition Zestimate_in_range (z : Zestimate.t) : Prop :=
  in_int64 (Value.Value (Zestimate.Amount z))
  ∧ in_int64 (ValueChange.Duration (Zestimate.ValueChange z))
  ∧ in_int64 (ValueChange.Value (Zestimate.ValueChange z))
  ∧ in_int64 (Value.Value (Zestimate.Low z))
  ∧ in_int64 (Value.Value (Zestimate.High z)).

Definition renderMessage (m : Message.t) : xml.Element :=
  el "message" []
    [ leaf "text" (Message.Text m);
      leaf "code" (strconv.Itoa (Message.Code m));
      leaf "limit-warning" (strconv.FormatBool (Message.LimitWarning m)) ].

Definition Message_in_range (m : Message.t) : Prop := in_int64 (Message.Code m).

(** ** The roots of the replies *)

(** The element name each result type asks of the root of a reply, in
    the tag of its [XMLName] field. *)
Definition rootName (o : operation) : string :=
  match o with
  | OpZestimate => "zestimate"
  | OpSearchResults => "searchresults"
  | OpChart => "chart"
  | OpComps => "comps"
  end.

Definition setXMLName (o : operation) : xml.Name → Result o → Result o :=
  match o with
  | OpZestimate => ZestimateResult.set_XMLName
  | OpSearchResults => SearchResults.set_XMLName
  | OpChart => ChartResult.set_XMLName
  | OpComps => CompsResult.set_XMLName
  end.

Definition requestOf (o : operation) : Result o → Request o :=
  match o with
  | OpZestimate => ZestimateResult.Request
  | OpSearchResults => SearchResults.Request
  | OpChart => ChartResult.Request
  | OpComps => CompsResult.Request
  end.

Definition Request_value `{W : World} (o : operation) : xml.GoValue (Request o) :=
  match o with
  | OpZestimate => ZestimateRequest_value
  | OpSearchResults => SearchRequest_value
  | OpChart => ChartRequest_value
  | OpComps => CompsRequest_value
  end.

Definition resultFields `{W : World} (o : operation) : list (xml.fieldInfo (Result o)) :=
  match o with
  | OpZestimate => ZestimateResult_fields
  | OpSearchResults => SearchResults_fields
  | OpChart => ChartResult_fields
  | OpComps => CompsResult_fields
  end.

(** The names under which the fields of every result type start: the
    request echo, the message block and the response. *)
Definition topNames : list string := ["request"; "message"; "response"].

(** Whether an item of the root's content is an element of one of these
    names. *)
Definition knownTop (tok : string + xml.Element) : bool :=
  match tok with
  | inr t => bool_decide (xml.Local (xml.elName t) ∈ topNames)
  | inl _ => false
  end.

(** A reply for operation [o] with the given content under a root of the
    right name. *)
Definition reply (o : operation) (content : list (string + xml.Element)) : xml.Element :=
  xml.Elem (xml.mkName "" (rootName o)) [] content.

(** One item of the content of an element as the struct decoder handles
    it: an element goes down the paths of the fields, character data is
    passed over. *)
Definition contentStep {S} (fields : list (xml.fieldInfo S)) (tok : string + xml.Element)
    (sv : S) : xml.partial S :=
  match tok with
  | inr t => (xml.unmarshalPath fields [] t sv).2
  | inl _ => xml.ok sv
  end.

(** ** The request echo *)

(** The [request] element of a reply that echoes a request as it was
    sent. *)
Definition echo (o : operation) : Request o → xml.Element :=
  match o with
  | OpZestimate => λ req,
      el "request" []
        [ leaf "zpid" (ZestimateRequest.Zpid req);
          leaf "rentzestimate" (strconv.FormatBool (ZestimateRequest.Rentzestimate req)) ]
  | OpSearchResults => λ req,
      el "request" []
        [ leaf "address" (SearchRequest.Address req);
          leaf "citystatezip" (SearchRequest.CityStateZip req);
          leaf "rentzestimate" (strconv.FormatBool (SearchRequest.Rentzestimate req)) ]
  | OpChart => λ req,
      el "request" []
        [ leaf "zpid" (ChartRequest.Zpid req);
          leaf "unit-type" (ChartRequest.UnitType req);
          leaf "width" (strconv.Itoa (ChartRequest.Width req));
          leaf "height" (strconv.Itoa (ChartRequest.Height req));
          leaf "chartDuration" (ChartRequest.Duration req) ]
  | OpComps => λ req,
      el "request" []
        [ leaf "zpid" (CompsRequest.Zpid req);
          leaf "count" (strconv.Itoa (CompsRequest.Count req));
          leaf "rentzestimate" (strconv.FormatBool (CompsRequest.Rentzestimate req)) ]
  end.

Definition request_in_range (o : operation) : Request o → Prop :=
  match o with
  | OpZestimate => λ _, True
  | OpSearchResults => λ _, True
  | OpChart => λ req, in_int64 (ChartRequest.Width req) ∧ in_int64 (ChartRequest.Height req)
  | OpComps => λ req, in_int64 (CompsRequest.Count req)
  end.

(** ** Reading a query back *)

(** The bytes a query can hold: those that pass unescaped, the plus sign
    and the percent sign of escapes, and the two separators. *)
Definition urlSafeByte (c : ascii) : bool :=
  negb (url.shouldEscape c) || bool_decide (c ∈ ["+"; "%"; "&"; "="]%char).

Definition unhex (c : ascii) : option Z :=
  let n := strings.byte_of c in
  if (48 <=? n) && (n <=? 57) then Some (n - 48)
  else if (97 <=? n) && (n <=? 102) then Some (n - 97 + 10)
  else if (65 <=? n) && (n <=? 70) then Some (n - 65 + 10)
  else None.

(** [url.QueryUnescape(s)]: [+] is a space, [%XX] the byte of that hex
    code; [None] for an escape that is cut short or not hexadecimal. *)
Fixpoint QueryUnescape (s : string) : option string :=
  match s with
  | EmptyString => Some EmptyString
  | String c s' =>
      if bool_decide (c = "%"%char) then
        match s' with
        | String h (String l rest) =>
            match unhex h, unhex l with
            | Some a, Some b =>
                String (Ascii.ascii_of_N (Z.to_N (a * 16 + b))) <$> QueryUnescape rest
            | _, _ => None
            end
        | _ => None
        end
      else if bool_decide (c = "+"%char) then String " " <$> QueryUnescape s'
      else String c <$> QueryUnescape s'
  end.

(** What the server reads of a documented parameter from its escaped
    value on the wire. *)
Definition readBack {R} (z : zillow) (req : R) (src : paramSource R) (e : string) : Prop :=
  match src with
  | ApiKey => QueryUnescape e = Some (zwsId z)
  | Text f => QueryUnescape e = Some (f req)
  | Flag f => strconv.ParseBool e = inl (f req)
  | Number f => readDecimal e = Some (f req)
  end.

(** ** Replies of the service *)

(** The service answers the request [req] of operation [o] with a body
    that holds the document [doc]. *)
Definition replies `{W : World} (o : operation) (z : zillow) (req : Request o)
    (doc : xml.Element) : Prop :=
  ∃ resp, roundTrip (requestURL z (servicePath o) (values o z req)) = inl resp
          ∧ readElement (http.Body resp) = inl doc.

(** A world in which every request is answered with the document
    [doc]. *)
Definition answering (doc : xml.Element) : World :=
  {| roundTrip := λ _, inl (http.mkResponse 200 "reply.xml");
     readElement := λ _, inl doc;
     ParseFloat := stub_ParseFloat |}.

Definition setRequest (o : operation) : Request o → Result o → Result o :=
  match o with
  | OpZestimate => ZestimateResult.set_Request
  | OpSearchResults => SearchResults.set_Request
  | OpChart => ChartResult.set_Request
  | OpComps => CompsResult.set_Request
  end.

Definition setMessage (o : operation) : Message.t → Result o → Result o :=
  match o with
  | OpZestimate => ZestimateResult.set_Message
  | OpSearchResults => SearchResults.set_Message
  | OpChart => ChartResult.set_Message
  | OpComps => CompsResult.set_Message
  end.

(** The name under which the path of a field starts: its first parent,
    or its own name when it has none. *)
Definition firstName {S} (finfo : xml.fieldInfo S) : string :=
  default (xml.name finfo) (head (xml.parents finfo)).

Definition renderLinks (l : Links.t) : xml.Element :=
  xml.Elem (Links.XMLName l) []
    [ leaf "homedetails" (Links.HomeDetails l);
      leaf "graphsanddata" (Links.GraphsAndData l);
      leaf "mapthishome" (Links.MapThisHome l);
      leaf "myzestimator" (Links.MyZestimator l);
      leaf "comparables" (Links.Comparables l) ].

(** A region of the local real estate with its three attributes, its
    index value and its links; the one-year change, a floating-point
    number, is left out. *)
Definition renderRegion (r : Region.t) : xml.Element :=
  xml.Elem (Region.XMLName r)
    [ attr "id" (Region.ID r); attr "type" (Region.Type_ r); attr "name" (Region.Name r) ]
    [ leaf "zindexValue" (Region.ZIndex r);
      inr (el "links" []
        [ leaf "overview" (Region.Overview r);
          leaf "forSaleByOwner" (Region.ForSaleByOwner r);
          leaf "forSale" (Region.ForSale r) ]) ].

Definition Region_in_range (r : Region.t) : Prop :=
  xml.Local (Region.XMLName r) = "region"
  ∧ Region.ZIndexOneYearChange r = 0%float.

(** The reply that carries a zestimate result, field by field, apart
    from the address and the regions of the local real estate, which
    hold floating-point numbers. *)
Definition renderZestimateResult (r : ZestimateResult.t) : xml.Element :=
  xml.Elem (ZestimateResult.XMLName r) []
    [ inr (echo OpZestimate (ZestimateResult.Request r));
      inr (renderMessage (ZestimateResult.Message r));
      inr (el "response" []
        [ inr (renderLinks (ZestimateResult.Links r));
          inr (renderZestimate (xml.mkName "" "zestimate") (ZestimateResult.Zestimate r));
          inr (el "regions" []
            [ leaf "zipcode-id" (ZestimateResult.ZipcodeID r);
              leaf "city-id" (ZestimateResult.CityID r);
              leaf "county-id" (ZestimateResult.CountyID r);
              leaf "state-id" (ZestimateResult.StateID r) ]) ]) ].

Definition ZestimateResult_in_range (r : ZestimateResult.t) : Prop :=
  xml.Local (ZestimateResult.XMLName r) = "zestimate"
  ∧ xml.Local (Links.XMLName (ZestimateResult.Links r)) = "links"
  ∧ Message_in_range (ZestimateResult.Message r)
  ∧ Zestimate_in_range (ZestimateResult.Zestimate r)
  ∧ ZestimateResult.Address r = Address.zero
  ∧ ZestimateResult.LocalRealEstate r = [].

(** The reply that carries a chart result, field by field. *)
Definition renderChartResult (r : ChartResult.t) : xml.Element :=
  xml.Elem (ChartResult.XMLName r) []
    [ inr (echo OpChart (ChartResult.Request r));
      inr (renderMessage (ChartResult.Message r));
      inr (el "response" [] [leaf "url" (ChartResult.Url r)]) ].

Definition ChartResult_in_range (r : ChartResult.t) : Prop :=
  xml.Local (ChartResult.XMLName r) = "chart"
  ∧ request_in_range OpChart (ChartResult.Request r)
  ∧ Message_in_range (ChartResult.Message r).

(** ** Further replies for the stub world *)

Definition stub_search_request : SearchRequest.t :=
  SearchRequest.mk "2114 Bigelow Ave" "Seattle, WA" false.

(** A root with nothing the client knows in it. *)
Definition stub_notice_content : list (string + xml.Element) :=
  [inl " "; leaf "notice" "maintenance"; inl " "].
Definition stub_notice_doc : xml.Element :=
  xml.Elem (xml.mkName "" "zestimate") [attr "version" "1.1"] stub_notice_content.

(** An error reply to a chart request. *)
Definition stub_chart_message : Message.t :=
  Message.mk "Error: no chart for this property" 502 true.
Definition stub_chart_error_doc : xml.Element :=
  reply OpChart [inr (echo OpChart stub_chart_request); inr (renderMessage stub_chart_message)].

(** A message block with a code in words. *)
Definition stub_code_doc : xml.Element :=
  reply OpSearchResults [inr (el "message" [] [leaf "code" "five"])].

(** A valuation that has gone down, and the reply that carries it. *)
Definition stub_valuation : Zestimate.t :=
  Zestimate.mk (Value.mk "USD" 1219500) "11/03/2009"
    (ValueChange.mk 30 "USD" (-41500)) (Value.mk "USD" 1024380) (Value.mk "USD" 1378035)
    "95".
Definition stub_valuation_result : ZestimateResult.t :=
  ZestimateResult.mk (xml.mkName "" "zestimate") stub_ok_request
    (Message.mk "Request successfully processed" 0 false)
    (Links.mk (xml.mkName "" "links")
       "http://www.zillow.com/homedetails/48749425_zpid/"
       "http://www.zillow.com/homedetails/48749425_zpid/#charts-and-data"
       "http://www.zillow.com/homes/48749425_zpid/"
       "" "http://www.zillow.com/homes/comps/48749425_zpid/")
    Address.zero stub_valuation [] "99109" "16037" "207" "59".

(** A chart result with a URL that has a query of its own. *)
Definition stub_chart_result : ChartResult.t :=
  ChartResult.mk (xml.mkName "" "chart") stub_chart_request
    (Message.mk "Request successfully processed" 0 false)
    "http://www.zillow.com/app?chartDuration=1year&chartType=partner&height=150&page=webservice%2FGetChart&service=chart&showPercent=true&width=300&zpid=48749425".

(** Two search results, the second without a valuation. *)
Definition stub_results : list xml.Element :=
  [ el "result" []
      [ leaf "zpid" "48749425";
        inr (renderZestimate (xml.mkName "" "zestimate") stub_valuation) ];
    el "result" [] [ leaf "zpid" "48879021" ] ].
Definition stub_results_doc : xml.Element :=
  reply OpSearchResults [inr (el "response" [] [inr (el "results" [] (inr <$> stub_results))])].
Definition stub_results_decoded : list SearchResult.t :=
  [ SearchResult.mk (xml.mkName "" "result") "48749425" Links.zero Address.zero
      stub_valuation [];
    SearchResult.mk (xml.mkName "" "result") "48879021" Links.zero Address.zero
      Zestimate.zero [] ].

(** The value of a documented parameter as the client puts it on the
    wire. *)
Definition wireValue {R} (z : zillow) (req : R) (src : paramSource R) : string :=
  url.QueryEscape
    match src with
    | ApiKey => zwsId z
    | Text f => f req
    | Flag f => strconv.FormatBool (f req)
    | Number f => strconv.Itoa (f req)
    end.

(** The neighbourhood and the city of the stub property. *)
Definition stub_regions : list Region.t :=
  [ Region.mk (xml.mkName "" "region") "271856" "neighborhood" "East Queen Anne"
      "1,285,200" 0%float
      "http://www.zillow.com/local-info/WA-Seattle/East-Queen-Anne/r_271856/"
      "http://www.zillow.com/east-queen-anne-seattle-wa/fsbo/"
      "http://www.zillow.com/east-queen-anne-seattle-wa/";
    Region.mk (xml.mkName "" "region") "16037" "city" "Seattle" "" 0%float "" "" "" ].
Definition stub_regions_doc : xml.Element :=
  reply OpZestimate
    [inr (el "response" []
       [inr (el "localRealEstate" [] (inr <$> (renderRegion <$> stub_regions)))])].

(** A reply of another shape under the expected root: the service's
    answer in a schema the structs of this package do not know. *)
Definition stub_shape_doc : xml.Element :=
  el "searchresults" []
    [ inr (el "error" [] [leaf "reason" "no exact match found for input address"]) ].

(** A reply that stops after the request echo. *)
Definition stub_partial_doc : xml.Element :=
  el "comps" [] [ inr (el "request" [] [leaf "zpid" "7"]) ].

(** * Properties *)

(** ** Strings *)

Lemma append_cons (c : ascii) (s t : string) : String c s +:+ t = String c (s +:+ t).
Proof. done. Qed.

Lemma append_nil_l (s : string) : "" +:+ s = s.
Proof. done. Qed.

Lemma append_nil_r (s : string) : s +:+ "" = s.
Proof. induction s as [|c s IH]; [done|]. by rewrite append_cons, IH. Qed.

Lemma append_assoc (s t u : string) : (s +:+ t) +:+ u = s +:+ (t +:+ u).
Proof. induction s as [|c s IH]; [done|]. by rewrite !append_cons, IH. Qed.

Lemma IndexByte_found_app (s t : string) (c : ascii) :
  strings.IndexByte_found (s +:+ t) c
  = strings.IndexByte_found s c || strings.IndexByte_found t c.
Proof.
  induction s as [|c' s IH]; [done|].
  rewrite append_cons. cbn. rewrite IH. by rewrite orb_assoc.
Qed.

Lemma Split_no_sep (s : string) (sep : ascii) :
  strings.IndexByte_found s sep = false → strings.Split s sep = [s].
Proof.
  induction s as [|c s IH]; cbn; [done|].
  intros [Hc Hs]%orb_false_elim.
  rewrite Hc. by rewrite IH.
Qed.

Lemma Split_app_sep (s t : string) (sep : ascii) :
  strings.IndexByte_found s sep = false →
  strings.Split (s +:+ String sep t) sep = s :: strings.Split t sep.
Proof.
  induction s as [|c s IH].
  - intros _. rewrite append_nil_l. cbn. by rewrite bool_decide_eq_true_2.
  - rewrite append_cons. cbn. intros [Hc Hs]%orb_false_elim.
    rewrite Hc. by rewrite IH.
Qed.

Lemma Cut_app_sep (s t : string) (sep : ascii) :
  strings.IndexByte_found s sep = false →
  strings.Cut (s +:+ String sep t) sep = (s, t).
Proof.
  induction s as [|c s IH].
  - intros _. rewrite append_nil_l. cbn. by rewrite bool_decide_eq_true_2.
  - rewrite append_cons. cbn. intros [Hc Hs]%orb_false_elim.
    rewrite Hc. by rewrite IH.
Qed.

(** ** [strconv]: the numeral written by [Itoa] *)

Lemma digit_val_digit (d : Z) :
  0 <= d < 10 → strconv.digit_val (strconv.digit d) = Some d.
Proof.
  intros Hd.
  assert (d ∈ [0; 1; 2; 3; 4; 5; 6; 7; 8; 9]) as Hin.
  { rewrite !elem_of_cons. lia. }
  rewrite !elem_of_cons, elem_of_nil in Hin.
  destruct Hin as [->|[->|[->|[->|[->|[->|[->|[->|[->|[->|[]]]]]]]]]]]; done.
Qed.

Lemma isDigitOrMinus_digit (d : Z) :
  0 <= d < 10 → isDigitOrMinus (strconv.digit d) = true.
Proof.
  intros Hd. unfold isDigitOrMinus. rewrite (digit_val_digit d Hd).
  rewrite (bool_decide_eq_true_2 (is_Some (Some d))) by eauto.
  apply orb_true_r.
Qed.

Lemma formatBits_bytes (fuel : nat) (u : Z) (a : string) :
  0 <= u → allBytes isDigitOrMinus a = true →
  allBytes isDigitOrMinus (strconv.formatBits fuel u a) = true.
Proof.
  revert u a. induction fuel as [|fuel IH]; intros u a Hu Ha; cbn; [done|].
  destruct (Z.ltb_spec u 10).
  - cbn. rewrite isDigitOrMinus_digit by lia. done.
  - apply IH; [apply Z.div_pos; lia|].
    cbn. rewrite isDigitOrMinus_digit; [done|]. apply Z.mod_pos_bound. lia.
Qed.

(** With enough fuel the digits written are the numeral of [u]: read
    back by Horner's rule they give [u]. *)
Lemma parse_formatBits (fuel : nat) (u : Z) :
  0 <= u < 10 ^ Z.of_nat fuel →
  ∃ k, 0 <= k ∧ ∀ a acc,
    digitsValue (strconv.formatBits fuel u a) acc
    = digitsValue a (acc * 10 ^ k + u).
Proof.
  revert u. induction fuel as [|fuel IH]; intros u Hu.
  - exists 0. split; [done|]. intros a acc. cbn.
    f_equal. change (10 ^ Z.of_nat 0) with 1 in Hu. lia.
  - cbn [strconv.formatBits]. destruct (Z.ltb_spec u 10) as [Hlt|Hge].
    + exists 1. split; [done|]. intros a acc. cbn [digitsValue].
      rewrite digit_val_digit by lia. f_equal; lia.
    + destruct (IH (u / 10)) as (k & Hk & Hparse).
      { rewrite Nat2Z.inj_succ, Z.pow_succ_r in Hu by lia.
        split; [apply Z.div_pos; lia|]. apply Z.div_lt_upper_bound; lia. }
      exists (k + 1). split; [lia|]. intros a acc.
      rewrite Hparse. cbn [digitsValue].
      rewrite digit_val_digit by (apply Z.mod_pos_bound; lia).
      f_equal. rewrite Z.pow_add_r by lia.
      pose proof (Z.div_mod u 10). lia.
Qed.

Lemma formatBits_cons (fuel : nat) (u : Z) (a : string) :
  ∃ c s, strconv.formatBits (S fuel) u a = String c s.
Proof.
  revert u a. induction fuel as [|fuel IH]; intros u a.
  - cbn. destruct (u <? 10); eauto.
  - change (strconv.formatBits (S (S fuel)) u a)
      with (if u <? 10 then String (strconv.digit u) a
            else strconv.formatBits (S fuel) (u / 10)
                   (String (strconv.digit (u mod 10)) a)).
    destruct (u <? 10); eauto.
Qed.

Lemma Itoa_fuel (u : Z) : 0 <= u → u < 10 ^ Z.of_nat (S (Z.to_nat (Z.log2 u))).
Proof.
  intros Hu. rewrite Nat2Z.inj_succ, Z2Nat.id by apply Z.log2_nonneg.
  destruct (decide (u = 0)) as [->|Hne]; [done|].
  pose proof (Z.log2_spec u ltac:(lia)) as [_ Hup].
  eapply Z.lt_le_trans; [exact Hup|].
  apply Z.pow_le_mono_l. lia.
Qed.

Lemma Itoa_bytes (i : int) : allBytes isDigitOrMinus (strconv.Itoa i) = true.
Proof.
  unfold strconv.Itoa. cbv zeta.
  pose proof (formatBits_bytes (S (Z.to_nat (Z.log2 (Z.abs i)))) (Z.abs i) ""
                ltac:(lia) eq_refl) as Hb.
  destruct (i <? 0); [|done]. cbn [allBytes]. by rewrite Hb.
Qed.

Lemma readDecimal_Itoa (i : int) : readDecimal (strconv.Itoa i) = Some i.
Proof.
  unfold strconv.Itoa. cbv zeta.
  set (fuel := Z.to_nat (Z.log2 (Z.abs i))).
  destruct (parse_formatBits (S fuel) (Z.abs i)) as (k & Hk & Hparse).
  { split; [lia|]. apply Itoa_fuel. lia. }
  destruct (formatBits_cons fuel (Z.abs i) "") as (c & s & Hcs).
  destruct (Z.ltb_spec i 0) as [Hneg|Hpos].
  - unfold readDecimal. rewrite bool_decide_eq_true_2 by done.
    rewrite bool_decide_eq_false_2.
    + rewrite Hparse. cbn. f_equal. lia.
    + intros E. rewrite Hcs in E. discriminate.
  - unfold readDecimal. rewrite Hcs. case_bool_decide as Hc.
    + (* a numeral without sign does not start with the minus sign *)
      pose proof (Hparse "" 0) as Hp. rewrite Hcs in Hp. subst c.
      cbn in Hp. discriminate.
    + rewrite <- Hcs, Hparse. cbn. f_equal. lia.
Qed.

(** ** [net/url]: escaping *)

Lemma QueryEscape_cons (c : ascii) (s : string) :
  url.QueryEscape (String c s) = url.QueryEscape (String c "") +:+ url.QueryEscape s.
Proof.
  cbn [url.QueryEscape].
  destruct (bool_decide (c = " "%char)); [done|].
  by destruct (url.shouldEscape c).
Qed.

Lemma QueryEscape_byte_no_sep (c sep : ascii) :
  sep = "&"%char ∨ sep = "="%char →
  strings.IndexByte_found (url.QueryEscape (String c "")) sep = false.
Proof.
  intros [->| ->]; destruct c as [[] [] [] [] [] [] [] []]; vm_compute; reflexivity.
Qed.

(** An escaped string holds neither [&] nor [=]: whatever the caller
    puts into a request field, it cannot start a new pair. *)
Lemma QueryEscape_no_sep (s : string) (sep : ascii) :
  sep = "&"%char ∨ sep = "="%char →
  strings.IndexByte_found (url.QueryEscape s) sep = false.
Proof.
  intros Hsep. induction s as [|c s IH]; [done|].
  rewrite QueryEscape_cons, IndexByte_found_app, IH.
  by rewrite QueryEscape_byte_no_sep.
Qed.

Lemma QueryEscape_byte_id (c : ascii) :
  isDigitOrMinus c = true → url.QueryEscape (String c "") = String c "".
Proof.
  destruct c as [[] [] [] [] [] [] [] []]; vm_compute; congruence.
Qed.

(** A numeral is sent as it stands. *)
Lemma QueryEscape_numeral (s : string) :
  allBytes isDigitOrMinus s = true → url.QueryEscape s = s.
Proof.
  induction s as [|c s IH]; [done|].
  cbn [allBytes]. intros [Hc Hs]%andb_true_iff.
  by rewrite QueryEscape_cons, QueryEscape_byte_id, IH.
Qed.

(** ** [net/url]: the shape of an encoded query *)

Lemma showPair_cons (p : string * string) : ∃ c s, showPair p = String c s.
Proof. destruct p as [[|c k] e]; unfold showPair; cbn; eauto. Qed.

Lemma joinAmp_cons (x y : string) (l : list string) :
  joinAmp (x :: y :: l) = x +:+ "&" +:+ joinAmp (y :: l).
Proof. done. Qed.

Lemma joinAmp_snoc (l : list string) (y : string) :
  l ≠ [] → joinAmp (l ++ [y]) = (joinAmp l +:+ "&") +:+ y.
Proof.
  induction l as [|x l IH]; [done|]. intros _.
  destruct l as [|x' l].
  - cbn [app joinAmp]. by rewrite append_assoc.
  - change ((x :: x' :: l) ++ [y]) with (x :: x' :: (l ++ [y])).
    rewrite !joinAmp_cons. change (x' :: l ++ [y]) with ((x' :: l) ++ [y]).
    rewrite IH by done. by rewrite !append_assoc.
Qed.

Lemma joinAmp_showPair_cons (ps : list (string * string)) :
  ps ≠ [] → ∃ c s, joinAmp (showPair <$> ps) = String c s.
Proof.
  destruct ps as [|p ps]; [done|]. intros _.
  destruct (showPair_cons p) as (c & s & Hp).
  destruct ps as [|p' ps]; cbn [fmap list_fmap joinAmp]; rewrite Hp; eauto.
Qed.

(** One turn of the inner loop of [Encode] appends one pair. *)
Lemma write_pair_joinAmp (ps : list (string * string)) (ke x : string) :
  url.write_pair ke (joinAmp (showPair <$> ps)) x
  = joinAmp (showPair <$> (ps ++ [(ke, url.QueryEscape x)])).
Proof.
  unfold url.write_pair. destruct (decide (ps = [])) as [->|Hne].
  - done.
  - destruct (joinAmp_showPair_cons ps Hne) as (c & s & Hcs).
    rewrite fmap_app. cbn [fmap list_fmap].
    rewrite joinAmp_snoc by (by destruct ps).
    rewrite Hcs. done.
Qed.

Lemma write_key_joinAmp (v : url.Values) (ps : list (string * string)) (k : string) :
  url.write_key v (joinAmp (showPair <$> ps)) k
  = joinAmp (showPair <$> (ps ++ encodedPairs v [k])).
Proof.
  unfold url.write_key, encodedPairs. cbn [mbind list_bind]. rewrite app_nil_r.
  generalize (default [] (v !! k)) as vs. intros vs. revert ps.
  induction vs as [|x vs IH]; intros ps; cbn [foldl fmap list_fmap].
  - by rewrite app_nil_r.
  - rewrite write_pair_joinAmp, IH. by rewrite <- app_assoc.
Qed.

Lemma encodedPairs_cons (v : url.Values) (k : string) (keys : list string) :
  encodedPairs v (k :: keys) = encodedPairs v [k] ++ encodedPairs v keys.
Proof. unfold encodedPairs. cbn [mbind list_bind]. by rewrite app_nil_r. Qed.

Lemma foldl_write_key_joinAmp (v : url.Values) (ps : list (string * string))
    (keys : list string) :
  foldl (url.write_key v) (joinAmp (showPair <$> ps)) keys
  = joinAmp (showPair <$> (ps ++ encodedPairs v keys)).
Proof.
  revert ps. induction keys as [|k keys IH]; intros ps; cbn [foldl].
  - unfold encodedPairs. cbn. by rewrite app_nil_r.
  - rewrite write_key_joinAmp, IH. by rewrite <- app_assoc, (encodedPairs_cons v k keys).
Qed.

(** [Encode] writes the escaped pairs of the sorted keys, joined by [&]. *)
Lemma Encode_ranged_joinAmp (v : url.Values) (ranged : list string) :
  url.Encode_ranged v ranged
  = joinAmp (showPair <$> encodedPairs v (url.sortedKeys ranged)).
Proof.
  unfold url.Encode_ranged. cbv zeta.
  exact (foldl_write_key_joinAmp v [] (url.sortedKeys ranged)).
Qed.

(** Reading the pairs back. *)
Lemma Split_joinAmp (l : list string) :
  l ≠ [] → Forall (λ x, strings.IndexByte_found x "&" = false) l →
  strings.Split (joinAmp l) "&" = l.
Proof.
  induction l as [|x l IH]; [done|]. intros _ Hall.
  apply Forall_cons in Hall as [Hx Hl].
  destruct l as [|y l].
  - cbn [joinAmp]. by apply Split_no_sep.
  - rewrite joinAmp_cons.
    change (x +:+ "&" +:+ joinAmp (y :: l)) with (x +:+ String "&" (joinAmp (y :: l))).
    rewrite Split_app_sep by done. by rewrite IH.
Qed.

Lemma queryPairs_joinAmp (ps : list (string * string)) :
  Forall safePair ps → queryPairs (joinAmp (showPair <$> ps)) = ps.
Proof.
  intros Hsafe. unfold queryPairs.
  destruct (decide (ps = [])) as [->|Hne]; [done|].
  rewrite Split_joinAmp.
  - induction Hsafe as [|p ps (Hk & Hk' & He) _ IH]; [done|].
    cbn [fmap list_fmap]. rewrite filter_cons_True.
    + cbn [fmap list_fmap]. f_equal.
      * unfold showPair. destruct p as [k e]. cbn [fst snd] in *.
        change (k +:+ "=" +:+ e) with (k +:+ String "=" e).
        by apply Cut_app_sep.
      * destruct ps as [|p' ps]; [done|]. by apply IH.
    + destruct (showPair_cons p) as (c & s & ->). done.
  - by destruct ps.
  - apply Forall_fmap. eapply Forall_impl; [exact Hsafe|].
    intros [k e] (Hk & _ & He). cbn in *. unfold showPair. cbn [fst snd].
    rewrite !IndexByte_found_app, Hk, He. done.
Qed.

Lemma encodedPairs_safe (v : url.Values) (keys : list string) :
  Forall safePair (encodedPairs v keys).
Proof.
  unfold encodedPairs. apply Forall_forall. intros p Hp.
  apply list_elem_of_bind in Hp as (k & Hp & _).
  apply list_elem_of_fmap in Hp as (x & -> & _).
  repeat split; cbn [fst snd]; apply QueryEscape_no_sep; auto.
Qed.

(** The pairs on the wire are exactly the escaped pairs of the map, key
    by key in byte-wise order. *)
Lemma queryPairs_Encode_ranged (v : url.Values) (ranged : list string) :
  queryPairs (url.Encode_ranged v ranged) = encodedPairs v (url.sortedKeys ranged).
Proof.
  rewrite Encode_ranged_joinAmp. apply queryPairs_joinAmp, encodedPairs_safe.
Qed.

(** ** [net/url]: the order of the keys *)

Lemma sortedKeys_Permutation (l1 l2 : list string) :
  l1 ≡ₚ l2 → url.sortedKeys l1 = url.sortedKeys l2.
Proof.
  intros Hperm. unfold url.sortedKeys.
  apply (Sorted_unique String.le).
  - apply Sorted_merge_sort, _.
  - apply Sorted_merge_sort, _.
  - by rewrite !merge_sort_Permutation.
Qed.

Lemma sortedKeys_sorted (l : list string) :
  StronglySorted String.le (url.sortedKeys l).
Proof. apply StronglySorted_merge_sort; apply _. Qed.

(** Whatever order the range over the map delivers, the query is the
    same. *)
Lemma Encode_ranged_order (v : url.Values) (ranged : list string) :
  ranged ≡ₚ (map_to_list v).*1 → url.Encode_ranged v ranged = url.Encode v.
Proof.
  intros Hperm. unfold url.Encode, url.Encode_ranged. cbv zeta.
  by rewrite (sortedKeys_Permutation _ _ Hperm).
Qed.

Lemma Encode_list_to_map (l : list (string * list string)) :
  NoDup l.*1 →
  url.Encode (list_to_map l) = url.Encode_ranged (list_to_map l) l.*1.
Proof.
  intros Hnd. symmetry. apply Encode_ranged_order.
  by rewrite (map_to_list_to_map l Hnd).
Qed.

(** ** The query of each operation *)

Ltac values_as_list :=
  unfold values, GetZestimate_values, GetSearchResults_values,
    GetChart_values, GetComps_values;
  repeat match goal with
  | |- context [ @insert _ _ _ _ ?k ?x (list_to_map ?l) ] =>
      change (<[k:=x]> (list_to_map l)) with (list_to_map (M := gmap string (list string)) ((k, x) :: l))
  | |- context [ @insert _ _ _ _ ?k ?x ∅ ] =>
      change (<[k:=x]> ∅) with (list_to_map (M := gmap string (list string)) [(k, x)])
  end.

Lemma NoDup_keys (l : list string) : bool_decide (NoDup l) = true → NoDup l.
Proof. apply bool_decide_eq_true_1. Qed.

(** The pairs on the wire for a request: the escaped pairs of the
    method's map in the wire order of the keys. *)
Lemma queryPairs_values (o : operation) (z : zillow) (req : Request o) :
  queryPairs (url.Encode (values o z req))
  = encodedPairs (values o z req) (wireKeys o).
Proof.
  destruct o; values_as_list;
    (rewrite Encode_list_to_map by (apply NoDup_keys; vm_compute; reflexivity));
    rewrite queryPairs_Encode_ranged; f_equal; vm_compute; reflexivity.
Qed.

Ltac wire_pairs :=
  rewrite queryPairs_values;
  unfold encodedPairs, wireKeys, values, GetZestimate_values,
    GetSearchResults_values, GetChart_values, GetComps_values;
  cbn [mbind list_bind]; simplify_map_eq.

Ltac distinct_keys := apply NoDup_keys; vm_compute; reflexivity.

Ltac lt_bytes := split; vm_compute; tauto.

(** C1.  For each of the four operations and every request, the query
    string holds exactly the documented parameter keys, each once and no
    others, the API key under [zws-Id]; and every documented parameter is
    there with its documented rendering: a flag as [true] or [false], an
    integer as a base-10 numeral sent as it stands, text escaped. *)
Theorem query_has_exactly_the_documented_parameters
    (o : operation) (z : zillow) (req : Request o) :
  dom (values o z req) = list_to_set (documented o).*1
  ∧ (queryPairs (url.Encode (values o z req))).*1 ≡ₚ (documented o).*1
  ∧ ∀ k src, (k, src) ∈ documented o →
      ∃ v, values o z req !! k = Some [v]
           ∧ rendered z req src v
           ∧ (k, url.QueryEscape v) ∈ queryPairs (url.Encode (values o z req)).
Proof.
  split; [|split].
  - destruct o; unfold values, GetZestimate_values, GetSearchResults_values,
      GetChart_values, GetComps_values; rewrite !dom_insert_L, dom_empty_L;
      cbn; set_solver.
  - destruct o; wire_pairs; cbn [fmap list_fmap fst documented];
      (apply NoDup_Permutation; [distinct_keys|distinct_keys|]);
      intros k; cbn; rewrite !elem_of_cons, !elem_of_nil; tauto.
  - intros k src Hin.
    destruct o; cbn [documented] in Hin;
      repeat (apply elem_of_cons in Hin as [Heq|Hin]; [injection Heq as -> ->|]);
      try (by apply elem_of_nil in Hin);
      eexists; (split; [unfold values, GetZestimate_values,
        GetSearchResults_values, GetChart_values, GetComps_values;
        by simplify_map_eq|]);
      (split; [first [ reflexivity
                     | split; [reflexivity|];
                       by match goal with
                          | |- context [strconv.FormatBool ?b] => destruct b
                          end
                     | split; [apply readDecimal_Itoa
                              | apply QueryEscape_numeral, Itoa_bytes] ]|]);
      wire_pairs; cbn; rewrite !elem_of_cons; tauto.
Qed.

(** C10.  For every operation and every request, the keys of the encoded
    query stand in strictly ascending byte-wise order, as [Encode] sorts
    them; and the query is one string whatever order the range over the
    map delivers the keys in. *)
Theorem query_keys_are_sorted_and_query_is_deterministic
    (o : operation) (z : zillow) (req : Request o) :
  StronglySorted bytewise_lt (queryPairs (url.Encode (values o z req))).*1
  ∧ (queryPairs (url.Encode (values o z req))).*1 = wireKeys o
  ∧ (∀ zc path, requestURL zc path (values o z req)
       = url zc +:+ "/" +:+ path +:+ ".htm?" +:+ url.Encode (values o z req))
  ∧ ∀ ranged, ranged ≡ₚ (map_to_list (values o z req)).*1 →
      url.Encode_ranged (values o z req) ranged = url.Encode (values o z req).
Proof.
  split; [|split; [|split]].
  - destruct o; wire_pairs; cbn [fmap list_fmap fst];
      repeat (constructor; [|repeat (constructor; [lt_bytes|]); constructor]);
      constructor.
  - destruct o; wire_pairs; reflexivity.
  - reflexivity.
  - intros ranged. apply Encode_ranged_order.
Qed.

(** The order of the keys does not depend on the operation: for any map
    of values the keys are written in byte-wise order. *)
Lemma Encode_keys_sorted (v : url.Values) :
  ∃ keys, StronglySorted String.le keys
          ∧ keys ≡ₚ (map_to_list v).*1
          ∧ queryPairs (url.Encode v) = encodedPairs v keys.
Proof.
  exists (url.sortedKeys (map_to_list v).*1). split; [|split].
  - apply sortedKeys_sorted.
  - apply merge_sort_Permutation.
  - apply queryPairs_Encode_ranged.
Qed.

(** ** The shared request routine *)

Section Calls.
Context `{W : World}.

(** Every method is the shared tail applied to [get] on its own path,
    map and result type. *)
Lemma call_unfold (o : operation) (z : zillow) (req : Request o) (net : Net) :
  call o z req net
  = returning (@get W (Result o) (Result_value o) z (servicePath o)
                 (values o z req) (result0 o) net).
Proof. by destruct o. Qed.

(** What a call does, in full: one GET on the request URL, then either
    the transport error, or the decoding of the body, whose error is
    returned without a result and whose success is returned as the
    result.  The status code of the response does not occur. *)
Lemma call_outcome (o : operation) (z : zillow) (req : Request o) (net : Net) :
  call o z req net
  = (match roundTrip (requestURL z (servicePath o) (values o z req)) with
     | inr err => (None, Some err)
     | inl resp =>
         match decodeBody o (http.Body resp) with
         | (_, Some err) => (None, Some err)
         | (result, None) => (Some result, None)
         end
     end,
     net ++ [requestURL z (servicePath o) (values o z req)]).
Proof.
  rewrite call_unfold. unfold get, http_Get, decodeBody.
  destruct (roundTrip _) as [resp|err]; [|done].
  unfold returning. by destruct (Decode _ _) as [result [err|]].
Qed.

(** C2.  For every operation the one URL requested is the base URL the
    client was constructed with, a slash, the path constant of the
    operation, [.htm?] and the encoded query. *)
Theorem request_url_is_base_slash_path_htm_query
    (o : operation) (k : string) (req : Request o) (net : Net) :
  (call o (NewZillow k) req net).2
  = net ++ [baseUrl +:+ "/" +:+ servicePath o +:+ ".htm?"
              +:+ url.Encode (values o (NewZillow k) req)]
  ∧ servicePath o
    = match o with
      | OpZestimate => "GetZestimate"
      | OpSearchResults => "GetSearchResults"
      | OpChart => "GetChart"
      | OpComps => "GetComps"
      end.
Proof.
  split; [|by destruct o].
  rewrite call_outcome. reflexivity.
Qed.

(** C3.  If the round trip succeeds and the body decodes, the call
    returns the decoded result and no error, whatever status text,
    numeric code and limit-warning flag the message block of the result
    holds: an error that the service reports in the body is not made an
    error of the call. *)
Theorem decoded_result_is_returned_whatever_its_message
    (o : operation) (z : zillow) (req : Request o) (net : Net)
    (resp : http.Response) (result : Result o)
    (text : string) (code : int) (limitWarning : bool) :
  roundTrip (requestURL z (servicePath o) (values o z req)) = inl resp →
  decodeBody o (http.Body resp) = (result, None) →
  messageOf o result = Message.mk text code limitWarning →
  call o z req net
  = ((Some result, None), net ++ [requestURL z (servicePath o) (values o z req)]).
Proof.
  intros Hget Hdecode _. rewrite call_outcome, Hget, Hdecode. reflexivity.
Qed.

(** The decoding of a body that the tokenizer gives up on after it has
    delivered part of a root element of another name than the result
    type asks for: the error is that of the name. *)
Lemma unmarshalCut_wrong_root (o : operation) (nm : xml.Name) (attrs : list xml.Attr)
    (before : list (string + xml.Element)) (inside : option xml.Cut)
    (terr : error) (dst : Result o) :
  xml.Local nm ≠ rootName o →
  @xml.unmarshalCut _ (Result_value o) (xml.CutElem nm attrs before inside) terr dst
  = (dst, xml_UnmarshalError
            ("expected element type <" +:+ rootName o +:+ "> but have <"
               +:+ xml.Local nm +:+ ">")).
Proof.
  intros Hnm.
  assert (∀ fields xmlname,
            xmlname = Some (rootName o, setXMLName o) →
            xml.unmarshalStructCut xmlname fields (xml.CutElem nm attrs before inside) terr dst
            = (dst, xml_UnmarshalError
                      ("expected element type <" +:+ rootName o +:+ "> but have <"
                         +:+ xml.Local nm +:+ ">"))) as Hs.
  { intros fields ? ->. unfold xml.unmarshalStructCut.
    rewrite (bool_decide_eq_false_2 (rootName o = xml.Local nm)) by done.
    rewrite (bool_decide_eq_false_2 (rootName o = "")) by (by destruct o).
    reflexivity. }
  destruct o; by apply Hs.
Qed.

(** C4, as amended.  If decoding the body reports an error, the call
    returns that error unchanged and no result.  On a malformed body,
    which the tokenizer gives up on, decoding does report one: the error
    of the tokenizer if nothing of the root element was read, and the
    error of unmarshalling if the part that was read starts with a root
    of another name than the result type asks for, as the decoder
    unmarshals while it reads. *)
Theorem decode_error_is_returned_without_result
    (o : operation) (z : zillow) (req : Request o) (net : Net) (resp : http.Response) :
  roundTrip (requestURL z (servicePath o) (values o z req)) = inl resp →
  (∀ err, (decodeBody o (http.Body resp)).2 = Some err →
     call o z req net
     = ((None, Some err), net ++ [requestURL z (servicePath o) (values o z req)]))
  ∧ (∀ before terr,
       readElement (http.Body resp) = inr (before, terr) →
       ∃ err, (decodeBody o (http.Body resp)).2 = Some err
              ∧ match before with
                | None => err = terr
                | Some (xml.CutElem nm _ _ _) =>
                    xml.Local nm ≠ rootName o →
                    err = xml_UnmarshalError
                            ("expected element type <" +:+ rootName o +:+ "> but have <"
                               +:+ xml.Local nm +:+ ">")
                end).
Proof.
  intros Hget. split.
  - intros err Hbad. rewrite call_outcome, Hget.
    destruct (decodeBody o _) as [written e]. cbn [snd] in Hbad. by subst e.
  - intros before terr Hread. unfold decodeBody, Decode. rewrite Hread.
    destruct before as [[nm attrs before inside]|].
    + destruct (xml.unmarshalCut _ terr (result0 o)) as [written e] eqn:Hcut.
      exists e. split; [done|]. intros Hnm.
      rewrite unmarshalCut_wrong_root in Hcut by done. by injection Hcut.
    + by exists terr.
Qed.

(** C5.  If the GET fails, the call returns the transport error and no
    result. *)
Theorem transport_error_is_returned_without_result
    (o : operation) (z : zillow) (req : Request o) (net : Net) (err : error) :
  roundTrip (requestURL z (servicePath o) (values o z req)) = inr err →
  call o z req net
  = ((None, Some err), net ++ [requestURL z (servicePath o) (values o z req)]).
Proof.
  intros Hget. rewrite call_outcome, Hget. reflexivity.
Qed.

(** C9.  A response whose status code is not 2xx is handled as any
    other: its body is decoded, and if it decodes the call returns the
    result and no error. *)
Theorem status_code_is_not_inspected
    (o : operation) (z : zillow) (req : Request o) (net : Net)
    (code : Z) (body : string) (result : Result o) :
  ¬ (200 <= code < 300) →
  roundTrip (requestURL z (servicePath o) (values o z req))
    = inl (http.mkResponse code body) →
  decodeBody o body = (result, None) →
  call o z req net
  = ((Some result, None), net ++ [requestURL z (servicePath o) (values o z req)]).
Proof.
  intros _ Hget Hdecode. rewrite call_outcome, Hget. cbn [http.Body].
  rewrite Hdecode. reflexivity.
Qed.

End Calls.

(** Two worlds that differ only in the status code they answer with give
    the same outcome. *)
Lemma outcome_independent_of_status_code
    (W1 W2 : World) (o : operation) (z : zillow) (req : Request o) (net : Net) :
  (∀ u, match @roundTrip W1 u, @roundTrip W2 u with
        | inl r1, inl r2 => http.Body r1 = http.Body r2
        | inr e1, inr e2 => e1 = e2
        | _, _ => False
        end) →
  @readElement W1 = @readElement W2 →
  @ParseFloat W1 = @ParseFloat W2 →
  @call W1 o z req net = @call W2 o z req net.
Proof.
  intros Hrt Hre Hpf. rewrite !call_outcome.
  specialize (Hrt (requestURL z (servicePath o) (values o z req))).
  destruct W1 as [rt1 re1 pf1], W2 as [rt2 re2 pf2]. cbn in *. subst re2 pf2.
  destruct (rt1 _) as [r1|e1], (rt2 _) as [r2|e2]; try done; [|by subst].
  destruct r1 as [c1 b1], r2 as [c2 b2]. cbn in *. by subst b2.
Qed.

(** C8.  The factory stores the key it is given and the fixed base URL,
    and does nothing else. *)
Theorem NewZillow_stores_key_and_base_url (k : string) :
  NewZillow k = mkZillow k baseUrl
  ∧ zwsId (NewZillow k) = k
  ∧ url (NewZillow k) = "http://www.zillow.com/webservice/".
Proof. done. Qed.

(** The base URL ends in a slash and [get] adds one: the URL of a
    request has two slashes before the operation path. *)
Lemma request_url_example :
  requestURL (NewZillow stub_key) getZestimatePath
    (GetZestimate_values (NewZillow stub_key) stub_ok_request)
  = "http://www.zillow.com/webservice//GetZestimate.htm?rentzestimate=false&zpid=48749425&zws-Id=X1-ZWz1dyb53fdhjf_6jziz".
Proof. vm_compute. reflexivity. Qed.

(** ** [encoding/xml]: fields and paths *)

Lemma unmarshalPath_unfold {S} (fields : list (xml.fieldInfo S)) (ps : list string)
    (nm : xml.Name) (attrs : list xml.Attr) (content : list (string + xml.Element)) (sv : S) :
  xml.unmarshalPath fields ps (xml.Elem nm attrs content) sv
  = match xml.matchPath fields ps (xml.Local nm) with
    | xml.Perfect finfo => (true, xml.storeElement finfo (xml.Elem nm attrs content) sv)
    | xml.NoBusiness => (false, xml.ok sv)
    | xml.Prefix ps' => (true, xml.unmarshalChildren fields ps' content sv)
    end.
Proof. reflexivity. Qed.

Lemma field_flags {S F} `{xml.GoValue F} (tag : string) (get : S → F) (set : F → S → S) :
  xml.flags (xml.field tag get set) = (xml.parseTag tag).1.1.
Proof. unfold xml.field. by destruct (xml.parseTag tag) as [[? ?] ?]. Qed.

Lemma field_parents {S F} `{xml.GoValue F} (tag : string) (get : S → F) (set : F → S → S) :
  xml.parents (xml.field tag get set) = (xml.parseTag tag).1.2.
Proof. unfold xml.field. by destruct (xml.parseTag tag) as [[? ?] ?]. Qed.

Lemma field_storeElement {S F} `{xml.GoValue F} (tag : string) (get : S → F)
    (set : F → S → S) (start : xml.Element) (sv : S) :
  xml.storeElement (xml.field tag get set) start sv
  = xml.through get set (xml.unmarshal start) sv.
Proof. unfold xml.field. by destruct (xml.parseTag tag) as [[? ?] ?]. Qed.

Lemma andThen_ok {T} (r : xml.partial T) : xml.andThen r xml.ok = r.
Proof. by destruct r as [v [e|]]. Qed.

(** A perfect match is an element field of the table. *)
Lemma matchPath_Perfect {S} (fs : list (xml.fieldInfo S)) (ps : list string)
    (l : string) (finfo : xml.fieldInfo S) :
  xml.matchPath fs ps l = xml.Perfect finfo →
  finfo ∈ fs ∧ xml.flags finfo = xml.fElement.
Proof.
  induction fs as [|f fs IH]; cbn [xml.matchPath]; [done|].
  repeat case_match; intros Hm; try (destruct (IH Hm); split; [by right|done]);
    try discriminate.
  injection Hm as <-. split; [by left|].
  match goal with
  | Hn : negb (bool_decide (xml.flags f = xml.fElement)) || _ = false |- _ =>
      apply orb_false_elim in Hn as [Hn _];
      apply negb_false_iff, bool_decide_eq_true_1 in Hn; exact Hn
  end.
Qed.

(** A path that goes on through the element belongs to a field that lies
    deeper than the element. *)
Lemma matchPath_Prefix {S} (fs : list (xml.fieldInfo S)) (ps ps' : list string) (l : string) :
  xml.matchPath fs ps l = xml.Prefix ps' →
  Exists (λ finfo, (length ps < length (xml.parents finfo))%nat) fs.
Proof.
  induction fs as [|f fs IH]; cbn [xml.matchPath]; [done|].
  repeat case_match; intros Hm; try (right; by apply IH); try discriminate.
  left.
  match goal with
  | Hn : bool_decide (length ps < _)%nat && _ = true |- _ =>
      apply andb_true_iff in Hn as [Hn _]; by apply bool_decide_eq_true_1 in Hn
  end.
Qed.

Lemma field_storeText {S F} `{xml.GoValue F} (tag : string) (get : S → F)
    (set : F → S → S) (src : string) (sv : S) :
  xml.storeText (xml.field tag get set) src sv
  = xml.through get set (xml.copyValue src) sv.
Proof. unfold xml.field. by destruct (xml.parseTag tag) as [[? ?] ?]. Qed.

Lemma field_name {S F} `{xml.GoValue F} (tag : string) (get : S → F) (set : F → S → S) :
  xml.name (xml.field tag get set) = (xml.parseTag tag).2.
Proof. unfold xml.field. by destruct (xml.parseTag tag) as [[? ?] ?]. Qed.

Lemma unmarshalChildren_cons {S} (fields : list (xml.fieldInfo S)) (ps : list string)
    (t : xml.Element) (toks : list (string + xml.Element)) (sv : S) :
  xml.unmarshalChildren fields ps (inr t :: toks) sv
  = xml.andThen (xml.unmarshalPath fields ps t sv).2 (xml.unmarshalChildren fields ps toks).
Proof. reflexivity. Qed.

(** ** The comparables of a response *)

(** Rewriting with what a world that reads the numerals of the stubs
    says of each of them. *)
Ltac read_floats H :=
  let Hall := fresh "Hall" in
  assert (Hall : Forall (λ p, ParseFloat p.1 = inl p.2) stub_floats)
    by (apply Forall_forall; intros [? ?] ?; by apply H);
  unfold stub_floats in Hall;
  repeat (apply Forall_cons in Hall as [? Hall]);
  cbn [fst snd] in *;
  repeat match goal with
  | Hs : ParseFloat _ = inl _ |- _ => rewrite ?Hs; clear Hs
  end.

(** A closed subterm replaced by its value. *)
Ltac compute_closed t :=
  let r := eval vm_compute in t in change t with r.

Section Comparables.
Context `{W : World}.

Lemma Comp_fields_keep_score :
  Forall (λ finfo, xml.flags finfo = xml.fElement →
            ∀ t sv, Comp.Score (xml.storeElement finfo t sv).1 = Comp.Score sv)
    Comp_fields.
Proof.
  unfold Comp_fields. repeat constructor; intros Hfl t sv;
    rewrite field_flags in Hfl; try (vm_compute in Hfl; discriminate);
    rewrite field_storeElement; unfold xml.through;
    by destruct (xml.unmarshal t _).
Qed.

Lemma Comp_fields_flat : Forall (λ finfo, xml.parents finfo = []) Comp_fields.
Proof.
  unfold Comp_fields. repeat constructor; rewrite field_parents; vm_compute; reflexivity.
Qed.

Lemma unmarshalPath_Comp_keeps_score (t : xml.Element) (sv : Comp.t) :
  Comp.Score (xml.unmarshalPath Comp_fields [] t sv).2.1 = Comp.Score sv.
Proof.
  destruct t as [nm attrs content]. rewrite unmarshalPath_unfold.
  destruct (xml.matchPath Comp_fields [] (xml.Local nm)) as [finfo|ps'|] eqn:Hm.
  - apply matchPath_Perfect in Hm as [Hin Hfl].
    pose proof Comp_fields_keep_score as Hall.
    rewrite Forall_forall in Hall. by apply Hall.
  - apply matchPath_Prefix in Hm. apply Exists_exists in Hm as (finfo & Hin & Hlen).
    pose proof Comp_fields_flat as Hall. rewrite Forall_forall in Hall.
    rewrite (Hall finfo Hin) in Hlen. cbn in Hlen. lia.
  - done.
Qed.

Lemma unmarshalContent_Comp_keeps_score (content : list (string + xml.Element)) (sv : Comp.t) :
  Comp.Score (xml.unmarshalContent Comp_fields content sv).1 = Comp.Score sv.
Proof.
  unfold xml.unmarshalContent.
  change (Comp.Score sv) with (Comp.Score (xml.ok sv).1).
  generalize (xml.ok sv) as acc.
  induction content as [|tok content IH]; intros acc; cbn [foldl]; [done|].
  rewrite IH. destruct acc as [sv' [e|]]; cbn [xml.andThen fst]; [done|].
  destruct tok as [txt|t]; [done|]. apply unmarshalPath_Comp_keeps_score.
Qed.

Lemma saveData_Comp : xml.saveData Comp_fields = None.
Proof. vm_compute. reflexivity. Qed.



Lemma assignAttrs_Comp_score (s : string) (sv : Comp.t) :
  xml.assignAttrs Comp_fields [attr "score" s] sv
  = xml.through Comp.Score Comp.set_Score (xml.copyValue s) sv.
Proof.
  unfold xml.assignAttrs, xml.assignAttr, Comp_fields.
  cbn [foldl xml.andThen xml.ok].
  rewrite !field_flags, !field_name, field_storeText.
  repeat match goal with
  | |- context [bool_decide ?P && bool_decide ?Q] =>
      let b := eval vm_compute in (bool_decide P && bool_decide Q) in
      change (bool_decide P && bool_decide Q) with b
  end.
  cbn [xml.attrValue attr]. by rewrite !andThen_ok.
Qed.

(** A [comp] element with the single attribute [score] decodes, if it
    does, to an entry whose [Score] is what [copyValue] reads from the
    text of that attribute. *)
Lemma Comp_score_from_attribute (nm : xml.Name) (s : string)
    (content : list (string + xml.Element)) (x : Comp.t) :
  xml.unmarshal (xml.Elem nm [attr "score" s] content) Comp.zero = (x, None) →
  xml.copyValue (T := float64) s 0%float = (Comp.Score x, None).
Proof.
  unfold xml.unmarshal at 1. cbn [xml.kind Comp_value xml.structValue].
  unfold xml.unmarshalStruct. cbn [xml.elAttr xml.elContent xml.elName xml.andThen xml.ok].
  rewrite assignAttrs_Comp_score, saveData_Comp. unfold xml.through.
  match goal with
  | |- context [let '(fv, err) := ?t in _] => destruct t as [f [e|]] eqn:Hcopy
  end; cbv beta iota delta [xml.andThen]; [discriminate|].
  pose proof (unmarshalContent_Comp_keeps_score content (Comp.set_Score f Comp.zero))
    as Hkeep.
  destruct (xml.unmarshalContent Comp_fields content _) as [sv [e|]];
    cbv beta iota delta [xml.andThen xml.ok]; [discriminate|].
  intros [= <-]. cbn in Hkeep. rewrite Hkeep. exact Hcopy.
Qed.

Lemma matchPath_comp :
  xml.matchPath CompsResult_fields ["response"; "properties"; "comparables"] "comp"
  = xml.Perfect (xml.field "response>properties>comparables>comp"
                   CompsResult.Comparables CompsResult.set_Comparables).
Proof. reflexivity. Qed.

(** The [comp] elements under [response>properties>comparables] are
    appended to [Comparables] one by one, in document order. *)
Lemma comparables_in_document_order (cs : list xml.Element) (xs : list Comp.t)
    (sv : CompsResult.t) :
  Forall (λ c, xml.Local (xml.elName c) = "comp") cs →
  Forall2 (λ c x, xml.unmarshal c Comp.zero = (x, None)) cs xs →
  xml.unmarshalChildren CompsResult_fields ["response"; "properties"; "comparables"]
    (inr <$> cs) sv
  = xml.ok (CompsResult.set_Comparables (CompsResult.Comparables sv ++ xs) sv).
Proof.
  intros Hnames Hdec. revert sv Hnames.
  induction Hdec as [|c x cs xs Hc _ IH]; intros sv Hnames.
  - cbn. rewrite app_nil_r. by destruct sv.
  - apply Forall_cons in Hnames as [Hname Hnames].
    cbn [fmap list_fmap].
    change (xml.unmarshalChildren CompsResult_fields ?ps (inr c :: ?tl) sv)
      with (xml.andThen (xml.unmarshalPath CompsResult_fields ps c sv).2
              (xml.unmarshalChildren CompsResult_fields ps tl)).
    destruct c as [nm attrs content]. cbn [xml.elName] in Hname.
    rewrite unmarshalPath_unfold, Hname, matchPath_comp, field_storeElement.
    cbn [snd]. unfold xml.through.
    unfold xml.unmarshal at 1. cbn [xml.kind xml.slice_value].
    change (@xml.zero Comp.t Comp_value) with Comp.zero.
    rewrite Hc. cbn [xml.ok xml.andThen].
    rewrite IH by done. f_equal. destruct sv. cbn. by rewrite <- app_assoc.
Qed.

(** Each of them carries the score of its element. *)
(** What [copyValue] has read when it fills a [float64] from a text:
    the number that [strconv.ParseFloat] reads from the trimmed text, and
    zero from no text at all. *)
Lemma copyValue_float64_reads (s : string) (dst f : float64) :
  xml.copyValue (T := float64) s dst = (f, None) →
  (s ≠ "" → ParseFloat (strings.TrimSpace s) = inl f)
  ∧ (s = "" → f = 0%float).
Proof.
  unfold xml.copyValue. cbn [xml.kind float64_value].
  case_bool_decide as Hs.
  - intros [= <-]. by split.
  - destruct (ParseFloat (strings.TrimSpace s)) as [ftmp|err]; [|discriminate].
    intros [= <-]. by split.
Qed.

Lemma comparables_scores (cs : list xml.Element) (xs : list Comp.t) :
  Forall (λ c, ∃ nm s content,
            c = xml.Elem nm [attr "score" s] content ∧ xml.Local nm = "comp") cs →
  Forall2 (λ c x, xml.unmarshal c Comp.zero = (x, None)) cs xs →
  Forall2 (λ c x, xml.unmarshal c Comp.zero = (x, None)
                  ∧ ∃ s, attribute "score" c = Some s
                         ∧ (s ≠ "" → ParseFloat (strings.TrimSpace s) = inl (Comp.Score x))
                         ∧ (s = "" → Comp.Score x = 0%float))
    cs xs.
Proof.
  intros Hshape Hxs. induction Hxs as [|c x cs xs Hc _ IH]; [constructor|].
  apply Forall_cons in Hshape as [(nm & s & content & -> & Hnm) Hshape].
  constructor; [|by apply IH].
  split; [exact Hc|]. exists s. split; [reflexivity|].
  by apply (copyValue_float64_reads s 0%float), (Comp_score_from_attribute nm s content).
Qed.

Lemma Forall_exists_Forall2 {A B} (P : A → B → Prop) (l : list A) :
  Forall (λ a, ∃ b, P a b) l → ∃ k, Forall2 P l k.
Proof.
  induction 1 as [|a l [b Hb] _ [k Hk]]; [by exists []|].
  exists (b :: k). by constructor.
Qed.


Lemma unmarshal_stub_principal :
  readsStubFloats →
  xml.unmarshal stub_principal Principal.zero = (stub_principal_result, None).
Proof. intros Hf. cbv -[ParseFloat]. read_floats Hf. reflexivity. Qed.

Lemma matchPath_principal :
  xml.matchPath CompsResult_fields ["response"; "properties"] "principal"
  = xml.Perfect (xml.field "response>properties>principal"
                   CompsResult.Principal CompsResult.set_Principal).
Proof. reflexivity. Qed.

Lemma unmarshalPath_stub_principal (sv : CompsResult.t) :
  xml.unmarshalPath CompsResult_fields ["response"; "properties"] stub_principal sv
  = (true, xml.through CompsResult.Principal CompsResult.set_Principal
             (xml.unmarshal stub_principal) sv).
Proof.
  unfold stub_principal at 1. unfold el at 1.
  rewrite unmarshalPath_unfold. cbn [xml.Local].
  by rewrite matchPath_principal, field_storeElement.
Qed.

(** The path from the root of the comparables stub to its [comp]
    elements: [response], [properties], then the principal, which is
    stored, and [comparables], whose content is read element by
    element. *)
Lemma unmarshalPath_stub_response (tail : list (string + xml.Element)) (sv : CompsResult.t) :
  (xml.unmarshalPath CompsResult_fields []
     (el "response" []
        [inr (el "properties" [] [inr stub_principal; inr (el "comparables" [] tail)])])
     sv).2
  = xml.andThen
      (xml.through CompsResult.Principal CompsResult.set_Principal
         (xml.unmarshal stub_principal) sv)
      (xml.unmarshalChildren CompsResult_fields
         ["response"; "properties"; "comparables"] tail).
Proof.
  unfold el. rewrite unmarshalPath_unfold. cbn [xml.Local].
  compute_closed (xml.matchPath CompsResult_fields [] "response").
  cbv iota. cbn [snd].
  rewrite unmarshalChildren_cons, unmarshalPath_unfold. cbn [xml.Local].
  compute_closed (xml.matchPath CompsResult_fields ["response"] "properties").
  cbv iota. cbn [snd].
  rewrite unmarshalChildren_cons, unmarshalPath_stub_principal. cbn [snd].
  change (xml.unmarshalChildren CompsResult_fields ["response"] [])
    with (@xml.ok CompsResult.t).
  rewrite andThen_ok.
  destruct (xml.through _ _ _ sv) as [sv' [e|]]; cbn [xml.andThen]; [done|].
  rewrite unmarshalChildren_cons, unmarshalPath_unfold. cbn [xml.Local].
  compute_closed (xml.matchPath CompsResult_fields ["response"; "properties"] "comparables").
  cbv iota. cbn [snd].
  change (xml.unmarshalChildren CompsResult_fields ["response"; "properties"] [])
    with (@xml.ok CompsResult.t).
  by rewrite andThen_ok.
Qed.

(** Unmarshalling the comparables stub comes down to reading its [comp]
    elements into the result that holds the request echo, the message
    and the principal. *)
Lemma unmarshal_stub_comps_doc_with (cs : list xml.Element) :
  readsStubFloats →
  xml.unmarshal (stub_comps_doc_with cs) CompsResult.zero
  = xml.unmarshalChildren CompsResult_fields ["response"; "properties"; "comparables"]
      (inr <$> cs) stub_comps_before.
Proof.
  intros Hf. unfold stub_comps_doc_with.
  generalize (@fmap list _ _ _ (@inr string xml.Element) cs) as tail. intros tail.
  unfold xml.unmarshal at 1. cbn [xml.kind CompsResult_value xml.structValue].
  unfold xml.unmarshalStruct, xml.unmarshalContent.
  cbn [xml.elName xml.elAttr xml.elContent xml.Local].
  compute_closed (negb (bool_decide ("comps" = "")) && negb (bool_decide ("comps" = "comps"))).
  cbv beta iota delta [xml.andThen xml.ok].
  match goal with
  | |- context [xml.assignAttrs CompsResult_fields ?a ?sv] =>
      compute_closed (xml.assignAttrs CompsResult_fields a sv)
  end.
  cbn [foldl].
  compute_closed (xml.saveData CompsResult_fields).
  cbv beta iota delta [xml.andThen xml.ok].
  match goal with
  | |- context [(xml.unmarshalPath CompsResult_fields [] (el "request" ?a ?c) ?sv).2] =>
      compute_closed ((xml.unmarshalPath CompsResult_fields [] (el "request" a c) sv).2)
  end.
  cbv beta iota.
  match goal with
  | |- context [(xml.unmarshalPath CompsResult_fields [] (el "message" ?a ?c) ?sv).2] =>
      compute_closed ((xml.unmarshalPath CompsResult_fields [] (el "message" a c) sv).2)
  end.
  cbv beta iota. rewrite unmarshalPath_stub_response.
  unfold xml.through. cbn [CompsResult.Principal].
  change (Principal.mk _ _ _ _) with Principal.zero.
  rewrite (unmarshal_stub_principal Hf).
  change (CompsResult.set_Principal _ _) with stub_comps_before.
  cbn [xml.andThen].
  by destruct (xml.unmarshalChildren _ _ tail stub_comps_before) as [v [e|]].
Qed.

End Comparables.

(** ** The two concrete scenarios *)

Section Scenarios.
Context `{W : World}.

(** Unmarshalling the valuation-estimate stub. *)
Lemma unmarshal_stub_zestimate :
  readsStubFloats →
  ∃ result,
    xml.unmarshal stub_zestimate_doc ZestimateResult.zero = (result, None)
    ∧ ZestimateResult.Zestimate result
      = Zestimate.mk (Value.mk "USD" 258000) "11/03/2009"
          (ValueChange.mk 30 "USD" (-41500))
          (Value.mk "USD" 231000) (Value.mk "USD" 278000) "0"
    ∧ ZestimateResult.Request result = ZestimateRequest.mk "48749425" false
    ∧ Message.Code (ZestimateResult.Message result) = 0
    ∧ Address.Latitude (ZestimateResult.Address result) = 47.625%float
    ∧ Region.Name <$> ZestimateResult.LocalRealEstate result = ["East Queen Anne"]
    ∧ ZestimateResult.ZipcodeID result = "99569".
Proof.
  intros Hf. eexists. split.
  - cbv -[ParseFloat]. read_floats Hf. reflexivity.
  - repeat split.
Qed.

(** C6.  The valuation-estimate request for property 48749425 without
    rental estimate, answered by the stub with amount 258000 USD and
    range 231000 to 278000, returns a result with that amount, that
    currency and that range. *)
Theorem zestimate_stub_scenario (k : string) (net : Net) (resp : http.Response) :
  roundTrip (requestURL (NewZillow k) getZestimatePath
               (GetZestimate_values (NewZillow k) (ZestimateRequest.mk "48749425" false)))
    = inl resp →
  readElement (http.Body resp) = inl stub_zestimate_doc →
  readsStubFloats →
  ∃ result,
    (GetZestimate (NewZillow k) (ZestimateRequest.mk "48749425" false) net).1
      = (Some result, None)
    ∧ Value.Value (Zestimate.Amount (ZestimateResult.Zestimate result)) = 258000
    ∧ Value.Currency (Zestimate.Amount (ZestimateResult.Zestimate result)) = "USD"
    ∧ Value.Value (Zestimate.Low (ZestimateResult.Zestimate result)) = 231000
    ∧ Value.Value (Zestimate.High (ZestimateResult.Zestimate result)) = 278000.
Proof.
  intros Hget Hread Hf.
  destruct (unmarshal_stub_zestimate Hf) as (result & Hunm & Hz & _).
  exists result. split.
  - pose proof (call_outcome OpZestimate (NewZillow k)
                  (ZestimateRequest.mk "48749425" false) net) as Hcall.
    cbn [call servicePath values] in Hcall. rewrite Hcall. cbn [fst].
    rewrite Hget. unfold decodeBody, Decode. rewrite Hread.
    cbn [Result Result_value result0]. by rewrite Hunm.
  - by rewrite Hz.
Qed.

(** The comparables stub as written, with its five [comp] elements. *)
Lemma unmarshal_stub_comps :
  readsStubFloats →
  ∃ result,
    xml.unmarshal stub_comps_doc CompsResult.zero = (result, None)
    ∧ Comp.Score <$> CompsResult.Comparables result
      = [9%float; 8.5%float; 7.25%float; 6%float; 4.5%float]
    ∧ Comp.Zpid <$> CompsResult.Comparables result
      = ["48689204"; "48749490"; "48749446"; "48749438"; "48749427"]
    ∧ Principal.Zpid (CompsResult.Principal result) = "48749425"
    ∧ CompsResult.Request result = CompsRequest.mk "48749425" 5 false.
Proof.
  intros Hf. eexists. split.
  - cbv -[ParseFloat]. read_floats Hf. reflexivity.
  - repeat split.
Qed.

(** C7.  The comparables request for property 48749425 with count 5,
    answered by a stub with one principal and exactly five [comp]
    elements, each carrying a [score] attribute and each decodable,
    returns exactly five comparables: the decodings of the [comp]
    elements in the order of the document, each with the score that
    [strconv.ParseFloat] reads from the text of its element's [score]
    attribute (zero from an empty one). *)
Theorem comps_stub_scenario (k : string) (net : Net) (resp : http.Response)
    (cs : list xml.Element) :
  roundTrip (requestURL (NewZillow k) getComps
               (GetComps_values (NewZillow k) (CompsRequest.mk "48749425" 5 false)))
    = inl resp →
  readElement (http.Body resp) = inl (stub_comps_doc_with cs) →
  readsStubFloats →
  length cs = 5%nat →
  Forall (λ c, ∃ nm s content,
            c = xml.Elem nm [attr "score" s] content ∧ xml.Local nm = "comp") cs →
  Forall (λ c, ∃ x, xml.unmarshal c Comp.zero = (x, None)) cs →
  ∃ result,
    (GetComps (NewZillow k) (CompsRequest.mk "48749425" 5 false) net).1
      = (Some result, None)
    ∧ length (CompsResult.Comparables result) = 5%nat
    ∧ Forall2 (λ c x, xml.unmarshal c Comp.zero = (x, None)
                      ∧ ∃ s, attribute "score" c = Some s
                             ∧ (s ≠ "" →
                                ParseFloat (strings.TrimSpace s) = inl (Comp.Score x))
                             ∧ (s = "" → Comp.Score x = 0%float))
        cs (CompsResult.Comparables result)
    ∧ Principal.Zpid (CompsResult.Principal result) = "48749425".
Proof.
  intros Hget Hread Hf Hlen Hshape Hdec.
  destruct (Forall_exists_Forall2 _ _ Hdec) as [xs Hxs].
  assert (Forall (λ c, xml.Local (xml.elName c) = "comp") cs) as Hnames.
  { eapply Forall_impl; [exact Hshape|]. by intros c (nm & s & content & -> & ?). }
  exists (CompsResult.set_Comparables xs stub_comps_before). split; [|split; [|split]].
  - pose proof (call_outcome OpComps (NewZillow k)
                  (CompsRequest.mk "48749425" 5 false) net) as Hcall.
    cbn [call servicePath values] in Hcall. rewrite Hcall. cbn [fst].
    rewrite Hget. unfold decodeBody, Decode. rewrite Hread.
    cbn [Result Result_value result0].
    rewrite (unmarshal_stub_comps_doc_with cs Hf).
    by rewrite (comparables_in_document_order cs xs stub_comps_before Hnames Hxs).
  - cbn [CompsResult.Comparables CompsResult.set_Comparables].
    by rewrite <- (Forall2_length _ _ _ Hxs).
  - cbn [CompsResult.Comparables CompsResult.set_Comparables].
    by apply comparables_scores.
  - reflexivity.
Qed.

End Scenarios.

(** ** The stub world at work *)

Lemma stub_world_reads_floats : @readsStubFloats stub_world.
Proof.
  intros s f Hin. unfold stub_floats in Hin.
  repeat (apply elem_of_cons in Hin as [Heq|Hin]; [by injection Heq as -> ->|]).
  by apply elem_of_nil in Hin.
Qed.

Lemma query_parameters_witness :
  ("height", Number ChartRequest.Height) ∈ documented OpChart
  ∧ ∃ v, values OpChart (NewZillow stub_key) stub_chart_request !! "height" = Some [v]
         ∧ rendered (NewZillow stub_key) stub_chart_request (Number ChartRequest.Height) v
         ∧ ("height", url.QueryEscape v)
           ∈ queryPairs (url.Encode (values OpChart (NewZillow stub_key) stub_chart_request)).
Proof.
  assert (("height", Number ChartRequest.Height) ∈ documented OpChart) as Hin.
  { cbn. set_solver. }
  split; [exact Hin|].
  exact (proj2 (proj2 (query_has_exactly_the_documented_parameters
           OpChart (NewZillow stub_key) stub_chart_request)) _ _ Hin).
Defined.

Lemma query_order_witness :
  ["zws-Id"; "zpid"; "count"; "rentzestimate"]
    ≡ₚ (map_to_list (values OpComps (NewZillow stub_key) stub_comps_request)).*1
  ∧ url.Encode_ranged (values OpComps (NewZillow stub_key) stub_comps_request)
      ["zws-Id"; "zpid"; "count"; "rentzestimate"]
    = url.Encode (values OpComps (NewZillow stub_key) stub_comps_request).
Proof.
  assert (["zws-Id"; "zpid"; "count"; "rentzestimate"]
            ≡ₚ (map_to_list (values OpComps (NewZillow stub_key) stub_comps_request)).*1)
    as Hperm.
  { vm_compute. apply NoDup_Permutation; [distinct_keys|distinct_keys|].
    intros x. rewrite !elem_of_cons, !elem_of_nil. tauto. }
  split; [exact Hperm|].
  exact (proj2 (proj2 (proj2 (query_keys_are_sorted_and_query_is_deterministic
           OpComps (NewZillow stub_key) stub_comps_request))) _ Hperm).
Defined.

Lemma decoded_result_witness :
  @roundTrip stub_world
      (requestURL (NewZillow stub_key) (servicePath OpZestimate)
         (values OpZestimate (NewZillow stub_key) stub_bad_request))
    = inl (http.mkResponse 200 "error.xml")
  ∧ @decodeBody stub_world OpZestimate "error.xml" = (stub_error_result, None)
  ∧ messageOf OpZestimate stub_error_result
    = Message.mk "Error: invalid or missing zpid parameter" 500 true
  ∧ @call stub_world OpZestimate (NewZillow stub_key) stub_bad_request []
    = ((Some stub_error_result, None), [stub_bad_url]).
Proof.
  assert (@roundTrip stub_world
            (requestURL (NewZillow stub_key) (servicePath OpZestimate)
               (values OpZestimate (NewZillow stub_key) stub_bad_request))
          = inl (http.mkResponse 200 "error.xml")) as Hget
    by (vm_compute; reflexivity).
  assert (@decodeBody stub_world OpZestimate "error.xml" = (stub_error_result, None))
    as Hdecode by (vm_compute; reflexivity).
  split; [exact Hget|]. split; [exact Hdecode|]. split; [reflexivity|].
  exact (@decoded_result_is_returned_whatever_its_message stub_world
           OpZestimate (NewZillow stub_key) stub_bad_request []
           (http.mkResponse 200 "error.xml") stub_error_result
           "Error: invalid or missing zpid parameter" 500 true
           Hget Hdecode eq_refl).
Defined.

Lemma decode_error_witness :
  (* a body that breaks off under the right root: the tokenizer's error *)
  (@roundTrip stub_world
       (requestURL (NewZillow stub_key) (servicePath OpZestimate)
          (values OpZestimate (NewZillow stub_key) stub_cut_request))
     = inl (http.mkResponse 200 "truncated.xml")
   ∧ @readElement stub_world "truncated.xml"
     = inr (Some stub_truncated_cut,
            xml_SyntaxError "XML syntax error on line 4: unexpected EOF")
   ∧ @decodeBody stub_world OpZestimate "truncated.xml"
     = (stub_truncated_written,
        Some (xml_SyntaxError "XML syntax error on line 4: unexpected EOF"))
   ∧ @call stub_world OpZestimate (NewZillow stub_key) stub_cut_request []
     = ((None, Some (xml_SyntaxError "XML syntax error on line 4: unexpected EOF")),
        [stub_cut_url]))
  (* a page that breaks off under another root: the error of the name *)
  ∧ (@roundTrip stub_world
       (requestURL (NewZillow stub_key) (servicePath OpZestimate)
          (values OpZestimate (NewZillow stub_key) stub_broken_request))
     = inl (http.mkResponse 503 "truncated.html")
   ∧ @readElement stub_world "truncated.html"
     = inr (Some stub_html_cut,
            xml_SyntaxError "XML syntax error on line 6: unexpected EOF")
   ∧ @call stub_world OpZestimate (NewZillow stub_key) stub_broken_request []
     = ((None, Some (xml_UnmarshalError "expected element type <zestimate> but have <html>")),
        [stub_broken_url]))
  (* a body that is read in full and given up on half-way *)
  ∧ (@roundTrip stub_world
       (requestURL (NewZillow stub_key) (servicePath OpZestimate)
          (values OpZestimate (NewZillow stub_key) stub_garbled_request))
     = inl (http.mkResponse 200 "garbled.xml")
   ∧ @decodeBody stub_world OpZestimate "garbled.xml"
     = (stub_garbled_written, Some (strconv_NumError "ParseInt" "zero" ErrSyntax))
   ∧ @call stub_world OpZestimate (NewZillow stub_key) stub_garbled_request []
     = ((None, Some (strconv_NumError "ParseInt" "zero" ErrSyntax)), [stub_garbled_url])).
Proof.
  assert (@roundTrip stub_world
            (requestURL (NewZillow stub_key) (servicePath OpZestimate)
               (values OpZestimate (NewZillow stub_key) stub_cut_request))
          = inl (http.mkResponse 200 "truncated.xml")) as Hget1
    by (vm_compute; reflexivity).
  assert (@readElement stub_world "truncated.xml"
          = inr (Some stub_truncated_cut,
                 xml_SyntaxError "XML syntax error on line 4: unexpected EOF")) as Hread1
    by (vm_compute; reflexivity).
  assert (@decodeBody stub_world OpZestimate "truncated.xml"
          = (stub_truncated_written,
             Some (xml_SyntaxError "XML syntax error on line 4: unexpected EOF"))) as Hdec1
    by (vm_compute; reflexivity).
  assert (@roundTrip stub_world
            (requestURL (NewZillow stub_key) (servicePath OpZestimate)
               (values OpZestimate (NewZillow stub_key) stub_broken_request))
          = inl (http.mkResponse 503 "truncated.html")) as Hget2
    by (vm_compute; reflexivity).
  assert (@readElement stub_world "truncated.html"
          = inr (Some stub_html_cut,
                 xml_SyntaxError "XML syntax error on line 6: unexpected EOF")) as Hread2
    by (vm_compute; reflexivity).
  assert (@roundTrip stub_world
            (requestURL (NewZillow stub_key) (servicePath OpZestimate)
               (values OpZestimate (NewZillow stub_key) stub_garbled_request))
          = inl (http.mkResponse 200 "garbled.xml")) as Hget3
    by (vm_compute; reflexivity).
  assert (@decodeBody stub_world OpZestimate "garbled.xml"
          = (stub_garbled_written, Some (strconv_NumError "ParseInt" "zero" ErrSyntax)))
    as Hdec3 by (vm_compute; reflexivity).
  split; [|split].
  - split; [exact Hget1|]. split; [exact Hread1|]. split; [exact Hdec1|].
    refine (proj1 (@decode_error_is_returned_without_result stub_world
                     OpZestimate (NewZillow stub_key) stub_cut_request []
                     (http.mkResponse 200 "truncated.xml") Hget1) _ _).
    cbn [http.Body]. by rewrite Hdec1.
  - split; [exact Hget2|]. split; [exact Hread2|].
    destruct (@decode_error_is_returned_without_result stub_world
                OpZestimate (NewZillow stub_key) stub_broken_request []
                (http.mkResponse 503 "truncated.html") Hget2) as [Hret Hmal].
    destruct (Hmal _ _ Hread2) as (err & Hdec2 & Herr).
    rewrite (Herr ltac:(discriminate)) in Hdec2.
    exact (Hret _ Hdec2).
  - split; [exact Hget3|]. split; [exact Hdec3|].
    refine (proj1 (@decode_error_is_returned_without_result stub_world
                     OpZestimate (NewZillow stub_key) stub_garbled_request []
                     (http.mkResponse 200 "garbled.xml") Hget3) _ _).
    cbn [http.Body]. by rewrite Hdec3.
Defined.

(** The claim as the specification words it fails: a body of another
    shape under the expected root is no error to the decoder, and the
    caller receives a zero-valued result; a body that stops after the
    request echo gives a partial one. *)
Lemma decode_error_counterexample :
  (@readElement (answering stub_shape_doc) "reply.xml" = inl stub_shape_doc
   ∧ (@call (answering stub_shape_doc) OpSearchResults (NewZillow stub_key)
        stub_search_request []).1
     = (Some (SearchResults.set_XMLName (xml.mkName "" "searchresults") SearchResults.zero),
        None)
   ∧ ¬ ∃ err, (@call (answering stub_shape_doc) OpSearchResults (NewZillow stub_key)
                 stub_search_request []).1 = (None, Some err))
  ∧ (@readElement (answering stub_partial_doc) "reply.xml" = inl stub_partial_doc
     ∧ (@call (answering stub_partial_doc) OpComps (NewZillow stub_key)
          stub_comps_request []).1
       = (Some (CompsResult.set_Request (CompsRequest.mk "7" 0 false)
                  (CompsResult.set_XMLName (xml.mkName "" "comps") CompsResult.zero)),
          None)).
Proof.
  assert ((@call (answering stub_shape_doc) OpSearchResults (NewZillow stub_key)
             stub_search_request []).1
          = (Some (SearchResults.set_XMLName (xml.mkName "" "searchresults")
                     SearchResults.zero), None)) as Hcall
    by (vm_compute; reflexivity).
  split; [split; [reflexivity|split; [exact Hcall|]]|].
  - intros [err Herr]. rewrite Hcall in Herr. discriminate.
  - split; [reflexivity|]. vm_compute. reflexivity.
Qed.

Lemma transport_error_witness :
  @roundTrip stub_world
      (requestURL (NewZillow stub_key) (servicePath OpZestimate)
         (values OpZestimate (NewZillow stub_key) stub_down_request))
    = inr (url_Error "Get" stub_down_url "dial tcp: connect: connection refused")
  ∧ @call stub_world OpZestimate (NewZillow stub_key) stub_down_request []
    = ((None, Some (url_Error "Get" stub_down_url "dial tcp: connect: connection refused")),
       [stub_down_url]).
Proof.
  assert (@roundTrip stub_world
            (requestURL (NewZillow stub_key) (servicePath OpZestimate)
               (values OpZestimate (NewZillow stub_key) stub_down_request))
          = inr (url_Error "Get" stub_down_url "dial tcp: connect: connection refused"))
    as Hget by (vm_compute; reflexivity).
  split; [exact Hget|].
  exact (@transport_error_is_returned_without_result stub_world
           OpZestimate (NewZillow stub_key) stub_down_request [] _ Hget).
Defined.

Lemma status_code_witness :
  ¬ (200 <= 404 < 300)
  ∧ @roundTrip stub_world
        (requestURL (NewZillow stub_key) (servicePath OpZestimate)
           (values OpZestimate (NewZillow stub_key) stub_gone_request))
      = inl (http.mkResponse 404 "error.xml")
  ∧ @decodeBody stub_world OpZestimate "error.xml" = (stub_error_result, None)
  ∧ @call stub_world OpZestimate (NewZillow stub_key) stub_gone_request []
    = ((Some stub_error_result, None), [stub_gone_url]).
Proof.
  assert (¬ (200 <= 404 < 300)) as Hcode by lia.
  assert (@roundTrip stub_world
            (requestURL (NewZillow stub_key) (servicePath OpZestimate)
               (values OpZestimate (NewZillow stub_key) stub_gone_request))
          = inl (http.mkResponse 404 "error.xml")) as Hget
    by (vm_compute; reflexivity).
  assert (@decodeBody stub_world OpZestimate "error.xml" = (stub_error_result, None))
    as Hdecode by (vm_compute; reflexivity).
  split; [exact Hcode|]. split; [exact Hget|]. split; [exact Hdecode|].
  exact (@status_code_is_not_inspected stub_world
           OpZestimate (NewZillow stub_key) stub_gone_request [] 404 "error.xml"
           stub_error_result Hcode Hget Hdecode).
Defined.

Lemma zestimate_stub_witness :
  @roundTrip stub_world
      (requestURL (NewZillow stub_key) getZestimatePath
         (GetZestimate_values (NewZillow stub_key) (ZestimateRequest.mk "48749425" false)))
    = inl (http.mkResponse 200 "zestimate.xml")
  ∧ @readElement stub_world "zestimate.xml" = inl stub_zestimate_doc
  ∧ @readsStubFloats stub_world
  ∧ ∃ result,
      (@GetZestimate stub_world (NewZillow stub_key)
         (ZestimateRequest.mk "48749425" false) []).1 = (Some result, None)
      ∧ Value.Value (Zestimate.Amount (ZestimateResult.Zestimate result)) = 258000
      ∧ Value.Currency (Zestimate.Amount (ZestimateResult.Zestimate result)) = "USD"
      ∧ Value.Value (Zestimate.Low (ZestimateResult.Zestimate result)) = 231000
      ∧ Value.Value (Zestimate.High (ZestimateResult.Zestimate result)) = 278000.
Proof.
  assert (@roundTrip stub_world
            (requestURL (NewZillow stub_key) getZestimatePath
               (GetZestimate_values (NewZillow stub_key)
                  (ZestimateRequest.mk "48749425" false)))
          = inl (http.mkResponse 200 "zestimate.xml")) as Hget
    by (vm_compute; reflexivity).
  assert (@readElement stub_world "zestimate.xml" = inl stub_zestimate_doc) as Hread
    by (vm_compute; reflexivity).
  split; [exact Hget|]. split; [exact Hread|].
  split; [exact stub_world_reads_floats|].
  exact (@zestimate_stub_scenario stub_world stub_key []
           (http.mkResponse 200 "zestimate.xml") Hget Hread stub_world_reads_floats).
Defined.

Lemma stub_comps_shape :
  Forall (λ c, ∃ nm s content,
            c = xml.Elem nm [attr "score" s] content ∧ xml.Local nm = "comp")
    stub_comps.
Proof.
  unfold stub_comps, stub_comp_rows. cbn [fmap list_fmap].
  repeat first [apply Forall_nil_2 | apply Forall_cons_2];
    do 3 eexists; split; reflexivity.
Qed.

Lemma stub_comps_decode :
  Forall (λ c, ∃ x, @xml.unmarshal _ (@Comp_value stub_world) c Comp.zero = (x, None))
    stub_comps.
Proof.
  unfold stub_comps, stub_comp_rows. cbn [fmap list_fmap].
  repeat first [apply Forall_nil_2 | apply Forall_cons_2];
    eexists; vm_compute; reflexivity.
Qed.

(** The scores of the five comparables of the stub, read off what the
    decoder is shown to do with the [score] attribute. *)
Lemma stub_comps_scores (xs : list Comp.t) :
  Forall2 (λ c x, @xml.unmarshal _ (@Comp_value stub_world) c Comp.zero = (x, None)
                  ∧ ∃ s, attribute "score" c = Some s
                         ∧ (s ≠ "" →
                            @ParseFloat stub_world (strings.TrimSpace s)
                            = inl (Comp.Score x))
                         ∧ (s = "" → Comp.Score x = 0%float))
    stub_comps xs →
  Comp.Score <$> xs = [9%float; 8.5%float; 7.25%float; 6%float; 4.5%float].
Proof.
  unfold stub_comps, stub_comp_rows. cbn [fmap list_fmap]. intros Hall.
  repeat match goal with
  | H : Forall2 _ (_ :: _) _ |- _ =>
      let Hattr := fresh "Hattr" in
      let Hread := fresh "Hread" in
      apply Forall2_cons_inv_l in H as (? & ? & (_ & ? & Hattr & Hread & _) & H & ->);
      vm_compute in Hattr; injection Hattr as <-;
      specialize (Hread ltac:(discriminate));
      match type of Hread with
      | ?l = _ => let v := eval vm_compute in l in change l with v in Hread
      end;
      injection Hread as Hread
  | H : Forall2 _ [] _ |- _ => apply Forall2_nil_inv_l in H as ->
  end.
  cbn [fmap list_fmap].
  repeat match goal with
  | H : _ = Comp.Score _ |- _ => rewrite <- H; clear H
  end.
  reflexivity.
Qed.

Lemma comps_stub_witness :
  @roundTrip stub_world
      (requestURL (NewZillow stub_key) getComps
         (GetComps_values (NewZillow stub_key) (CompsRequest.mk "48749425" 5 false)))
    = inl (http.mkResponse 200 "comps.xml")
  ∧ @readElement stub_world "comps.xml" = inl (stub_comps_doc_with stub_comps)
  ∧ @readsStubFloats stub_world
  ∧ length stub_comps = 5%nat
  ∧ Forall (λ c, ∃ nm s content,
              c = xml.Elem nm [attr "score" s] content ∧ xml.Local nm = "comp")
      stub_comps
  ∧ Forall (λ c, ∃ x, @xml.unmarshal _ (@Comp_value stub_world) c Comp.zero = (x, None))
      stub_comps
  ∧ ∃ result,
      (@GetComps stub_world (NewZillow stub_key)
         (CompsRequest.mk "48749425" 5 false) []).1 = (Some result, None)
      ∧ length (CompsResult.Comparables result) = 5%nat
      ∧ Comp.Score <$> CompsResult.Comparables result
        = [9%float; 8.5%float; 7.25%float; 6%float; 4.5%float]
      ∧ Principal.Zpid (CompsResult.Principal result) = "48749425".
Proof.
  assert (@roundTrip stub_world
            (requestURL (NewZillow stub_key) getComps
               (GetComps_values (NewZillow stub_key)
                  (CompsRequest.mk "48749425" 5 false)))
          = inl (http.mkResponse 200 "comps.xml")) as Hget
    by (vm_compute; reflexivity).
  assert (@readElement stub_world "comps.xml" = inl (stub_comps_doc_with stub_comps))
    as Hread by (vm_compute; reflexivity).
  assert (length stub_comps = 5%nat) as Hlen by reflexivity.
  split; [exact Hget|]. split; [exact Hread|].
  split; [exact stub_world_reads_floats|]. split; [exact Hlen|].
  split; [exact stub_comps_shape|]. split; [exact stub_comps_decode|].
  destruct (@comps_stub_scenario stub_world stub_key []
              (http.mkResponse 200 "comps.xml") stub_comps Hget Hread
              stub_world_reads_floats Hlen stub_comps_shape stub_comps_decode)
    as (result & Hcall & Hfive & Hscores & Hprincipal).
  exists result. split; [exact Hcall|]. split; [exact Hfive|].
  split; [exact (stub_comps_scores _ Hscores)|exact Hprincipal].
Defined.

(** * Further properties *)

(** ** Numerals read back: [Itoa], [TrimSpace] and [ParseInt] *)

Lemma rev_app_append (s t : string) : String.rev_app s t = String.rev s +:+ t.
Proof.
  unfold String.rev. revert t. induction s as [|c s IH]; intros t; [done|].
  cbn [String.rev_app]. rewrite IH, (IH (String c "")). by rewrite append_assoc.
Qed.

Lemma rev_cons (c : ascii) (s : string) :
  String.rev (String c s) = String.rev s +:+ String c "".
Proof. unfold String.rev at 1. cbn [String.rev_app]. apply rev_app_append. Qed.

Lemma rev_append (s t : string) : String.rev (s +:+ t) = String.rev t +:+ String.rev s.
Proof.
  induction s as [|c s IH]; [by rewrite append_nil_l, append_nil_r|].
  by rewrite append_cons, !rev_cons, IH, append_assoc.
Qed.

Lemma rev_involutive (s : string) : String.rev (String.rev s) = s.
Proof.
  induction s as [|c s IH]; [done|].
  by rewrite rev_cons, rev_append, IH.
Qed.

Lemma allBytes_append (P : ascii → bool) (s t : string) :
  allBytes P (s +:+ t) = allBytes P s && allBytes P t.
Proof.
  induction s as [|c s IH]; [done|].
  rewrite append_cons. cbn [allBytes]. by rewrite IH, andb_assoc.
Qed.

Lemma allBytes_rev (P : ascii → bool) (s : string) :
  allBytes P (String.rev s) = allBytes P s.
Proof.
  induction s as [|c s IH]; [done|].
  rewrite rev_cons, allBytes_append, IH. cbn [allBytes].
  by rewrite andb_true_r, andb_comm.
Qed.

Lemma rev_length (s : string) : String.length (String.rev s) = String.length s.
Proof.
  assert (∀ s t, String.length (s +:+ t) = (String.length s + String.length t)%nat) as Happ.
  { clear. intros s t. induction s as [|c s IH]; [done|].
    rewrite append_cons. cbn [String.length]. by rewrite IH. }
  induction s as [|c s IH]; [done|].
  rewrite rev_cons, Happ, IH. cbn [String.length]. lia.
Qed.

(** No white space starts at a digit or a minus sign, read from either
    end. *)
Lemma strip_space_front_numeral (c : ascii) (r : string) :
  isDigitOrMinus c = true → strings.strip_space_front (String c r) = None.
Proof.
  intros Hc.
  destruct c as [[] [] [] [] [] [] [] []]; try (vm_compute in Hc; discriminate Hc);
    by destruct r as [|c1 [|c2 r2]].
Qed.

Lemma strip_space_back_numeral (c : ascii) (r : string) :
  isDigitOrMinus c = true → strings.strip_space_back (String c r) = None.
Proof.
  intros Hc.
  destruct c as [[] [] [] [] [] [] [] []]; try (vm_compute in Hc; discriminate Hc).
  all: destruct r as [|c1 [|c2 r2]]; [done| |].
  all: unfold strings.strip_space_back;
    repeat match goal with
    | |- context [bool_decide ?P] =>
        let b := eval vm_compute in (bool_decide P) in
        lazymatch b with
        | true => change (bool_decide P) with true
        | false => change (bool_decide P) with false
        end
    end.
  all: cbv beta iota zeta.
  all: rewrite ?andb_false_r; cbn [andb orb].
  all: reflexivity.
Qed.

Lemma TrimSpace_numeral (s : string) :
  allBytes isDigitOrMinus s = true → strings.TrimSpace s = s.
Proof.
  intros Hs. unfold strings.TrimSpace.
  assert (strings.TrimLeft s = s) as ->.
  { unfold strings.TrimLeft. destruct s as [|c r]; [done|].
    cbn [allBytes] in Hs. apply andb_true_iff in Hs as [Hc _].
    cbn [String.length strings.trim_with].
    by rewrite strip_space_front_numeral. }
  unfold strings.TrimRight.
  rewrite <- (allBytes_rev isDigitOrMinus) in Hs.
  rewrite <- (rev_length s).
  destruct (String.rev s) as [|c r] eqn:Hrev.
  - assert (s = "") as -> by (by rewrite <- (rev_involutive s), Hrev).
    done.
  - cbn [allBytes] in Hs. apply andb_true_iff in Hs as [Hc _].
    cbn [String.length strings.trim_with].
    rewrite strip_space_back_numeral by done.
    rewrite <- Hrev. apply rev_involutive.
Qed.

(** The digits that [formatBits] writes are read back by the loop of
    [ParseUint] as long as the value stays within 64 bits. *)
Lemma parseUint_formatBits (fuel : nat) (u : Z) :
  0 <= u < 10 ^ Z.of_nat fuel →
  ∃ k, 0 <= k ∧ ∀ a acc,
    0 <= acc → acc * 10 ^ k + u <= strconv.maxVal →
    strconv.parseUint_loop (strconv.formatBits fuel u a) acc
    = strconv.parseUint_loop a (acc * 10 ^ k + u).
Proof.
  assert (strconv.cutoff = 1844674407370955162) as Hcut by reflexivity.
  assert (strconv.maxVal = 18446744073709551615) as Hmax by reflexivity.
  revert u. induction fuel as [|fuel IH]; intros u Hu.
  - exists 0. split; [done|]. intros a acc _ _. cbn.
    f_equal. change (10 ^ Z.of_nat 0) with 1 in Hu. lia.
  - cbn [strconv.formatBits]. destruct (Z.ltb_spec u 10) as [Hlt|Hge].
    + exists 1. split; [done|]. intros a acc Hacc Hfit.
      cbn [strconv.parseUint_loop]. rewrite digit_val_digit by lia.
      rewrite Z.pow_1_r in Hfit.
      destruct (Z.leb_spec strconv.cutoff acc); [lia|].
      cbv zeta. destruct (Z.ltb_spec strconv.maxVal (acc * 10 + u)); [lia|].
      f_equal; lia.
    + destruct (IH (u / 10)) as (k & Hk & Hparse).
      { rewrite Nat2Z.inj_succ, Z.pow_succ_r in Hu by lia.
        split; [apply Z.div_pos; lia|]. apply Z.div_lt_upper_bound; lia. }
      exists (k + 1). split; [lia|]. intros a acc Hacc Hfit.
      rewrite Z.pow_add_r, Z.pow_1_r in Hfit by lia.
      pose proof (Z.div_mod u 10 ltac:(lia)) as Hdm.
      pose proof (Z.mod_pos_bound u 10 ltac:(lia)) as Hmod.
      assert (0 <= 10 ^ k) by (apply Z.pow_nonneg; lia).
      assert (0 <= acc * 10 ^ k) by lia.
      assert (0 <= u / 10) by (apply Z.div_pos; lia).
      rewrite Hparse by lia.
      cbn [strconv.parseUint_loop]. rewrite digit_val_digit by done.
      destruct (Z.leb_spec strconv.cutoff (acc * 10 ^ k + u / 10)); [lia|].
      cbv zeta.
      destruct (Z.ltb_spec strconv.maxVal ((acc * 10 ^ k + u / 10) * 10 + u mod 10)); [lia|].
      f_equal. rewrite Z.pow_add_r, Z.pow_1_r by lia. all: lia.
Qed.

Lemma Itoa_cons (i : int) : ∃ c s, strconv.Itoa i = String c s.
Proof.
  unfold strconv.Itoa. cbv zeta.
  destruct (formatBits_cons (Z.to_nat (Z.log2 (Z.abs i))) (Z.abs i) "") as (c & s & ->).
  destruct (i <? 0); eauto.
Qed.

(** [ParseInt] reads back what [Itoa] writes, for every [int]. *)
Lemma ParseInt_Itoa (i : int) : in_int64 i → strconv.ParseInt (strconv.Itoa i) = inl i.
Proof.
  intros Hi. unfold in_int64 in Hi.
  assert (strconv.maxVal = 18446744073709551615) as Hmax by reflexivity.
  assert (2 ^ 63 = 9223372036854775808) as H63 by reflexivity.
  unfold strconv.Itoa. cbv zeta.
  set (fuel := Z.to_nat (Z.log2 (Z.abs i))).
  destruct (parseUint_formatBits (S fuel) (Z.abs i)) as (k & Hk & Hparse).
  { split; [lia|]. apply Itoa_fuel. lia. }
  specialize (Hparse "" 0 ltac:(lia) ltac:(lia)).
  cbn [strconv.parseUint_loop] in Hparse. rewrite Z.mul_0_l, Z.add_0_l in Hparse.
  destruct (formatBits_cons fuel (Z.abs i) "") as (c & s & Hcs).
  pose proof (formatBits_bytes (S fuel) (Z.abs i) "" ltac:(lia) eq_refl) as Hb.
  destruct (Z.ltb_spec i 0) as [Hneg|Hpos].
  - unfold strconv.ParseInt.
    rewrite (bool_decide_eq_true_2 ("-"%char = "-"%char)) by done.
    rewrite orb_true_r. unfold strconv.ParseUint. rewrite Hcs, <- Hcs, Hparse.
    cbv zeta. cbn [negb andb].
    destruct (Z.ltb_spec (2 ^ 63) (Z.abs i)); [lia|]. f_equal; lia.
  - unfold strconv.ParseInt. rewrite Hcs.
    assert (c ≠ "-"%char) as Hminus.
    { intros ->. rewrite Hcs in Hparse. cbn in Hparse. discriminate. }
    assert (c ≠ "+"%char) as Hplus.
    { intros ->. rewrite Hcs in Hparse. cbn in Hparse. discriminate. }
    rewrite (bool_decide_eq_false_2 _ Hminus), (bool_decide_eq_false_2 _ Hplus).
    cbn [orb negb andb]. unfold strconv.ParseUint. rewrite <- Hcs, Hcs at 1.
    rewrite <- Hcs, Hparse. cbv zeta.
    destruct (Z.leb_spec (2 ^ 63) (Z.abs i)); [lia|]. f_equal; lia.
Qed.

(** ** [encoding/xml]: text read into scalar fields *)

Lemma charData_text (t : string) : xml.charData [inl t] = t.
Proof. cbn. apply append_nil_r. Qed.

Lemma copyValue_string (src dst : string) :
  xml.copyValue (T := string) src dst = (src, None).
Proof. reflexivity. Qed.

Lemma copyValue_Itoa (i dst : int) :
  in_int64 i → xml.copyValue (T := int) (strconv.Itoa i) dst = (i, None).
Proof.
  intros Hi. unfold xml.copyValue. cbn [xml.kind xml.int_value].
  destruct (Itoa_cons i) as (c & s & Hcs).
  rewrite bool_decide_eq_false_2 by (rewrite Hcs; done).
  by rewrite TrimSpace_numeral, ParseInt_Itoa by (done || apply Itoa_bytes).
Qed.

Lemma copyValue_FormatBool (b dst : bool) :
  xml.copyValue (T := bool) (strconv.FormatBool b) dst = (b, None).
Proof. by destruct b. Qed.

Lemma unmarshal_string (nm : xml.Name) (attrs : list xml.Attr) (t dst : string) :
  xml.unmarshal (xml.Elem nm attrs [inl t]) dst = (t, None).
Proof.
  unfold xml.unmarshal. cbn [xml.kind xml.string_value xml.elContent].
  by rewrite charData_text.
Qed.

Lemma unmarshal_Itoa (nm : xml.Name) (attrs : list xml.Attr) (i dst : int) :
  in_int64 i →
  xml.unmarshal (T := int) (xml.Elem nm attrs [inl (strconv.Itoa i)]) dst = (i, None).
Proof.
  intros Hi. pose proof (copyValue_Itoa i dst Hi) as Hcopy.
  unfold xml.unmarshal, xml.copyValue in *.
  cbn [xml.kind xml.int_value xml.elContent] in *. by rewrite charData_text.
Qed.

Lemma unmarshal_FormatBool (nm : xml.Name) (attrs : list xml.Attr) (b dst : bool) :
  xml.unmarshal (xml.Elem nm attrs [inl (strconv.FormatBool b)]) dst = (b, None).
Proof.
  pose proof (copyValue_FormatBool b dst) as Hcopy.
  unfold xml.unmarshal, xml.copyValue in *.
  cbn [xml.kind xml.bool_value xml.elContent] in *. by rewrite charData_text.
Qed.

(** *** Stepping through the decoding of an element *)

Lemma andThen_assoc {T} (r : xml.partial T) (k1 k2 : T → xml.partial T) :
  xml.andThen (xml.andThen r k1) k2 = xml.andThen r (λ v, xml.andThen (k1 v) k2).
Proof. by destruct r as [v [e|]]. Qed.

Lemma foldl_andThen {T A} (step : T → A → xml.partial T) (acc : xml.partial T) (l : list A) :
  foldl (λ acc a, xml.andThen acc (λ v, step v a)) acc l
  = xml.andThen acc (λ v, foldl (λ acc a, xml.andThen acc (λ v, step v a)) (xml.ok v) l).
Proof.
  revert acc. induction l as [|a l IH]; intros acc; cbn [foldl].
  - by rewrite andThen_ok.
  - rewrite IH. destruct acc as [v [e|]]; cbn [xml.andThen xml.ok]; [done|].
    by rewrite (IH (step v a)).
Qed.

Lemma assignAttrs_nil {S} (fields : list (xml.fieldInfo S)) (sv : S) :
  xml.assignAttrs fields [] sv = xml.ok sv.
Proof. reflexivity. Qed.

Lemma assignAttrs_cons {S} (fields : list (xml.fieldInfo S)) (a : xml.Attr)
    (attrs : list xml.Attr) (sv : S) :
  xml.assignAttrs fields (a :: attrs) sv
  = xml.andThen (xml.assignAttr fields sv a) (xml.assignAttrs fields attrs).
Proof.
  unfold xml.assignAttrs. cbn [foldl]. rewrite foldl_andThen.
  cbn [xml.andThen xml.ok]. reflexivity.
Qed.

Lemma assignAttr_nil {S} (sv : S) (a : xml.Attr) : xml.assignAttr [] sv a = xml.ok sv.
Proof. reflexivity. Qed.

Lemma assignAttr_cons {S} (finfo : xml.fieldInfo S) (fields : list (xml.fieldInfo S))
    (sv : S) (a : xml.Attr) :
  xml.assignAttr (finfo :: fields) sv a
  = xml.andThen
      (if bool_decide (xml.flags finfo = xml.fAttr)
          && bool_decide (xml.Local (xml.attrName a) = xml.name finfo)
       then xml.storeText finfo (xml.attrValue a) sv
       else xml.ok sv)
      (λ sv, xml.assignAttr fields sv a).
Proof.
  unfold xml.assignAttr. cbn [foldl].
  rewrite (foldl_andThen (λ sv finfo,
             if bool_decide (xml.flags finfo = xml.fAttr)
                && bool_decide (xml.Local (xml.attrName a) = xml.name finfo)
             then xml.storeText finfo (xml.attrValue a) sv
             else xml.ok sv)).
  cbn [xml.andThen xml.ok]. reflexivity.
Qed.

Lemma unmarshalContent_nil {S} (fields : list (xml.fieldInfo S)) (sv : S) :
  xml.unmarshalContent fields [] sv = xml.ok sv.
Proof. reflexivity. Qed.

Lemma unmarshalContent_cons {S} (fields : list (xml.fieldInfo S))
    (tok : string + xml.Element) (content : list (string + xml.Element)) (sv : S) :
  xml.unmarshalContent fields (tok :: content) sv
  = xml.andThen (contentStep fields tok sv) (xml.unmarshalContent fields content).
Proof.
  unfold xml.unmarshalContent. cbn [foldl].
  rewrite (foldl_andThen (λ sv tok, contentStep fields tok sv)).
  cbn [xml.andThen xml.ok]. reflexivity.
Qed.

Lemma unmarshalChildren_nil {S} (fields : list (xml.fieldInfo S)) (ps : list string) (sv : S) :
  xml.unmarshalChildren fields ps [] sv = xml.ok sv.
Proof. reflexivity. Qed.

Lemma unmarshalChildren_text {S} (fields : list (xml.fieldInfo S)) (ps : list string)
    (t : string) (toks : list (string + xml.Element)) (sv : S) :
  xml.unmarshalChildren fields ps (inl t :: toks) sv
  = xml.unmarshalChildren fields ps toks sv.
Proof. reflexivity. Qed.

Lemma unmarshalStruct_unfold {S} (xmlname : option (string * (xml.Name → S → S)))
    (fields : list (xml.fieldInfo S)) (nm : xml.Name) (attrs : list xml.Attr)
    (content : list (string + xml.Element)) (sv : S) :
  xml.unmarshalStruct xmlname fields (xml.Elem nm attrs content) sv
  = xml.andThen
      match xmlname with
      | Some (tagname, setName) =>
          if negb (bool_decide (tagname = ""))
             && negb (bool_decide (tagname = xml.Local nm))
          then xml.fail sv (xml_UnmarshalError
                 ("expected element type <" +:+ tagname +:+ "> but have <"
                    +:+ xml.Local nm +:+ ">"))
          else xml.ok (setName nm sv)
      | None => xml.ok sv
      end
      (λ sv, xml.andThen (xml.assignAttrs fields attrs sv)
        (λ sv, xml.andThen (xml.unmarshalContent fields content sv)
          (λ sv, match xml.saveData fields with
                 | Some finfo => xml.storeText finfo (xml.charData content) sv
                 | None => xml.ok sv
                 end))).
Proof. reflexivity. Qed.

Lemma unmarshalPath_elem {S} (fields : list (xml.fieldInfo S)) (ps : list string)
    (e : xml.Element) (sv : S) :
  xml.unmarshalPath fields ps e sv
  = match xml.matchPath fields ps (xml.Local (xml.elName e)) with
    | xml.Perfect finfo => (true, xml.storeElement finfo e sv)
    | xml.NoBusiness => (false, xml.ok sv)
    | xml.Prefix ps' => (true, xml.unmarshalChildren fields ps' (xml.elContent e) sv)
    end.
Proof. by destruct e. Qed.

(** The head of a closed term replaced by its head normal form, and a
    closed truth value by its value. *)
Ltac eval_head t := let r := eval hnf in t in change t with r.

Ltac eval_bools :=
  repeat match goal with
  | |- context [if ?b then _ else _] =>
      lazymatch b with
      | true => fail
      | false => fail
      | _ => let v := eval vm_compute in b in
             lazymatch v with
             | true => change b with true
             | false => change b with false
             end
      end
  end.

Ltac xml_step :=
  first
  [ rewrite unmarshalStruct_unfold
  | rewrite assignAttrs_cons
  | rewrite assignAttr_cons
  | rewrite assignAttr_nil
  | rewrite field_flags
  | rewrite field_name
  | match goal with
    | |- context [xml.assignAttr ?F _ _] => lazymatch F with
          | ?h _ => progress unfold h
          | _ => progress unfold F
          end
    end
  | progress eval_bools
  | rewrite assignAttrs_nil
  | rewrite unmarshalContent_cons
  | rewrite unmarshalContent_nil
  | rewrite unmarshalChildren_cons
  | rewrite unmarshalChildren_text
  | rewrite unmarshalChildren_nil
  | rewrite unmarshalPath_elem
  | match goal with
    | |- context [xml.Local (xml.elName ?e)] =>
        let r := eval lazy in (xml.Local (xml.elName e)) in
        change (xml.Local (xml.elName e)) with r
    | |- context [xml.unmarshalChildren _ _ (xml.elContent ?e) _] =>
        let r := eval hnf in e in
        lazymatch r with
        | xml.Elem _ _ ?c => change (xml.elContent e) with c
        end
    end
  | rewrite field_storeElement
  | rewrite field_storeText
  | rewrite copyValue_string
  | rewrite unmarshal_string
  | rewrite unmarshal_FormatBool
  | rewrite copyValue_FormatBool
  | rewrite unmarshal_Itoa by assumption
  | rewrite copyValue_Itoa by assumption
  | rewrite charData_text
  | progress unfold xml.through
  | progress unfold el, leaf
  | progress cbn [xml.andThen xml.ok xml.fail xml.through contentStep fst snd
                  xml.Local xml.attrName xml.attrValue attr el leaf]
  | match goal with
    | |- context [xml.matchPath ?F ?ps ?l] => eval_head (xml.matchPath F ps l)
    | |- context [xml.saveData ?F] => eval_head (xml.saveData F)
    end
  | progress cbv beta iota ].

Section RoundTrips.
Context `{W : World}.

(** A monetary value: the currency attribute and the amount come back. *)
Lemma unmarshal_renderValue (nm : xml.Name) (v dst : Value.t) :
  in_int64 (Value.Value v) →
  xml.unmarshal (renderValue nm v) dst = (v, None).
Proof.
  intros Hv. unfold renderValue.
  unfold xml.unmarshal at 1. cbn [xml.kind Value_value xml.structValue].
  repeat xml_step. by destruct v, dst.
Qed.

Lemma unmarshal_renderValueChange (nm : xml.Name) (v dst : ValueChange.t) :
  in_int64 (ValueChange.Duration v) → in_int64 (ValueChange.Value v) →
  xml.unmarshal (renderValueChange nm v) dst = (v, None).
Proof.
  intros Hd Hv. unfold renderValueChange.
  unfold xml.unmarshal at 1. cbn [xml.kind ValueChange_value xml.structValue].
  repeat xml_step. by destruct v, dst.
Qed.

Lemma unmarshal_renderZestimate (nm : xml.Name) (z dst : Zestimate.t) :
  Zestimate_in_range z →
  xml.unmarshal (renderZestimate nm z) dst = (z, None).
Proof.
  intros (Ha & Hd & Hc & Hl & Hh). unfold renderZestimate.
  unfold xml.unmarshal at 1. cbn [xml.kind Zestimate_value xml.structValue].
  repeat first
    [ rewrite unmarshal_renderValue by assumption
    | rewrite unmarshal_renderValueChange by assumption
    | xml_step ].
  by destruct z, dst.
Qed.

Lemma unmarshal_renderLinks (l dst : Links.t) :
  xml.Local (Links.XMLName l) = "links" →
  xml.unmarshal (renderLinks l) dst = (l, None).
Proof.
  intros Hl. unfold renderLinks.
  unfold xml.unmarshal at 1. cbn [xml.kind Links_value xml.structValue].
  rewrite unmarshalStruct_unfold, Hl.
  repeat xml_step. by destruct l, dst.
Qed.

Lemma unmarshal_renderMessage (m dst : Message.t) :
  Message_in_range m →
  xml.unmarshal (renderMessage m) dst = (m, None).
Proof.
  intros Hm. red in Hm. unfold renderMessage.
  unfold xml.unmarshal at 1. cbn [xml.kind Message_value xml.structValue].
  repeat xml_step. by destruct m, dst.
Qed.

Lemma unmarshal_echo (o : operation) (req dst : Request o) :
  request_in_range o req →
  @xml.unmarshal _ (Request_value o) (echo o req) dst = (req, None).
Proof.
  destruct o; cbn [request_in_range echo Request Request_value] in *; intros Hr.
  - unfold xml.unmarshal at 1. cbn [xml.kind ZestimateRequest_value xml.structValue].
    repeat xml_step. by destruct req, dst.
  - unfold xml.unmarshal at 1. cbn [xml.kind SearchRequest_value xml.structValue].
    repeat xml_step. by destruct req, dst.
  - destruct Hr as [Hw Hh].
    unfold xml.unmarshal at 1. cbn [xml.kind ChartRequest_value xml.structValue].
    repeat xml_step. by destruct req, dst.
  - unfold xml.unmarshal at 1. cbn [xml.kind CompsRequest_value xml.structValue].
    repeat xml_step. by destruct req, dst.
Qed.
End RoundTrips.
(** ** The root of a reply *)

Lemma andThen_ext {T} (r : xml.partial T) (k1 k2 : T → xml.partial T) :
  (∀ v, k1 v = k2 v) → xml.andThen r k1 = xml.andThen r k2.
Proof. intros Hk. destruct r as [v [e|]]; [done|]. apply Hk. Qed.

Lemma assignAttr_elements_only {S} (fields : list (xml.fieldInfo S)) (sv : S) (a : xml.Attr) :
  Forall (λ finfo, xml.flags finfo = xml.fElement) fields →
  xml.assignAttr fields sv a = xml.ok sv.
Proof.
  induction 1 as [|finfo fields Hfl _ IH]; [done|].
  rewrite assignAttr_cons, Hfl. cbn [xml.andThen xml.ok andb]. exact IH.
Qed.

Lemma assignAttrs_elements_only {S} (fields : list (xml.fieldInfo S))
    (attrs : list xml.Attr) (sv : S) :
  Forall (λ finfo, xml.flags finfo = xml.fElement) fields →
  xml.assignAttrs fields attrs sv = xml.ok sv.
Proof.
  intros Hfl. induction attrs as [|a attrs IH]; [done|].
  rewrite assignAttrs_cons, assignAttr_elements_only by done. exact IH.
Qed.

Lemma saveData_elements_only {S} (fields : list (xml.fieldInfo S)) :
  Forall (λ finfo, xml.flags finfo = xml.fElement) fields →
  xml.saveData fields = None.
Proof.
  unfold xml.saveData. induction 1 as [|finfo fields Hfl _ IH]; [done|].
  rewrite filter_cons_False by (rewrite Hfl; discriminate). exact IH.
Qed.

(** An element whose name starts the path of no field is nobody's
    business. *)
Lemma matchPath_NoBusiness {S} (fields : list (xml.fieldInfo S)) (l : string) :
  Forall (λ finfo, firstName finfo ≠ l) fields →
  xml.matchPath fields [] l = xml.NoBusiness.
Proof.
  induction 1 as [|finfo fields Hne _ IH]; [done|].
  cbn [xml.matchPath]. rewrite IH.
  unfold firstName in Hne.
  destruct (xml.parents finfo) as [|p ps] eqn:Hps; cbn [head default length] in *.
  - rewrite (bool_decide_eq_false_2 (xml.name finfo = l)) by done.
    rewrite andb_false_r. by repeat case_match.
  - cbn [lookup list_lookup].
    rewrite (bool_decide_eq_false_2 (Some p = Some l)) by (intros [= ?]; done).
    rewrite andb_false_r.
    rewrite (bool_decide_eq_false_2 (Datatypes.S (length ps) = 0)%nat) by done.
    cbn [andb]. by repeat case_match.
Qed.

Lemma filter_knownTop_nil (content : list (string + xml.Element)) :
  Forall (λ tok, knownTop tok = false) content →
  filter (λ tok, knownTop tok) content = [].
Proof.
  induction 1 as [|tok content Htok _ IH]; [done|].
  by rewrite filter_cons_False by (by apply Is_true_false).
Qed.

Section Roots.
Context `{W : World}.

Lemma resultFields_elements (o : operation) :
  Forall (λ finfo, xml.flags finfo = xml.fElement) (resultFields o).
Proof.
  destruct o; cbn [resultFields];
    unfold ZestimateResult_fields, SearchResults_fields, ChartResult_fields,
      CompsResult_fields;
    repeat constructor; rewrite field_flags; vm_compute; reflexivity.
Qed.

Lemma resultFields_topNames (o : operation) :
  Forall (λ finfo, firstName finfo ∈ topNames) (resultFields o).
Proof.
  destruct o; cbn [resultFields];
    unfold ZestimateResult_fields, SearchResults_fields, ChartResult_fields,
      CompsResult_fields;
    repeat constructor; unfold firstName; rewrite field_parents, field_name;
    vm_compute; set_solver.
Qed.

Lemma unmarshalPath_unknown (o : operation) (t : xml.Element) (sv : Result o) :
  xml.Local (xml.elName t) ∉ topNames →
  xml.unmarshalPath (resultFields o) [] t sv = (false, xml.ok sv).
Proof.
  intros Hl. rewrite unmarshalPath_elem, matchPath_NoBusiness; [done|].
  eapply Forall_impl; [apply resultFields_topNames|].
  intros finfo Hin Heq. apply Hl. by rewrite <- Heq.
Qed.

Lemma unmarshalContent_known (o : operation) (content : list (string + xml.Element))
    (sv : Result o) :
  xml.unmarshalContent (resultFields o) content sv
  = xml.unmarshalContent (resultFields o) (filter (λ tok, knownTop tok) content) sv.
Proof.
  revert sv. induction content as [|tok content IH]; intros sv; [done|].
  rewrite unmarshalContent_cons.
  destruct (knownTop tok) eqn:Hk.
  - rewrite filter_cons_True by (by apply Is_true_true).
    rewrite unmarshalContent_cons. by apply andThen_ext.
  - rewrite filter_cons_False by (by apply Is_true_false).
    destruct tok as [txt|t]; cbn [contentStep xml.andThen xml.ok]; [apply IH|].
    rewrite unmarshalPath_unknown; [apply IH|].
    cbn [knownTop] in Hk. by apply bool_decide_eq_false in Hk.
Qed.

(** Decoding into a result whose root has the right name: the name is
    stored, the attributes are passed over, and the content goes down
    the paths of the fields. *)
Lemma unmarshal_root (o : operation) (nm : xml.Name) (attrs : list xml.Attr)
    (content : list (string + xml.Element)) (dst : Result o) :
  xml.Local nm = rootName o →
  @xml.unmarshal _ (Result_value o) (xml.Elem nm attrs content) dst
  = xml.unmarshalContent (resultFields o) content (setXMLName o nm dst).
Proof.
  intros Hnm.
  pose proof (resultFields_elements o) as Hel.
  assert (∀ xmlname,
            xmlname = Some (rootName o, setXMLName o) →
            xml.unmarshalStruct xmlname (resultFields o) (xml.Elem nm attrs content) dst
            = xml.unmarshalContent (resultFields o) content (setXMLName o nm dst)) as Hs.
  { intros ? ->. rewrite unmarshalStruct_unfold, Hnm.
    rewrite (bool_decide_eq_true_2 (rootName o = rootName o)) by done.
    rewrite andb_false_r. cbn [xml.andThen xml.ok negb].
    rewrite assignAttrs_elements_only by done. cbn [xml.andThen xml.ok].
    rewrite saveData_elements_only by done. apply andThen_ok. }
  destruct o; by apply Hs.
Qed.

Lemma unmarshal_wrong_root (o : operation) (nm : xml.Name) (attrs : list xml.Attr)
    (content : list (string + xml.Element)) (dst : Result o) :
  xml.Local nm ≠ rootName o →
  @xml.unmarshal _ (Result_value o) (xml.Elem nm attrs content) dst
  = xml.fail dst (xml_UnmarshalError
      ("expected element type <" +:+ rootName o +:+ "> but have <"
         +:+ xml.Local nm +:+ ">")).
Proof.
  intros Hnm.
  assert (∀ xmlname,
            xmlname = Some (rootName o, setXMLName o) →
            xml.unmarshalStruct xmlname (resultFields o) (xml.Elem nm attrs content) dst
            = xml.fail dst (xml_UnmarshalError
                ("expected element type <" +:+ rootName o +:+ "> but have <"
                   +:+ xml.Local nm +:+ ">"))) as Hs.
  { intros ? ->. rewrite unmarshalStruct_unfold.
    rewrite (bool_decide_eq_false_2 (rootName o = xml.Local nm)) by done.
    rewrite (bool_decide_eq_false_2 (rootName o = "")) by (by destruct o).
    reflexivity. }
  destruct o; by apply Hs.
Qed.

(** What a call returns once the service has answered with a
    document. *)
Lemma call_replies (o : operation) (z : zillow) (req : Request o) (net : Net)
    (doc : xml.Element) :
  replies o z req doc →
  (call o z req net).1
  = match @xml.unmarshal _ (Result_value o) doc (result0 o) with
    | (_, Some err) => (None, Some err)
    | (result, None) => (Some result, None)
    end.
Proof.
  intros (resp & Hrt & Hread). rewrite call_outcome, Hrt. cbn [fst].
  unfold decodeBody, Decode. by rewrite Hread.
Qed.

End Roots.

Lemma answering_replies (doc : xml.Element) (o : operation) (z : zillow) (req : Request o) :
  @replies (answering doc) o z req doc.
Proof. by eexists. Qed.
(** ** Replies and what the calls make of them *)

Section Replies.
Context `{W : World}.

(** The request echo and the message block of a reply are read back
    field by field, for every operation. *)
Lemma unmarshal_request_and_message (o : operation) (req : Request o) (m : Message.t)
    (sv : Result o) :
  request_in_range o req → Message_in_range m →
  xml.unmarshalContent (resultFields o) [inr (echo o req); inr (renderMessage m)] sv
  = xml.ok (setMessage o m (setRequest o req sv)).
Proof.
  intros Hreq Hm.
  pose proof (λ dst, unmarshal_echo o req dst Hreq) as He.
  pose proof (λ dst, unmarshal_renderMessage m dst Hm) as Hmsg.
  destruct o; cbn [Request_value Request Result resultFields setMessage setRequest] in *;
    repeat first [ rewrite He | rewrite Hmsg | xml_step ];
    by destruct sv.
Qed.

(** X1.  Every call returns either a result and no error, or an error and no
    result: never both, never neither. *)
Theorem call_returns_a_result_or_an_error
    (o : operation) (z : zillow) (req : Request o) (net : Net) :
  (∃ result, (call o z req net).1 = (Some result, None))
  ∨ (∃ err, (call o z req net).1 = (None, Some err)).
Proof.
  rewrite call_outcome. cbn [fst].
  destruct (roundTrip _) as [resp|err]; [|right; by eexists].
  destruct (decodeBody o _) as [result [err|]]; [right|left]; by eexists.
Qed.

(** X2.  A reply whose root element does not have the name that the result
    type of the operation asks for fails the call with the decoder's
    error that names both; no result is returned. *)
Theorem wrong_root_element_fails_the_call
    (o : operation) (z : zillow) (req : Request o) (net : Net)
    (nm : xml.Name) (attrs : list xml.Attr) (content : list (string + xml.Element)) :
  replies o z req (xml.Elem nm attrs content) →
  xml.Local nm ≠ rootName o →
  (call o z req net).1
  = (None, Some (xml_UnmarshalError
       ("expected element type <" +:+ rootName o +:+ "> but have <"
          +:+ xml.Local nm +:+ ">"))).
Proof.
  intros Hrep Hnm. rewrite (call_replies _ _ _ _ _ Hrep).
  by rewrite unmarshal_wrong_root.
Qed.

(** X3.  A reply with the right root in which no [request], [message] or
    [response] element stands is no error: the call returns the zero
    result with the name of the root, whatever attributes, text and
    other elements the root holds. *)
Theorem reply_without_known_elements_gives_the_zero_result
    (o : operation) (z : zillow) (req : Request o) (net : Net)
    (nm : xml.Name) (attrs : list xml.Attr) (content : list (string + xml.Element)) :
  replies o z req (xml.Elem nm attrs content) →
  xml.Local nm = rootName o →
  Forall (λ tok, knownTop tok = false) content →
  (call o z req net).1 = (Some (setXMLName o nm (result0 o)), None).
Proof.
  intros Hrep Hnm Hcontent. rewrite (call_replies _ _ _ _ _ Hrep).
  rewrite unmarshal_root, unmarshalContent_known by done.
  by rewrite filter_knownTop_nil.
Qed.

(** X4.  Decoding a reply looks at nothing in the content of the root but
    the elements named [request], [message] and [response]: the text
    between its elements and every element of another name can be taken
    away, the root keeping its name and attributes, without changing
    what is decoded, value and error alike. *)
Theorem unknown_content_of_the_root_is_skipped
    (o : operation) (nm : xml.Name) (attrs : list xml.Attr)
    (content : list (string + xml.Element)) (dst : Result o) :
  @xml.unmarshal _ (Result_value o) (xml.Elem nm attrs content) dst
  = @xml.unmarshal _ (Result_value o)
      (xml.Elem nm attrs (filter (λ tok, knownTop tok) content)) dst.
Proof.
  destruct (decide (xml.Local nm = rootName o)) as [Hnm|Hnm].
  - rewrite !unmarshal_root by done. apply unmarshalContent_known.
  - by rewrite !unmarshal_wrong_root.
Qed.

(** X5.  A reply that holds the echo of a request and a message block, as the
    service sends when it reports an error, is read back field by field:
    the result holds that request and that message, and the call
    returns it without an error for every operation. *)
Theorem request_echo_and_message_are_read_back
    (o : operation) (z : zillow) (req : Request o) (net : Net)
    (echoed : Request o) (m : Message.t) :
  replies o z req (reply o [inr (echo o echoed); inr (renderMessage m)]) →
  request_in_range o echoed →
  Message_in_range m →
  (call o z req net).1
  = (Some (setMessage o m (setRequest o echoed
             (setXMLName o (xml.mkName "" (rootName o)) (result0 o)))), None).
Proof.
  intros Hrep Hreq Hm. rewrite (call_replies _ _ _ _ _ Hrep).
  unfold reply. rewrite unmarshal_root by done.
  by rewrite unmarshal_request_and_message.
Qed.

(** X6.  A message block whose [code] is not a numeral fails the whole call
    with the error of [strconv.ParseInt]; no result is returned. *)
Theorem message_code_that_is_no_number_fails_the_call
    (o : operation) (z : zillow) (req : Request o) (net : Net)
    (code : string) (err : error) :
  replies o z req (reply o [inr (el "message" [] [leaf "code" code])]) →
  code ≠ "" →
  strconv.ParseInt (strings.TrimSpace code) = inr err →
  (call o z req net).1 = (None, Some err).
Proof.
  intros Hrep Hne Herr. rewrite (call_replies _ _ _ _ _ Hrep).
  unfold reply. rewrite unmarshal_root by done.
  assert (∀ dst : Message.t,
            (xml.unmarshal (xml.Elem (xml.mkName "" "message") []
                              [inr (xml.Elem (xml.mkName "" "code") [] [inl code])]) dst).2
            = Some err) as Hmsg.
  { intros dst. unfold xml.unmarshal at 1. cbn [xml.kind Message_value xml.structValue].
    repeat xml_step.
    unfold xml.unmarshal. cbn [xml.kind xml.int_value xml.elContent].
    rewrite charData_text, bool_decide_eq_false_2, Herr by done. reflexivity. }
  destruct o; cbn [Result resultFields setXMLName result0 rootName];
    repeat xml_step;
    match goal with
    | |- context [xml.unmarshal ?e ?d] =>
        pose proof (Hmsg d) as Hd; destruct (xml.unmarshal e d) as [fv e']
    end;
    cbn [snd] in Hd; by subst e'.
Qed.

End Replies.
(** ** Responses read back *)

Section Responses.
Context `{W : World}.

(** X7.  [GetZestimate] returns a result as the reply carries it: the
    request echo, the message, the links, the valuation with amount,
    currency, date, change, range and percentile, and the four region
    ids, each under the path of its tag.  The address and the regions of
    the local real estate, which hold floating-point numbers, are left
    out of the reply and stay zero. *)
Theorem zestimate_result_is_read_back
    (z : zillow) (req : ZestimateRequest.t) (net : Net) (r : ZestimateResult.t) :
  replies OpZestimate z req (renderZestimateResult r) →
  ZestimateResult_in_range r →
  (GetZestimate z req net).1 = (Some r, None).
Proof.
  intros Hrep (Hnm & Hl & Hm & Hz & Ha & Hre).
  change (GetZestimate z req net) with (call OpZestimate z req net).
  rewrite (call_replies _ _ _ _ _ Hrep). clear Hrep.
  unfold renderZestimateResult. rewrite (unmarshal_root OpZestimate) by done.
  destruct r as [nm rq m l a ze lre zid cid coid sid].
  cbn [ZestimateResult.XMLName ZestimateResult.Request ZestimateResult.Message
       ZestimateResult.Links ZestimateResult.Address ZestimateResult.Zestimate
       ZestimateResult.LocalRealEstate ZestimateResult.ZipcodeID ZestimateResult.CityID
       ZestimateResult.CountyID ZestimateResult.StateID] in *.
  subst a lre.
  pose proof (λ dst, unmarshal_echo OpZestimate rq dst I) as He.
  pose proof (λ dst, unmarshal_renderMessage m dst Hm) as Hmsg.
  pose proof (λ dst, unmarshal_renderLinks l dst Hl) as Hlinks.
  pose proof (λ nm dst, unmarshal_renderZestimate nm ze dst Hz) as Hzest.
  assert (xml.elName (renderLinks l) = xml.mkName (xml.Space (Links.XMLName l)) "links")
    as Hlname by (destruct l as [[sp lo] ? ? ? ? ?]; cbn in *; by subst).
  cbn [Request_value Request Result resultFields setXMLName result0 rootName] in *.
  repeat first [ rewrite He | rewrite Hmsg | rewrite Hlinks | rewrite Hzest
               | rewrite Hlname | xml_step ].
  reflexivity.
Qed.

(** X9.  [GetChart] returns a chart result as the reply carries it: the
    request echo, the message and the URL of the chart, which is handed
    on as text, byte for byte. *)
Theorem chart_result_is_read_back
    (z : zillow) (req : ChartRequest.t) (net : Net) (r : ChartResult.t) :
  replies OpChart z req (renderChartResult r) →
  ChartResult_in_range r →
  (GetChart z req net).1 = (Some r, None).
Proof.
  intros Hrep (Hnm & Hreq & Hm).
  change (GetChart z req net) with (call OpChart z req net).
  rewrite (call_replies _ _ _ _ _ Hrep).
  unfold renderChartResult. rewrite (unmarshal_root OpChart) by done.
  pose proof (λ dst, unmarshal_echo OpChart (ChartResult.Request r) dst Hreq) as He.
  pose proof (λ dst, unmarshal_renderMessage (ChartResult.Message r) dst Hm) as Hmsg.
  cbn [Request_value Request Result resultFields setXMLName result0 rootName] in *.
  repeat first [ rewrite He | rewrite Hmsg | xml_step ].
  by destruct r.
Qed.

Lemma matchPath_result :
  xml.matchPath SearchResults_fields ["response"; "results"] "result"
  = xml.Perfect (xml.field "response>results>result"
                   SearchResults.Results SearchResults.set_Results).
Proof. reflexivity. Qed.

(** The [result] elements under [response>results] are appended to
    [Results] one by one, in document order. *)
Lemma results_in_document_order (rs : list xml.Element) (xs : list SearchResult.t)
    (sv : SearchResults.t) :
  Forall (λ c, xml.Local (xml.elName c) = "result") rs →
  Forall2 (λ c x, xml.unmarshal c SearchResult.zero = (x, None)) rs xs →
  xml.unmarshalChildren SearchResults_fields ["response"; "results"] (inr <$> rs) sv
  = xml.ok (SearchResults.set_Results (SearchResults.Results sv ++ xs) sv).
Proof.
  intros Hnames Hdec. revert sv Hnames.
  induction Hdec as [|c x cs xs Hc _ IH]; intros sv Hnames.
  - cbn. rewrite app_nil_r. by destruct sv.
  - apply Forall_cons in Hnames as [Hname Hnames].
    cbn [fmap list_fmap].
    rewrite unmarshalChildren_cons, unmarshalPath_elem, Hname, matchPath_result,
      field_storeElement.
    cbn [snd]. unfold xml.through.
    unfold xml.unmarshal at 1. cbn [xml.kind xml.slice_value].
    change (@xml.zero SearchResult.t SearchResult_value) with SearchResult.zero.
    rewrite Hc. cbn [xml.ok xml.andThen].
    rewrite IH by done. f_equal. destruct sv. cbn. by rewrite <- app_assoc.
Qed.

(** X10.  [GetSearchResults] returns one entry for every [result] element of
    the reply, in the order of the document, each as the element decodes
    on its own; however many there are. *)
Theorem search_results_are_returned_in_document_order
    (z : zillow) (req : SearchRequest.t) (net : Net)
    (rs : list xml.Element) (xs : list SearchResult.t) :
  replies OpSearchResults z req
    (reply OpSearchResults
       [inr (el "response" [] [inr (el "results" [] (inr <$> rs))])]) →
  Forall (λ c, xml.Local (xml.elName c) = "result") rs →
  Forall2 (λ c x, xml.unmarshal c SearchResult.zero = (x, None)) rs xs →
  (GetSearchResults z req net).1
  = (Some (SearchResults.set_Results xs
             (SearchResults.set_XMLName (xml.mkName "" "searchresults") SearchResults.zero)),
     None).
Proof.
  intros Hrep Hnames Hdec.
  change (GetSearchResults z req net) with (call OpSearchResults z req net).
  rewrite (call_replies _ _ _ _ _ Hrep).
  unfold reply. rewrite unmarshal_root by done.
  cbn [Result resultFields setXMLName result0 rootName].
  rewrite unmarshalContent_cons. cbn [contentStep].
  rewrite unmarshalPath_elem.
  change (xml.matchPath SearchResults_fields [] _) with
    (@xml.Prefix SearchResults.t ["response"]).
  cbn [snd el xml.elContent].
  rewrite unmarshalChildren_cons, unmarshalPath_elem.
  change (xml.matchPath SearchResults_fields ["response"] _) with
    (@xml.Prefix SearchResults.t ["response"; "results"]).
  cbn [snd el xml.elContent].
  rewrite (results_in_document_order rs xs) by done.
  reflexivity.
Qed.

Lemma unmarshal_renderRegion (r : Region.t) :
  Region_in_range r →
  xml.unmarshal (renderRegion r) Region.zero = (r, None).
Proof.
  intros [Hnm Hf]. unfold renderRegion.
  unfold xml.unmarshal at 1. cbn [xml.kind Region_value xml.structValue].
  rewrite unmarshalStruct_unfold, Hnm.
  repeat xml_step.
  destruct r. cbn in Hf. by subst.
Qed.

Lemma matchPath_region :
  xml.matchPath ZestimateResult_fields ["response"; "localRealEstate"] "region"
  = xml.Perfect (xml.field "response>localRealEstate>region"
                   ZestimateResult.LocalRealEstate ZestimateResult.set_LocalRealEstate).
Proof. reflexivity. Qed.

(** The [region] elements under [response>localRealEstate] are appended
    to [LocalRealEstate] one by one, in document order. *)
Lemma regions_in_document_order (cs : list xml.Element) (xs : list Region.t)
    (sv : ZestimateResult.t) :
  Forall (λ c, xml.Local (xml.elName c) = "region") cs →
  Forall2 (λ c x, xml.unmarshal c Region.zero = (x, None)) cs xs →
  xml.unmarshalChildren ZestimateResult_fields ["response"; "localRealEstate"]
    (inr <$> cs) sv
  = xml.ok (ZestimateResult.set_LocalRealEstate
              (ZestimateResult.LocalRealEstate sv ++ xs) sv).
Proof.
  intros Hnames Hdec. revert sv Hnames.
  induction Hdec as [|c x cs xs Hc _ IH]; intros sv Hnames.
  - cbn. rewrite app_nil_r. by destruct sv.
  - apply Forall_cons in Hnames as [Hname Hnames].
    cbn [fmap list_fmap].
    rewrite unmarshalChildren_cons, unmarshalPath_elem, Hname, matchPath_region,
      field_storeElement.
    cbn [snd]. unfold xml.through.
    unfold xml.unmarshal at 1. cbn [xml.kind xml.slice_value].
    change (@xml.zero Region.t Region_value) with Region.zero.
    rewrite Hc. cbn [xml.ok xml.andThen].
    rewrite IH by done. f_equal. destruct sv. cbn. by rewrite <- app_assoc.
Qed.

(** X8.  [GetZestimate] returns the regions of the local real estate as the
    reply lists them, in the order of the document and however many:
    each with the id, type and name of its attributes, its index value
    and the three links under [links]. *)
Theorem local_real_estate_is_read_back_in_order
    (z : zillow) (req : ZestimateRequest.t) (net : Net) (regions : list Region.t) :
  replies OpZestimate z req
    (reply OpZestimate
       [inr (el "response" []
          [inr (el "localRealEstate" [] (inr <$> (renderRegion <$> regions)))])]) →
  Forall Region_in_range regions →
  (GetZestimate z req net).1
  = (Some (ZestimateResult.set_LocalRealEstate regions
             (ZestimateResult.set_XMLName (xml.mkName "" "zestimate") ZestimateResult.zero)),
     None).
Proof.
  intros Hrep Hregions.
  change (GetZestimate z req net) with (call OpZestimate z req net).
  rewrite (call_replies _ _ _ _ _ Hrep).
  unfold reply. rewrite unmarshal_root by done.
  cbn [Result resultFields setXMLName result0 rootName].
  rewrite unmarshalContent_cons. cbn [contentStep].
  rewrite unmarshalPath_elem.
  change (xml.matchPath ZestimateResult_fields [] _) with
    (@xml.Prefix ZestimateResult.t ["response"]).
  cbn [snd el xml.elContent].
  rewrite unmarshalChildren_cons, unmarshalPath_elem.
  change (xml.matchPath ZestimateResult_fields ["response"] _) with
    (@xml.Prefix ZestimateResult.t ["response"; "localRealEstate"]).
  cbn [snd el xml.elContent].
  rewrite (regions_in_document_order (renderRegion <$> regions) regions).
  - reflexivity.
  - apply Forall_fmap. eapply Forall_impl; [exact Hregions|]. by intros r [Hnm _].
  - apply Forall2_fmap_l, Forall_Forall2_diag.
    eapply Forall_impl; [exact Hregions|]. intros r Hr. by apply unmarshal_renderRegion.
Qed.

End Responses.
(** ** The query on the wire *)

Lemma append_inj_l (s a b : string) : s +:+ a = s +:+ b → a = b.
Proof.
  induction s as [|c s IH]; [done|].
  rewrite !append_cons. intros [= H]. by apply IH.
Qed.

Lemma QueryEscape_byte_safe (c : ascii) :
  allBytes urlSafeByte (url.QueryEscape (String c "")) = true.
Proof. destruct c as [[] [] [] [] [] [] [] []]; vm_compute; reflexivity. Qed.

Lemma QueryEscape_safe (s : string) : allBytes urlSafeByte (url.QueryEscape s) = true.
Proof.
  induction s as [|c s IH]; [done|].
  by rewrite QueryEscape_cons, allBytes_append, QueryEscape_byte_safe, IH.
Qed.

Lemma joinAmp_safe (l : list string) :
  Forall (λ x, allBytes urlSafeByte x = true) l →
  allBytes urlSafeByte (joinAmp l) = true.
Proof.
  induction 1 as [|x l Hx Hl IH]; [done|].
  destruct l as [|y l]; [done|].
  rewrite joinAmp_cons, !allBytes_append, Hx, IH. reflexivity.
Qed.

(** Unescaping undoes escaping, byte by byte. *)
Lemma QueryUnescape_QueryEscape_byte (c : ascii) (t : string) :
  QueryUnescape (url.QueryEscape (String c "") +:+ t) = String c <$> QueryUnescape t.
Proof. destruct c as [[] [] [] [] [] [] [] []]; reflexivity. Qed.

Lemma QueryUnescape_QueryEscape (s : string) :
  QueryUnescape (url.QueryEscape s) = Some s.
Proof.
  induction s as [|c s IH]; [done|].
  by rewrite QueryEscape_cons, QueryUnescape_QueryEscape_byte, IH.
Qed.

Lemma QueryEscape_inj (s t : string) : url.QueryEscape s = url.QueryEscape t → s = t.
Proof.
  intros Heq. apply (f_equal QueryUnescape) in Heq.
  rewrite !QueryUnescape_QueryEscape in Heq. by injection Heq.
Qed.

Lemma Itoa_inj (i j : int) : strconv.Itoa i = strconv.Itoa j → i = j.
Proof.
  intros Heq. apply (f_equal readDecimal) in Heq.
  rewrite !readDecimal_Itoa in Heq. by injection Heq.
Qed.

Lemma FormatBool_inj (a b : bool) : strconv.FormatBool a = strconv.FormatBool b → a = b.
Proof. by destruct a, b. Qed.

Lemma readBack_wireValue {R} (z : zillow) (req : R) (src : paramSource R) :
  readBack z req src (wireValue z req src).
Proof.
  destruct src as [|f|f|f]; unfold readBack, wireValue.
  - apply QueryUnescape_QueryEscape.
  - apply QueryUnescape_QueryEscape.
  - destruct (f req); reflexivity.
  - rewrite QueryEscape_numeral by apply Itoa_bytes. apply readDecimal_Itoa.
Qed.

(** Every documented parameter stands on the wire with its wire
    value. *)
Lemma queryPairs_documented (o : operation) (z : zillow) (req : Request o) :
  Forall (λ p, (p.1, wireValue z req p.2) ∈ queryPairs (url.Encode (values o z req)))
    (documented o).
Proof.
  destruct o; wire_pairs; cbn [documented]; repeat constructor;
    unfold wireValue; cbn [fst snd]; rewrite !elem_of_cons; tauto.
Qed.

(** X11.  Whatever the caller puts into the fields of a request and into the
    key, the query holds no byte but letters, digits, the marks [-_.~],
    the plus and percent signs of escapes and the separators [&] and
    [=]: nothing in a field can end the query or the URL. *)
Theorem query_holds_only_url_safe_bytes (v : url.Values) :
  allBytes urlSafeByte (url.Encode v) = true
  ∧ ∀ (o : operation) (z : zillow) (req : Request o),
      allBytes urlSafeByte (url.Encode (values o z req)) = true.
Proof.
  assert (∀ v : url.Values, allBytes urlSafeByte (url.Encode v) = true) as Hall.
  { clear v. intros v. unfold url.Encode. rewrite Encode_ranged_joinAmp.
    apply joinAmp_safe, Forall_fmap, Forall_forall. intros [k e] Hin.
    unfold encodedPairs in Hin.
    apply list_elem_of_bind in Hin as (k' & Hin & _).
    apply list_elem_of_fmap in Hin as (x & [= -> ->] & _).
    cbn. unfold showPair. cbn [fst snd].
    by rewrite !allBytes_append, !QueryEscape_safe. }
  split; [apply Hall|]. intros o z req. apply Hall.
Qed.

(** X12.  The query can be read back: for every documented parameter the
    query holds a pair under its key whose value, unescaped, is the
    text of the field or the key of the client, parsed as a truth value
    is the flag of the field, and read as a decimal numeral is the
    number of the field. *)
Theorem request_is_read_back_from_the_query
    (o : operation) (z : zillow) (req : Request o) :
  Forall (λ p, ∃ e, (p.1, e) ∈ queryPairs (url.Encode (values o z req))
                    ∧ readBack z req p.2 e)
    (documented o).
Proof.
  eapply Forall_impl; [apply queryPairs_documented|].
  intros [k src] Hin. eexists. split; [exact Hin|]. apply readBack_wireValue.
Qed.

(** X13.  Two requests of an operation that differ in some field are sent to
    different URLs by the same client. *)
Theorem different_requests_have_different_urls
    (o : operation) (z : zillow) (req1 req2 : Request o) :
  req1 ≠ req2 →
  requestURL z (servicePath o) (values o z req1)
  ≠ requestURL z (servicePath o) (values o z req2).
Proof.
  intros Hne Hurl. apply Hne. clear Hne. unfold requestURL in Hurl.
  do 4 apply append_inj_l in Hurl.
  apply (f_equal queryPairs) in Hurl. rewrite !queryPairs_values in Hurl.
  destruct o;
    unfold encodedPairs, wireKeys, values, GetZestimate_values,
      GetSearchResults_values, GetChart_values, GetComps_values in Hurl;
    cbn [mbind list_bind] in Hurl; simplify_map_eq;
    repeat match goal with
    | H : url.QueryEscape _ = url.QueryEscape _ |- _ => apply QueryEscape_inj in H
    | H : strconv.Itoa _ = strconv.Itoa _ |- _ => apply Itoa_inj in H
    | H : strconv.FormatBool _ = strconv.FormatBool _ |- _ => apply FormatBool_inj in H
    end;
    destruct req1, req2; cbn in *; congruence.
Qed.
(** ** The further properties at concrete replies *)

Lemma wrong_root_witness :
  @replies (answering stub_html_doc) OpComps (NewZillow stub_key) stub_comps_request
     (xml.Elem (xml.mkName "" "html") [] [leaf "body" "Service Unavailable"])
  ∧ "html" ≠ rootName OpComps
  ∧ (@call (answering stub_html_doc) OpComps (NewZillow stub_key) stub_comps_request []).1
    = (None, Some (xml_UnmarshalError "expected element type <comps> but have <html>")).
Proof.
  assert ("html" ≠ rootName OpComps) as Hne by discriminate.
  split; [apply answering_replies|]. split; [exact Hne|].
  exact (@wrong_root_element_fails_the_call (answering stub_html_doc) OpComps
           (NewZillow stub_key) stub_comps_request [] (xml.mkName "" "html") []
           [leaf "body" "Service Unavailable"] (answering_replies _ _ _ _) Hne).
Defined.

Lemma zero_result_witness :
  @replies (answering stub_notice_doc) OpZestimate (NewZillow stub_key) stub_ok_request
     stub_notice_doc
  ∧ Forall (λ tok, knownTop tok = false) stub_notice_content
  ∧ (@call (answering stub_notice_doc) OpZestimate (NewZillow stub_key) stub_ok_request []).1
    = (Some (ZestimateResult.set_XMLName (xml.mkName "" "zestimate") ZestimateResult.zero),
       None).
Proof.
  assert (Forall (λ tok, knownTop tok = false) stub_notice_content) as Hall
    by (repeat constructor).
  split; [apply answering_replies|]. split; [exact Hall|].
  exact (@reply_without_known_elements_gives_the_zero_result (answering stub_notice_doc)
           OpZestimate (NewZillow stub_key) stub_ok_request [] (xml.mkName "" "zestimate")
           [attr "version" "1.1"] _ (answering_replies _ _ _ _) eq_refl Hall).
Defined.

Lemma request_echo_and_message_witness :
  @replies (answering stub_chart_error_doc) OpChart (NewZillow stub_key) stub_chart_request
     stub_chart_error_doc
  ∧ request_in_range OpChart stub_chart_request
  ∧ Message_in_range stub_chart_message
  ∧ (@call (answering stub_chart_error_doc) OpChart (NewZillow stub_key)
       stub_chart_request []).1
    = (Some (ChartResult.mk (xml.mkName "" "chart") stub_chart_request stub_chart_message ""),
       None).
Proof.
  assert (request_in_range OpChart stub_chart_request) as Hreq
    by (split; unfold in_int64; cbn; lia).
  assert (Message_in_range stub_chart_message) as Hm
    by (unfold Message_in_range, in_int64; cbn; lia).
  split; [apply answering_replies|]. split; [exact Hreq|]. split; [exact Hm|].
  exact (@request_echo_and_message_are_read_back (answering stub_chart_error_doc) OpChart
           (NewZillow stub_key) stub_chart_request [] stub_chart_request stub_chart_message
           (answering_replies _ _ _ _) Hreq Hm).
Defined.

Lemma message_code_witness :
  @replies (answering stub_code_doc) OpSearchResults (NewZillow stub_key)
     stub_search_request stub_code_doc
  ∧ "five" ≠ ""
  ∧ strconv.ParseInt (strings.TrimSpace "five")
    = inr (strconv_NumError "ParseInt" "five" ErrSyntax)
  ∧ (@call (answering stub_code_doc) OpSearchResults (NewZillow stub_key)
       stub_search_request []).1
    = (None, Some (strconv_NumError "ParseInt" "five" ErrSyntax)).
Proof.
  assert ("five" ≠ "") as Hne by discriminate.
  assert (strconv.ParseInt (strings.TrimSpace "five")
          = inr (strconv_NumError "ParseInt" "five" ErrSyntax)) as Herr
    by (vm_compute; reflexivity).
  split; [apply answering_replies|]. split; [exact Hne|]. split; [exact Herr|].
  exact (@message_code_that_is_no_number_fails_the_call (answering stub_code_doc)
           OpSearchResults (NewZillow stub_key) stub_search_request []
           "five" _ (answering_replies _ _ _ _) Hne Herr).
Defined.

Lemma zestimate_result_witness :
  @replies (answering (renderZestimateResult stub_valuation_result)) OpZestimate
     (NewZillow stub_key) stub_ok_request (renderZestimateResult stub_valuation_result)
  ∧ ZestimateResult_in_range stub_valuation_result
  ∧ (@GetZestimate (answering (renderZestimateResult stub_valuation_result))
       (NewZillow stub_key) stub_ok_request []).1
    = (Some stub_valuation_result, None).
Proof.
  assert (ZestimateResult_in_range stub_valuation_result) as Hr
    by (repeat split; cbn; lia).
  split; [apply answering_replies|]. split; [exact Hr|].
  exact (@zestimate_result_is_read_back (answering (renderZestimateResult stub_valuation_result))
           (NewZillow stub_key) stub_ok_request [] stub_valuation_result
           (answering_replies _ OpZestimate _ _) Hr).
Defined.

Lemma chart_result_witness :
  @replies (answering (renderChartResult stub_chart_result)) OpChart (NewZillow stub_key)
     stub_chart_request (renderChartResult stub_chart_result)
  ∧ ChartResult_in_range stub_chart_result
  ∧ (@GetChart (answering (renderChartResult stub_chart_result)) (NewZillow stub_key)
       stub_chart_request []).1
    = (Some stub_chart_result, None).
Proof.
  assert (ChartResult_in_range stub_chart_result) as Hr
    by (repeat split; cbn; lia).
  split; [apply answering_replies|]. split; [exact Hr|].
  exact (@chart_result_is_read_back (answering (renderChartResult stub_chart_result))
           (NewZillow stub_key) stub_chart_request [] stub_chart_result
           (answering_replies _ OpChart _ _) Hr).
Defined.

Lemma search_results_witness :
  @replies (answering stub_results_doc) OpSearchResults (NewZillow stub_key)
     stub_search_request stub_results_doc
  ∧ Forall (λ c, xml.Local (xml.elName c) = "result") stub_results
  ∧ Forall2 (λ c x, @xml.unmarshal _ (@SearchResult_value (answering stub_results_doc))
                      c SearchResult.zero = (x, None))
      stub_results stub_results_decoded
  ∧ (@GetSearchResults (answering stub_results_doc) (NewZillow stub_key)
       stub_search_request []).1
    = (Some (SearchResults.mk (xml.mkName "" "searchresults") SearchRequest.zero
               Message.zero stub_results_decoded),
       None).
Proof.
  assert (Forall (λ c, xml.Local (xml.elName c) = "result") stub_results) as Hnames
    by (repeat constructor).
  assert (Forall2 (λ c x, @xml.unmarshal _ (@SearchResult_value (answering stub_results_doc))
                            c SearchResult.zero = (x, None))
            stub_results stub_results_decoded) as Hdec
    by (repeat constructor; vm_compute; reflexivity).
  split; [apply answering_replies|]. split; [exact Hnames|]. split; [exact Hdec|].
  exact (@search_results_are_returned_in_document_order (answering stub_results_doc)
           (NewZillow stub_key) stub_search_request [] stub_results stub_results_decoded
           (answering_replies _ OpSearchResults _ _) Hnames Hdec).
Defined.

Lemma different_requests_witness :
  stub_ok_request ≠ stub_bad_request
  ∧ requestURL (NewZillow stub_key) (servicePath OpZestimate)
      (values OpZestimate (NewZillow stub_key) stub_ok_request)
    ≠ requestURL (NewZillow stub_key) (servicePath OpZestimate)
        (values OpZestimate (NewZillow stub_key) stub_bad_request).
Proof.
  assert (stub_ok_request ≠ stub_bad_request) as Hne by discriminate.
  split; [exact Hne|].
  exact (different_requests_have_different_urls OpZestimate (NewZillow stub_key)
           stub_ok_request stub_bad_request Hne).
Defined.

Lemma local_real_estate_witness :
  @replies (answering stub_regions_doc) OpZestimate (NewZillow stub_key) stub_ok_request
     stub_regions_doc
  ∧ Forall Region_in_range stub_regions
  ∧ (@GetZestimate (answering stub_regions_doc) (NewZillow stub_key) stub_ok_request []).1
    = (Some (ZestimateResult.set_LocalRealEstate stub_regions
               (ZestimateResult.set_XMLName (xml.mkName "" "zestimate")
                  ZestimateResult.zero)),
       None).
Proof.
  assert (Forall Region_in_range stub_regions) as Hr by (repeat constructor).
  split; [apply answering_replies|]. split; [exact Hr|].
  exact (@local_real_estate_is_read_back_in_order (answering stub_regions_doc)
           (NewZillow stub_key) stub_ok_request [] stub_regions
           (answering_replies _ OpZestimate _ _) Hr).
Defined.
